(** * scx_wd40: the BPF scheduling core (main.bpf.c), embedded in Rocq

    The hooks of [scheds/rust/scx_wd40/src/bpf/main.bpf.c] are written as
    functions over an explicit scheduler state.  Kernel helpers (kfuncs) and
    the entry points of the headers that main.bpf.c includes (deadline.h,
    lb_domain.h) are parameters of the development, so every theorem holds for
    any kernel and any fairness engine.  Each call of a kernel helper that
    matters for the scheduling decisions is also recorded in a trace. *)

From Stdlib Require Import ZArith Lia List Bool.
From stdpp Require Import base option list gmap.

Local Open Scope Z_scope.

(** ** Fixed-width integers *)

Definition u32 (z : Z) : Z := z mod 2 ^ 32.
Definition u64 (z : Z) : Z := z mod 2 ^ 64.

(** A [u32] read as an [int] (two's complement). *)
Definition s32 (z : Z) : Z := (z + 2 ^ 31) mod 2 ^ 32 - 2 ^ 31.

(** [flags & bit] as a C condition. *)
Definition flag_set (flags bit : Z) : bool := negb (Z.land flags bit =? 0).

(** [1 << n] for the [int] 1 and a [u32] [n], as the operand of [&] with a
    [u32].  C defines it for [n < 32] only (for [n = 31] it is the sign bit,
    bit 31 of the [u32]); from 32 on the model follows the 32-bit shift of
    BPF, which takes the amount modulo 32. *)
Definition int_shl_1 (n : Z) : Z := u32 (Z.shiftl 1 (n mod 32)).

(** ** CPU masks

    A [struct cpumask] is a bitset over CPU ids: bit [c] is CPU [c]. *)

Definition cpumask := Z.

Definition bpf_cpumask_test_cpu (cpu : Z) (m : cpumask) : bool := Z.testbit m cpu.

Definition bpf_cpumask_set_cpu (cpu : Z) (m : cpumask) : cpumask :=
  if 0 <=? cpu then Z.setbit m cpu else m.

Definition bpf_cpumask_clear_cpu (cpu : Z) (m : cpumask) : cpumask :=
  if 0 <=? cpu then Z.clearbit m cpu else m.

Definition bpf_cpumask_intersects (a b : cpumask) : bool := negb (Z.land a b =? 0).

Definition bpf_cpumask_and (a b : cpumask) : cpumask := Z.land a b.

Definition bpf_cpumask_empty (m : cpumask) : bool := m =? 0.

(** [bpf_cpumask_subset a b]: every CPU of [a] is in [b]. *)
Definition bpf_cpumask_subset (a b : cpumask) : bool := Z.ldiff a b =? 0.

(** ** Kernel constants (vmlinux.h) *)

Definition PF_EXITING : Z := 0x4.
Definition PF_WQ_WORKER : Z := 0x20.
Definition PF_KTHREAD : Z := 0x200000.
Definition SCX_TASK_QUEUED : Z := 1.
Definition SCX_WAKE_SYNC : Z := 0x10.
Definition SCX_PICK_IDLE_CORE : Z := 1.
Definition SCX_KICK_IDLE : Z := 1.
Definition SCX_DSQ_LOCAL : Z := 0x8000000000000002.
Definition SCX_DSQ_LOCAL_ON : Z := 0xC000000000000000.
Definition MPOL_PREFERRED : Z := 1.
Definition MPOL_BIND : Z := 2.
Definition MPOL_PREFERRED_MANY : Z := 5.
Definition ENOENT : Z := 2.
Definition ENOMEM : Z := 12.
Definition EBUSY : Z := 16.
Definition BPF_MAX_LOOPS : Z := 8 * 1024 * 1024.

(** ** Bounded loops

    Modelled from the spec: [bpf_repeat(N)] and [bpf_for(i, start, end)] of the
    absent scx/common.bpf.h, loops "bounded to" their argument.  They run on the
    kernel's numeric iterator, whose bounds are [int]s: the loop body runs for
    [start], [start + 1], ..., [end - 1], and not at all when [end < start] or
    when the range is longer than [BPF_MAX_LOOPS]. *)

Definition bpf_iter_num (start end_ : Z) : list Z :=
  if (start <=? end_) && (end_ - start <=? BPF_MAX_LOOPS)
  then seqZ start (end_ - start) else [].

(** Number of iterations of [bpf_repeat(n)] for a [u32] argument. *)
Definition bpf_repeat (n : Z) : nat := length (bpf_iter_num 0 (s32 n)).

(** ** Static configuration

    The [const volatile] globals of main.bpf.c, fixed at load time, and the
    constants of the absent intf.h that the code refers to. *)

Record config := {
  MAX_CPUS : Z;
  MAX_DOMS : Z;
  MAX_DOM_ACTIVE_TPTRS : Z;
  NO_DOM_FOUND : Z;
  nr_doms : Z;
  nr_nodes : Z;
  nr_cpu_ids : Z;
  cpu_dom_id_map : list Z;
  kthreads_local : bool;
  fifo_sched : bool;
  direct_greedy_numa : bool;
  mempolicy_affinity : bool;
  greedy_threshold : Z;
  greedy_threshold_x_numa : Z
}.

(** ** Data model *)

(** [struct mempolicy], as far as main.bpf.c reads it.  [mp_nodes] is the
    first word of [nodes.bits], [None] when [bpf_core_read] fails. *)
Record mempolicy := {
  mp_mode : Z;
  mp_home_node : Z;
  mp_nodes : option Z
}.

(** [struct task_struct], as far as main.bpf.c reads or writes it.  [tptr] is
    the address of the task, the key of the task maps. *)
Record task_struct := {
  tptr : Z;
  p_pid : Z;
  p_flags : Z;
  cpus_ptr : cpumask;
  nr_cpus_allowed : Z;
  scx_flags : Z;
  scx_dsq_vtime : Z;
  p_mempolicy : option mempolicy
}.

Definition set_scx_dsq_vtime (v : Z) (p : task_struct) : task_struct :=
  {| tptr := tptr p; p_pid := p_pid p; p_flags := p_flags p;
     cpus_ptr := cpus_ptr p; nr_cpus_allowed := nr_cpus_allowed p;
     scx_flags := scx_flags p; scx_dsq_vtime := v;
     p_mempolicy := p_mempolicy p |}.

(** [struct ravg_data] (running average of the duty cycle). *)
Record ravg_data := {
  rd_val : Z;
  rd_val_at : Z;
  rd_old : Z;
  rd_cur : Z
}.

(** [struct task_ctx] (types.h is absent; these are the fields main.bpf.c
    uses).  [domc] is a pointer to the domain context: the key of that context
    in the domain store, [None] for NULL. *)
Record task_ctx := {
  target_dom : Z;
  domc : option Z;
  dom_mask : Z;
  preferred_dom_mask : Z;
  dispatch_local : bool;
  all_cpus : bool;
  is_kworker : bool;
  runnable : bool;
  dom_active_tasks_gen : Z;
  weight : Z;
  sum_runtime : Z;
  waker_freq : Z;
  last_woke_at : Z;
  blocked_freq : Z;
  last_blocked_at : Z;
  last_run_at : Z;
  pid : Z;
  dcyc_rd : ravg_data
}.

Definition set_target_dom (v : Z) (r : task_ctx) : task_ctx :=
  {| target_dom := v; domc := domc r; dom_mask := dom_mask r;
     preferred_dom_mask := preferred_dom_mask r; dispatch_local :=
     dispatch_local r; all_cpus := all_cpus r; is_kworker := is_kworker r;
     runnable := runnable r; dom_active_tasks_gen := dom_active_tasks_gen r;
     weight := weight r; sum_runtime := sum_runtime r; waker_freq :=
     waker_freq r; last_woke_at := last_woke_at r; blocked_freq :=
     blocked_freq r; last_blocked_at := last_blocked_at r; last_run_at :=
     last_run_at r; pid := pid r; dcyc_rd := dcyc_rd r |}.

Definition set_domc (v : option Z) (r : task_ctx) : task_ctx :=
  {| target_dom := target_dom r; domc := v; dom_mask := dom_mask r;
     preferred_dom_mask := preferred_dom_mask r; dispatch_local :=
     dispatch_local r; all_cpus := all_cpus r; is_kworker := is_kworker r;
     runnable := runnable r; dom_active_tasks_gen := dom_active_tasks_gen r;
     weight := weight r; sum_runtime := sum_runtime r; waker_freq :=
     waker_freq r; last_woke_at := last_woke_at r; blocked_freq :=
     blocked_freq r; last_blocked_at := last_blocked_at r; last_run_at :=
     last_run_at r; pid := pid r; dcyc_rd := dcyc_rd r |}.

Definition set_dom_mask (v : Z) (r : task_ctx) : task_ctx :=
  {| target_dom := target_dom r; domc := domc r; dom_mask := v;
     preferred_dom_mask := preferred_dom_mask r; dispatch_local :=
     dispatch_local r; all_cpus := all_cpus r; is_kworker := is_kworker r;
     runnable := runnable r; dom_active_tasks_gen := dom_active_tasks_gen r;
     weight := weight r; sum_runtime := sum_runtime r; waker_freq :=
     waker_freq r; last_woke_at := last_woke_at r; blocked_freq :=
     blocked_freq r; last_blocked_at := last_blocked_at r; last_run_at :=
     last_run_at r; pid := pid r; dcyc_rd := dcyc_rd r |}.

Definition set_preferred_dom_mask (v : Z) (r : task_ctx) : task_ctx :=
  {| target_dom := target_dom r; domc := domc r; dom_mask := dom_mask r;
     preferred_dom_mask := v; dispatch_local := dispatch_local r; all_cpus
     := all_cpus r; is_kworker := is_kworker r; runnable := runnable r;
     dom_active_tasks_gen := dom_active_tasks_gen r; weight := weight r;
     sum_runtime := sum_runtime r; waker_freq := waker_freq r; last_woke_at
     := last_woke_at r; blocked_freq := blocked_freq r; last_blocked_at :=
     last_blocked_at r; last_run_at := last_run_at r; pid := pid r; dcyc_rd
     := dcyc_rd r |}.

Definition set_dispatch_local (v : bool) (r : task_ctx) : task_ctx :=
  {| target_dom := target_dom r; domc := domc r; dom_mask := dom_mask r;
     preferred_dom_mask := preferred_dom_mask r; dispatch_local := v;
     all_cpus := all_cpus r; is_kworker := is_kworker r; runnable :=
     runnable r; dom_active_tasks_gen := dom_active_tasks_gen r; weight :=
     weight r; sum_runtime := sum_runtime r; waker_freq := waker_freq r;
     last_woke_at := last_woke_at r; blocked_freq := blocked_freq r;
     last_blocked_at := last_blocked_at r; last_run_at := last_run_at r; pid
     := pid r; dcyc_rd := dcyc_rd r |}.

Definition set_all_cpus (v : bool) (r : task_ctx) : task_ctx :=
  {| target_dom := target_dom r; domc := domc r; dom_mask := dom_mask r;
     preferred_dom_mask := preferred_dom_mask r; dispatch_local :=
     dispatch_local r; all_cpus := v; is_kworker := is_kworker r; runnable
     := runnable r; dom_active_tasks_gen := dom_active_tasks_gen r; weight
     := weight r; sum_runtime := sum_runtime r; waker_freq := waker_freq r;
     last_woke_at := last_woke_at r; blocked_freq := blocked_freq r;
     last_blocked_at := last_blocked_at r; last_run_at := last_run_at r; pid
     := pid r; dcyc_rd := dcyc_rd r |}.

Definition set_is_kworker (v : bool) (r : task_ctx) : task_ctx :=
  {| target_dom := target_dom r; domc := domc r; dom_mask := dom_mask r;
     preferred_dom_mask := preferred_dom_mask r; dispatch_local :=
     dispatch_local r; all_cpus := all_cpus r; is_kworker := v; runnable :=
     runnable r; dom_active_tasks_gen := dom_active_tasks_gen r; weight :=
     weight r; sum_runtime := sum_runtime r; waker_freq := waker_freq r;
     last_woke_at := last_woke_at r; blocked_freq := blocked_freq r;
     last_blocked_at := last_blocked_at r; last_run_at := last_run_at r; pid
     := pid r; dcyc_rd := dcyc_rd r |}.

Definition set_runnable (v : bool) (r : task_ctx) : task_ctx :=
  {| target_dom := target_dom r; domc := domc r; dom_mask := dom_mask r;
     preferred_dom_mask := preferred_dom_mask r; dispatch_local :=
     dispatch_local r; all_cpus := all_cpus r; is_kworker := is_kworker r;
     runnable := v; dom_active_tasks_gen := dom_active_tasks_gen r; weight
     := weight r; sum_runtime := sum_runtime r; waker_freq := waker_freq r;
     last_woke_at := last_woke_at r; blocked_freq := blocked_freq r;
     last_blocked_at := last_blocked_at r; last_run_at := last_run_at r; pid
     := pid r; dcyc_rd := dcyc_rd r |}.

Definition set_dom_active_tasks_gen (v : Z) (r : task_ctx) : task_ctx :=
  {| target_dom := target_dom r; domc := domc r; dom_mask := dom_mask r;
     preferred_dom_mask := preferred_dom_mask r; dispatch_local :=
     dispatch_local r; all_cpus := all_cpus r; is_kworker := is_kworker r;
     runnable := runnable r; dom_active_tasks_gen := v; weight := weight r;
     sum_runtime := sum_runtime r; waker_freq := waker_freq r; last_woke_at
     := last_woke_at r; blocked_freq := blocked_freq r; last_blocked_at :=
     last_blocked_at r; last_run_at := last_run_at r; pid := pid r; dcyc_rd
     := dcyc_rd r |}.

Definition set_weight (v : Z) (r : task_ctx) : task_ctx :=
  {| target_dom := target_dom r; domc := domc r; dom_mask := dom_mask r;
     preferred_dom_mask := preferred_dom_mask r; dispatch_local :=
     dispatch_local r; all_cpus := all_cpus r; is_kworker := is_kworker r;
     runnable := runnable r; dom_active_tasks_gen := dom_active_tasks_gen r;
     weight := v; sum_runtime := sum_runtime r; waker_freq := waker_freq r;
     last_woke_at := last_woke_at r; blocked_freq := blocked_freq r;
     last_blocked_at := last_blocked_at r; last_run_at := last_run_at r; pid
     := pid r; dcyc_rd := dcyc_rd r |}.

Definition set_sum_runtime (v : Z) (r : task_ctx) : task_ctx :=
  {| target_dom := target_dom r; domc := domc r; dom_mask := dom_mask r;
     preferred_dom_mask := preferred_dom_mask r; dispatch_local :=
     dispatch_local r; all_cpus := all_cpus r; is_kworker := is_kworker r;
     runnable := runnable r; dom_active_tasks_gen := dom_active_tasks_gen r;
     weight := weight r; sum_runtime := v; waker_freq := waker_freq r;
     last_woke_at := last_woke_at r; blocked_freq := blocked_freq r;
     last_blocked_at := last_blocked_at r; last_run_at := last_run_at r; pid
     := pid r; dcyc_rd := dcyc_rd r |}.

Definition set_waker_freq (v : Z) (r : task_ctx) : task_ctx :=
  {| target_dom := target_dom r; domc := domc r; dom_mask := dom_mask r;
     preferred_dom_mask := preferred_dom_mask r; dispatch_local :=
     dispatch_local r; all_cpus := all_cpus r; is_kworker := is_kworker r;
     runnable := runnable r; dom_active_tasks_gen := dom_active_tasks_gen r;
     weight := weight r; sum_runtime := sum_runtime r; waker_freq := v;
     last_woke_at := last_woke_at r; blocked_freq := blocked_freq r;
     last_blocked_at := last_blocked_at r; last_run_at := last_run_at r; pid
     := pid r; dcyc_rd := dcyc_rd r |}.

Definition set_last_woke_at (v : Z) (r : task_ctx) : task_ctx :=
  {| target_dom := target_dom r; domc := domc r; dom_mask := dom_mask r;
     preferred_dom_mask := preferred_dom_mask r; dispatch_local :=
     dispatch_local r; all_cpus := all_cpus r; is_kworker := is_kworker r;
     runnable := runnable r; dom_active_tasks_gen := dom_active_tasks_gen r;
     weight := weight r; sum_runtime := sum_runtime r; waker_freq :=
     waker_freq r; last_woke_at := v; blocked_freq := blocked_freq r;
     last_blocked_at := last_blocked_at r; last_run_at := last_run_at r; pid
     := pid r; dcyc_rd := dcyc_rd r |}.

Definition set_blocked_freq (v : Z) (r : task_ctx) : task_ctx :=
  {| target_dom := target_dom r; domc := domc r; dom_mask := dom_mask r;
     preferred_dom_mask := preferred_dom_mask r; dispatch_local :=
     dispatch_local r; all_cpus := all_cpus r; is_kworker := is_kworker r;
     runnable := runnable r; dom_active_tasks_gen := dom_active_tasks_gen r;
     weight := weight r; sum_runtime := sum_runtime r; waker_freq :=
     waker_freq r; last_woke_at := last_woke_at r; blocked_freq := v;
     last_blocked_at := last_blocked_at r; last_run_at := last_run_at r; pid
     := pid r; dcyc_rd := dcyc_rd r |}.

Definition set_last_blocked_at (v : Z) (r : task_ctx) : task_ctx :=
  {| target_dom := target_dom r; domc := domc r; dom_mask := dom_mask r;
     preferred_dom_mask := preferred_dom_mask r; dispatch_local :=
     dispatch_local r; all_cpus := all_cpus r; is_kworker := is_kworker r;
     runnable := runnable r; dom_active_tasks_gen := dom_active_tasks_gen r;
     weight := weight r; sum_runtime := sum_runtime r; waker_freq :=
     waker_freq r; last_woke_at := last_woke_at r; blocked_freq :=
     blocked_freq r; last_blocked_at := v; last_run_at := last_run_at r; pid
     := pid r; dcyc_rd := dcyc_rd r |}.

Definition set_last_run_at (v : Z) (r : task_ctx) : task_ctx :=
  {| target_dom := target_dom r; domc := domc r; dom_mask := dom_mask r;
     preferred_dom_mask := preferred_dom_mask r; dispatch_local :=
     dispatch_local r; all_cpus := all_cpus r; is_kworker := is_kworker r;
     runnable := runnable r; dom_active_tasks_gen := dom_active_tasks_gen r;
     weight := weight r; sum_runtime := sum_runtime r; waker_freq :=
     waker_freq r; last_woke_at := last_woke_at r; blocked_freq :=
     blocked_freq r; last_blocked_at := last_blocked_at r; last_run_at := v;
     pid := pid r; dcyc_rd := dcyc_rd r |}.

Definition set_dcyc_rd (v : ravg_data) (r : task_ctx) : task_ctx :=
  {| target_dom := target_dom r; domc := domc r; dom_mask := dom_mask r;
     preferred_dom_mask := preferred_dom_mask r; dispatch_local :=
     dispatch_local r; all_cpus := all_cpus r; is_kworker := is_kworker r;
     runnable := runnable r; dom_active_tasks_gen := dom_active_tasks_gen r;
     weight := weight r; sum_runtime := sum_runtime r; waker_freq :=
     waker_freq r; last_woke_at := last_woke_at r; blocked_freq :=
     blocked_freq r; last_blocked_at := last_blocked_at r; last_run_at :=
     last_run_at r; pid := pid r; dcyc_rd := v |}.

(** [struct dom_active_tasks]: the ring of recently active tasks. *)
Record dom_active_tasks := {
  gen : Z;
  write_idx : Z;
  tasks : list Z
}.

(** [struct dom_ctx] ([dom_ptr] points to one). *)
Record dom_ctx := {
  domc_id : Z;
  active_tasks : dom_active_tasks
}.

(** [struct lb_domain]: the masks are kptrs, [None] for NULL. *)
Record lb_domain := {
  lbd_cpumask : option cpumask;
  lbd_direct_greedy_cpumask : option cpumask;
  lbd_node_cpumask : option cpumask
}.

Definition set_lbd_direct_greedy_cpumask (v : option cpumask) (d : lb_domain)
  : lb_domain :=
  {| lbd_cpumask := lbd_cpumask d; lbd_direct_greedy_cpumask := v;
     lbd_node_cpumask := lbd_node_cpumask d |}.

(** [struct pcpu_ctx] (without the padding). *)
Record pcpu_ctx_t := {
  dom_rr_cur : Z;
  dom_id : Z
}.

(** [struct tune_input]: the masks are arrays of 64-bit words. *)
Record tune_input_t := {
  ti_gen : Z;
  ti_slice_ns : Z;
  ti_direct_greedy_cpumask : list Z;
  ti_kick_greedy_cpumask : list Z
}.

(** The statistics counters that main.bpf.c bumps. *)
Inductive stat_idx :=
| RUSTY_STAT_WAKE_SYNC
| RUSTY_STAT_SYNC_PREV_IDLE
| RUSTY_STAT_PREV_IDLE
| RUSTY_STAT_GREEDY_IDLE
| RUSTY_STAT_PINNED
| RUSTY_STAT_DIRECT_DISPATCH
| RUSTY_STAT_DIRECT_GREEDY
| RUSTY_STAT_DIRECT_GREEDY_FAR
| RUSTY_STAT_DSQ_DISPATCH
| RUSTY_STAT_GREEDY_LOCAL
| RUSTY_STAT_GREEDY_XNUMA
| RUSTY_STAT_KICK_GREEDY
| RUSTY_STAT_REPATRIATE
| RUSTY_STAT_LOAD_BALANCE
| RUSTY_STAT_TASK_GET_ERR.

#[global] Instance stat_idx_eq_dec : EqDecision stat_idx.
Proof. solve_decision. Defined.

(** The kernel calls recorded in the trace, in the order they are made. *)
Inductive event :=
| ev_error
| ev_kick_cpu (cpu flags : Z)
| ev_dsq_insert (p dsq slice enq_flags : Z)
| ev_place_task_dl (p enq_flags : Z)
| ev_dsq_nr_queued (dsq n : Z)
| ev_dsq_move_to_local (dsq : Z) (moved : bool)
| ev_test_and_clear_cpu_idle (cpu : Z) (was_idle : bool)
| ev_pick_idle_cpu (mask flags ret : Z).

#[global] Instance event_eq_dec : EqDecision event.
Proof. solve_decision. Defined.

(** ** Scheduler state

    The global variables and maps of the BPF program, together with the state
    of the kernel [K], of the fairness engine [V] (deadline.h) and of the load
    accounting [A] (lb_domain.h), which stay abstract. *)
Record sched (K V A : Type) := {
  task_ctxs : gmap Z task_ctx;
  task_masks : gmap Z (option cpumask);
  dom_ctxs : gmap Z dom_ctx;
  lb_domains : gmap Z lb_domain;
  pcpu_ctx : gmap Z pcpu_ctx_t;
  percpu_bpfmask : gmap Z (option cpumask);
  tune_input : tune_input_t;
  tune_params_gen : Z;
  slice_ns : Z;
  all_cpumask : option cpumask;
  direct_greedy_cpumask : option cpumask;
  kick_greedy_cpumask : option cpumask;
  stats : stat_idx -> Z;
  kern : K;
  vt : V;
  acct : A;
  trace : list event
}.

Arguments task_ctxs {K V A} _.
Arguments task_masks {K V A} _.
Arguments dom_ctxs {K V A} _.
Arguments lb_domains {K V A} _.
Arguments pcpu_ctx {K V A} _.
Arguments percpu_bpfmask {K V A} _.
Arguments tune_input {K V A} _.
Arguments tune_params_gen {K V A} _.
Arguments slice_ns {K V A} _.
Arguments all_cpumask {K V A} _.
Arguments direct_greedy_cpumask {K V A} _.
Arguments kick_greedy_cpumask {K V A} _.
Arguments stats {K V A} _.
Arguments kern {K V A} _.
Arguments vt {K V A} _.
Arguments acct {K V A} _.
Arguments trace {K V A} _.

Definition set_task_ctxs {K V A : Type} (v : gmap Z task_ctx) (r : sched K V A) : sched K V A :=
  {| task_ctxs := v; task_masks := task_masks r; dom_ctxs := dom_ctxs r;
     lb_domains := lb_domains r; pcpu_ctx := pcpu_ctx r; percpu_bpfmask :=
     percpu_bpfmask r; tune_input := tune_input r; tune_params_gen :=
     tune_params_gen r; slice_ns := slice_ns r; all_cpumask := all_cpumask
     r; direct_greedy_cpumask := direct_greedy_cpumask r;
     kick_greedy_cpumask := kick_greedy_cpumask r; stats := stats r; kern :=
     kern r; vt := vt r; acct := acct r; trace := trace r |}.

Definition set_task_masks {K V A : Type} (v : gmap Z (option cpumask)) (r : sched K V A) : sched K V A :=
  {| task_ctxs := task_ctxs r; task_masks := v; dom_ctxs := dom_ctxs r;
     lb_domains := lb_domains r; pcpu_ctx := pcpu_ctx r; percpu_bpfmask :=
     percpu_bpfmask r; tune_input := tune_input r; tune_params_gen :=
     tune_params_gen r; slice_ns := slice_ns r; all_cpumask := all_cpumask
     r; direct_greedy_cpumask := direct_greedy_cpumask r;
     kick_greedy_cpumask := kick_greedy_cpumask r; stats := stats r; kern :=
     kern r; vt := vt r; acct := acct r; trace := trace r |}.

Definition set_dom_ctxs {K V A : Type} (v : gmap Z dom_ctx) (r : sched K V A) : sched K V A :=
  {| task_ctxs := task_ctxs r; task_masks := task_masks r; dom_ctxs := v;
     lb_domains := lb_domains r; pcpu_ctx := pcpu_ctx r; percpu_bpfmask :=
     percpu_bpfmask r; tune_input := tune_input r; tune_params_gen :=
     tune_params_gen r; slice_ns := slice_ns r; all_cpumask := all_cpumask
     r; direct_greedy_cpumask := direct_greedy_cpumask r;
     kick_greedy_cpumask := kick_greedy_cpumask r; stats := stats r; kern :=
     kern r; vt := vt r; acct := acct r; trace := trace r |}.

Definition set_lb_domains {K V A : Type} (v : gmap Z lb_domain) (r : sched K V A) : sched K V A :=
  {| task_ctxs := task_ctxs r; task_masks := task_masks r; dom_ctxs :=
     dom_ctxs r; lb_domains := v; pcpu_ctx := pcpu_ctx r; percpu_bpfmask :=
     percpu_bpfmask r; tune_input := tune_input r; tune_params_gen :=
     tune_params_gen r; slice_ns := slice_ns r; all_cpumask := all_cpumask
     r; direct_greedy_cpumask := direct_greedy_cpumask r;
     kick_greedy_cpumask := kick_greedy_cpumask r; stats := stats r; kern :=
     kern r; vt := vt r; acct := acct r; trace := trace r |}.

Definition set_pcpu_ctx {K V A : Type} (v : gmap Z pcpu_ctx_t) (r : sched K V A) : sched K V A :=
  {| task_ctxs := task_ctxs r; task_masks := task_masks r; dom_ctxs :=
     dom_ctxs r; lb_domains := lb_domains r; pcpu_ctx := v; percpu_bpfmask
     := percpu_bpfmask r; tune_input := tune_input r; tune_params_gen :=
     tune_params_gen r; slice_ns := slice_ns r; all_cpumask := all_cpumask
     r; direct_greedy_cpumask := direct_greedy_cpumask r;
     kick_greedy_cpumask := kick_greedy_cpumask r; stats := stats r; kern :=
     kern r; vt := vt r; acct := acct r; trace := trace r |}.

Definition set_percpu_bpfmask {K V A : Type} (v : gmap Z (option cpumask)) (r : sched K V A) : sched K V A :=
  {| task_ctxs := task_ctxs r; task_masks := task_masks r; dom_ctxs :=
     dom_ctxs r; lb_domains := lb_domains r; pcpu_ctx := pcpu_ctx r;
     percpu_bpfmask := v; tune_input := tune_input r; tune_params_gen :=
     tune_params_gen r; slice_ns := slice_ns r; all_cpumask := all_cpumask
     r; direct_greedy_cpumask := direct_greedy_cpumask r;
     kick_greedy_cpumask := kick_greedy_cpumask r; stats := stats r; kern :=
     kern r; vt := vt r; acct := acct r; trace := trace r |}.

Definition set_tune_params_gen {K V A : Type} (v : Z) (r : sched K V A) : sched K V A :=
  {| task_ctxs := task_ctxs r; task_masks := task_masks r; dom_ctxs :=
     dom_ctxs r; lb_domains := lb_domains r; pcpu_ctx := pcpu_ctx r;
     percpu_bpfmask := percpu_bpfmask r; tune_input := tune_input r;
     tune_params_gen := v; slice_ns := slice_ns r; all_cpumask :=
     all_cpumask r; direct_greedy_cpumask := direct_greedy_cpumask r;
     kick_greedy_cpumask := kick_greedy_cpumask r; stats := stats r; kern :=
     kern r; vt := vt r; acct := acct r; trace := trace r |}.

Definition set_slice_ns {K V A : Type} (v : Z) (r : sched K V A) : sched K V A :=
  {| task_ctxs := task_ctxs r; task_masks := task_masks r; dom_ctxs :=
     dom_ctxs r; lb_domains := lb_domains r; pcpu_ctx := pcpu_ctx r;
     percpu_bpfmask := percpu_bpfmask r; tune_input := tune_input r;
     tune_params_gen := tune_params_gen r; slice_ns := v; all_cpumask :=
     all_cpumask r; direct_greedy_cpumask := direct_greedy_cpumask r;
     kick_greedy_cpumask := kick_greedy_cpumask r; stats := stats r; kern :=
     kern r; vt := vt r; acct := acct r; trace := trace r |}.

Definition set_direct_greedy_cpumask {K V A : Type} (v : option cpumask) (r : sched K V A) : sched K V A :=
  {| task_ctxs := task_ctxs r; task_masks := task_masks r; dom_ctxs :=
     dom_ctxs r; lb_domains := lb_domains r; pcpu_ctx := pcpu_ctx r;
     percpu_bpfmask := percpu_bpfmask r; tune_input := tune_input r;
     tune_params_gen := tune_params_gen r; slice_ns := slice_ns r;
     all_cpumask := all_cpumask r; direct_greedy_cpumask := v;
     kick_greedy_cpumask := kick_greedy_cpumask r; stats := stats r; kern :=
     kern r; vt := vt r; acct := acct r; trace := trace r |}.

Definition set_kick_greedy_cpumask {K V A : Type} (v : option cpumask) (r : sched K V A) : sched K V A :=
  {| task_ctxs := task_ctxs r; task_masks := task_masks r; dom_ctxs :=
     dom_ctxs r; lb_domains := lb_domains r; pcpu_ctx := pcpu_ctx r;
     percpu_bpfmask := percpu_bpfmask r; tune_input := tune_input r;
     tune_params_gen := tune_params_gen r; slice_ns := slice_ns r;
     all_cpumask := all_cpumask r; direct_greedy_cpumask :=
     direct_greedy_cpumask r; kick_greedy_cpumask := v; stats := stats r;
     kern := kern r; vt := vt r; acct := acct r; trace := trace r |}.

Definition set_stats {K V A : Type} (v : stat_idx -> Z) (r : sched K V A) : sched K V A :=
  {| task_ctxs := task_ctxs r; task_masks := task_masks r; dom_ctxs :=
     dom_ctxs r; lb_domains := lb_domains r; pcpu_ctx := pcpu_ctx r;
     percpu_bpfmask := percpu_bpfmask r; tune_input := tune_input r;
     tune_params_gen := tune_params_gen r; slice_ns := slice_ns r;
     all_cpumask := all_cpumask r; direct_greedy_cpumask :=
     direct_greedy_cpumask r; kick_greedy_cpumask := kick_greedy_cpumask r;
     stats := v; kern := kern r; vt := vt r; acct := acct r; trace := trace
     r |}.

Definition set_kern {K V A : Type} (v : K) (r : sched K V A) : sched K V A :=
  {| task_ctxs := task_ctxs r; task_masks := task_masks r; dom_ctxs :=
     dom_ctxs r; lb_domains := lb_domains r; pcpu_ctx := pcpu_ctx r;
     percpu_bpfmask := percpu_bpfmask r; tune_input := tune_input r;
     tune_params_gen := tune_params_gen r; slice_ns := slice_ns r;
     all_cpumask := all_cpumask r; direct_greedy_cpumask :=
     direct_greedy_cpumask r; kick_greedy_cpumask := kick_greedy_cpumask r;
     stats := stats r; kern := v; vt := vt r; acct := acct r; trace := trace
     r |}.

Definition set_vt {K V A : Type} (v : V) (r : sched K V A) : sched K V A :=
  {| task_ctxs := task_ctxs r; task_masks := task_masks r; dom_ctxs :=
     dom_ctxs r; lb_domains := lb_domains r; pcpu_ctx := pcpu_ctx r;
     percpu_bpfmask := percpu_bpfmask r; tune_input := tune_input r;
     tune_params_gen := tune_params_gen r; slice_ns := slice_ns r;
     all_cpumask := all_cpumask r; direct_greedy_cpumask :=
     direct_greedy_cpumask r; kick_greedy_cpumask := kick_greedy_cpumask r;
     stats := stats r; kern := kern r; vt := v; acct := acct r; trace :=
     trace r |}.

Definition set_acct {K V A : Type} (v : A) (r : sched K V A) : sched K V A :=
  {| task_ctxs := task_ctxs r; task_masks := task_masks r; dom_ctxs :=
     dom_ctxs r; lb_domains := lb_domains r; pcpu_ctx := pcpu_ctx r;
     percpu_bpfmask := percpu_bpfmask r; tune_input := tune_input r;
     tune_params_gen := tune_params_gen r; slice_ns := slice_ns r;
     all_cpumask := all_cpumask r; direct_greedy_cpumask :=
     direct_greedy_cpumask r; kick_greedy_cpumask := kick_greedy_cpumask r;
     stats := stats r; kern := kern r; vt := vt r; acct := v; trace := trace
     r |}.

Definition set_trace {K V A : Type} (v : list event) (r : sched K V A) : sched K V A :=
  {| task_ctxs := task_ctxs r; task_masks := task_masks r; dom_ctxs :=
     dom_ctxs r; lb_domains := lb_domains r; pcpu_ctx := pcpu_ctx r;
     percpu_bpfmask := percpu_bpfmask r; tune_input := tune_input r;
     tune_params_gen := tune_params_gen r; slice_ns := slice_ns r;
     all_cpumask := all_cpumask r; direct_greedy_cpumask :=
     direct_greedy_cpumask r; kick_greedy_cpumask := kick_greedy_cpumask r;
     stats := stats r; kern := kern r; vt := vt r; acct := acct r; trace :=
     v |}.

(** ** Interfaces of the code that is not in main.bpf.c *)

(** The kernel helpers, over a kernel state [K].  The last three are the
    allocations of [rusty_init_task], which the kernel may refuse:
    [sdt_task_alloc] says whether the task context was allocated,
    [task_masks_update_elem] and [create_save_cpumask] return 0 or an error. *)
Record kernel_ops (K : Type) := {
  scx_bpf_now : K -> Z;
  bpf_get_smp_processor_id : K -> Z;
  bpf_get_current_task_btf : K -> task_struct;
  scx_bpf_task_cpu : task_struct -> K -> Z;
  scx_bpf_get_idle_cpumask : K -> cpumask;
  scx_bpf_get_idle_smtmask : K -> cpumask;
  scx_bpf_test_and_clear_cpu_idle : Z -> K -> bool * K;
  scx_bpf_pick_idle_cpu : cpumask -> Z -> K -> Z * K;
  bpf_cpumask_any_distribute : cpumask -> K -> Z * K;
  bpf_cpumask_any_and_distribute : cpumask -> cpumask -> K -> Z * K;
  scx_bpf_dsq_nr_queued : Z -> K -> Z;
  scx_bpf_dsq_move_to_local : Z -> K -> bool * K;
  scx_bpf_dsq_insert : task_struct -> Z -> Z -> Z -> K -> K;
  scx_bpf_kick_cpu : Z -> Z -> K -> K;
  scx_bpf_error : K -> K;
  sdt_task_alloc : task_struct -> K -> bool * K;
  task_masks_update_elem : task_struct -> K -> Z * K;
  create_save_cpumask : K -> Z * K
}.

Arguments scx_bpf_now {K} _ _.
Arguments bpf_get_smp_processor_id {K} _ _.
Arguments bpf_get_current_task_btf {K} _ _.
Arguments scx_bpf_task_cpu {K} _ _ _.
Arguments scx_bpf_get_idle_cpumask {K} _ _.
Arguments scx_bpf_get_idle_smtmask {K} _ _.
Arguments scx_bpf_test_and_clear_cpu_idle {K} _ _ _.
Arguments scx_bpf_pick_idle_cpu {K} _ _ _ _.
Arguments bpf_cpumask_any_distribute {K} _ _ _.
Arguments bpf_cpumask_any_and_distribute {K} _ _ _ _.
Arguments scx_bpf_dsq_nr_queued {K} _ _ _.
Arguments scx_bpf_dsq_move_to_local {K} _ _ _.
Arguments scx_bpf_dsq_insert {K} _ _ _ _ _ _.
Arguments scx_bpf_kick_cpu {K} _ _ _ _.
Arguments scx_bpf_error {K} _ _.
Arguments sdt_task_alloc {K} _ _ _.
Arguments task_masks_update_elem {K} _ _ _.
Arguments create_save_cpumask {K} _ _.

(** What an entry point of the fairness engine may change: the task's vtime
    ([p->scx.dsq_vtime]), its accumulated runtime ([taskc->sum_runtime]) and
    the engine's own state (deadlines, per-domain minimum vtime). *)
Record vtime_update (V : Type) := {
  vu_dsq_vtime : Z;
  vu_sum_runtime : Z;
  vu_vt : V
}.

Arguments vu_dsq_vtime {V} _.
Arguments vu_sum_runtime {V} _.
Arguments vu_vt {V} _.

(** The entry points of deadline.h, lb_domain.h and the ravg and sdt_task
    libraries that main.bpf.c calls.  Domains are passed by pointer. *)
Record engine_ops (K V A : Type) := {
  dom_node_id : Z -> Z;
  sdt_task_data : task_struct -> Z;
  load_half_life : Z;
  ravg_accumulate : ravg_data -> Z -> Z -> Z -> ravg_data;
  update_freq : Z -> Z -> Z;
  dom_dcycle_adj : option Z -> Z -> Z -> bool -> A -> A;
  dom_xfer_task : task_struct -> task_ctx -> Z -> Z -> A -> A;
  dom_min_vruntime : Z -> V -> Z;
  init_vtime : task_struct -> task_ctx -> V -> vtime_update V;
  running_update_vtime : task_struct -> task_ctx -> Z -> V -> vtime_update V;
  stopping_update_vtime : task_struct -> task_ctx -> Z -> K -> V -> vtime_update V;
  place_task_dl : task_struct -> task_ctx -> Z -> Z -> V -> K -> vtime_update V * K
}.

Arguments dom_node_id {K V A} _ _.
Arguments sdt_task_data {K V A} _ _.
Arguments load_half_life {K V A} _.
Arguments ravg_accumulate {K V A} _ _ _ _ _.
Arguments update_freq {K V A} _ _ _.
Arguments dom_dcycle_adj {K V A} _ _ _ _ _ _.
Arguments dom_xfer_task {K V A} _ _ _ _ _ _.
Arguments dom_min_vruntime {K V A} _ _ _.
Arguments init_vtime {K V A} _ _ _ _.
Arguments running_update_vtime {K V A} _ _ _ _ _.
Arguments stopping_update_vtime {K V A} _ _ _ _ _ _.
Arguments place_task_dl {K V A} _ _ _ _ _ _ _.

Section Rusty.

Context {K V A : Type}.
Variable kops : kernel_ops K.
Variable eops : engine_ops K V A.
Variable cfg : config.

Local Abbreviation state := (sched K V A).

(** ** Small helpers of the state *)

(** [scx_bpf_error]: the call is recorded and handed to the kernel. *)
Definition error (st : state) : state :=
  set_trace (trace st ++ [ev_error]) (set_kern (scx_bpf_error kops (kern st)) st).

Definition emit (e : event) (st : state) : state :=
  set_trace (trace st ++ [e]) st.

(** [stat_add(idx, delta)]. *)
Definition stat_add (idx : stat_idx) (delta : Z) (st : state) : state :=
  set_stats (fun i => if decide (i = idx) then u64 (stats st i + delta)
                      else stats st i) st.

(** [taskc] points into the task store: a write through it. *)
Definition taskc_write (p : task_struct) (taskc : task_ctx) (st : state) : state :=
  set_task_ctxs (<[tptr p := taskc]> (task_ctxs st)) st.

(** A write through the task's [bpf_cpumask] kptr. *)
Definition task_mask_write (p : task_struct) (m : cpumask) (st : state) : state :=
  set_task_masks (<[tptr p := Some m]> (task_masks st)) st.

(** The fairness engine returns: store what it may have changed. *)
Definition vtime_commit (p : task_struct) (taskc : task_ctx)
    (u : vtime_update V) (st : state) : task_struct * task_ctx * state :=
  let taskc := set_sum_runtime (vu_sum_runtime u) taskc in
  (set_scx_dsq_vtime (vu_dsq_vtime u) p, taskc,
   taskc_write p taskc (set_vt (vu_vt u) st)).

(** ** Lookups *)

(** Modelled from the spec: [lookup_task_ctx] and [try_lookup_task_ctx] of the
    absent task-context library: the context of the task, or not found; the
    first reports the failure as an error. *)
Definition try_lookup_task_ctx (p : task_struct) (st : state) : option task_ctx :=
  task_ctxs st !! tptr p.

Definition lookup_task_ctx (p : task_struct) (st : state) : option task_ctx * state :=
  match try_lookup_task_ctx p st with
  | Some taskc => (Some taskc, st)
  | None => (None, error st)
  end.

(** Modelled from the spec: [get_domain(id)] of the absent lb_domain.h,
    "returns a shared read/write handle or a not-found error":
    [try_lookup_dom_ctx] and [lookup_dom_ctx] give the pointer to the context of
    domain [dom_id], [lb_domain_get] its [struct lb_domain]. *)
Definition try_lookup_dom_ctx (dom_id : Z) (st : state) : option Z :=
  match dom_ctxs st !! dom_id with
  | Some _ => Some dom_id
  | None => None
  end.

Definition lookup_dom_ctx (dom_id : Z) (st : state) : option Z * state :=
  match try_lookup_dom_ctx dom_id st with
  | Some domc => (Some domc, st)
  | None => (None, error st)
  end.

Definition lb_domain_get (dom_id : Z) (st : state) : option lb_domain :=
  lb_domains st !! dom_id.

Definition lookup_task_bpfmask (p : task_struct) (st : state)
  : option cpumask * state :=
  match task_masks st !! tptr p with
  | None => (None, error st)
  | Some instance => (instance, st)
  end.

Definition lookup_task_ctx_mask (p : task_struct) (st : state)
  : option task_ctx * option cpumask * state :=
  let '(taskc, st) := lookup_task_ctx p st in
  let st := if taskc is None then error st else st in
  let '(p_cpumask, st) := lookup_task_bpfmask p st in
  let st := if p_cpumask is None then error st else st in
  (taskc, p_cpumask, st).

(** The global [pcpu_ctx] array is zero-initialised: a CPU without an entry
    in the map reads as zeros.  [lookup_pcpu_ctx] is [MEMBER_VPTR]: NULL, with
    an error, outside [0, MAX_CPUS). *)
Definition pcpu_ctx_read (cpu : Z) (st : state) : pcpu_ctx_t :=
  default {| dom_rr_cur := 0; dom_id := 0 |} (pcpu_ctx st !! cpu).

Definition lookup_pcpu_ctx (cpu : Z) (st : state) : option pcpu_ctx_t * state :=
  if (0 <=? cpu) && (cpu <? MAX_CPUS cfg) then (Some (pcpu_ctx_read cpu st), st)
  else (None, error st).

(** [pcpuc->dom_rr_cur++]: the value before the increment, and the store. *)
Definition dom_rr_cur_postinc (cpu : Z) (st : state) : Z * state :=
  let pcpuc := pcpu_ctx_read cpu st in
  (dom_rr_cur pcpuc,
   set_pcpu_ctx (<[cpu := {| dom_rr_cur := u32 (dom_rr_cur pcpuc + 1);
                            dom_id := dom_id pcpuc |}]> (pcpu_ctx st)) st).

Definition task_load_adj (taskc : task_ctx) (now : Z) (runnable_ : bool) : task_ctx :=
  let taskc := set_runnable runnable_ taskc in
  set_dcyc_rd (ravg_accumulate eops (dcyc_rd taskc)
                 (if runnable taskc then 1 else 0) now (load_half_life eops)) taskc.

Definition cpu_to_dom_id (cpu : Z) : Z :=
  if (0 <=? cpu) && (cpu <? MAX_CPUS cfg)
  then default 0 (cpu_dom_id_map cfg !! Z.to_nat cpu)
  else MAX_DOMS cfg.

Definition is_offline_cpu (cpu : Z) : bool :=
  MAX_DOMS cfg <? cpu_to_dom_id cpu.

(** ** refresh_tune_params *)

(** [words[cpu / 64] & (1LLU << (cpu % 64))]. *)
Definition tune_bit (words : list Z) (cpu : Z) : bool :=
  flag_set (default 0 (words !! Z.to_nat (cpu / 64)))
           (u64 (Z.shiftl 1 (cpu mod 64))).

(** One iteration of the loop over the CPUs; [None] is the [return] taken
    when the domain of the CPU has no [lb_domain]. *)
Definition refresh_tune_cpu (cpu : Z) (st : state) : option state :=
  let dom_id := cpu_to_dom_id cpu in
  if is_offline_cpu cpu then Some st
  else
    match lb_domain_get dom_id st with
    | None => None
    | Some lb_domain =>
      let upd :=
        if tune_bit (ti_direct_greedy_cpumask (tune_input st)) cpu
        then bpf_cpumask_set_cpu cpu else bpf_cpumask_clear_cpu cpu in
      let st := set_direct_greedy_cpumask (upd <$> direct_greedy_cpumask st) st in
      let st :=
        set_lb_domains
          (<[dom_id := set_lbd_direct_greedy_cpumask
                         (upd <$> lbd_direct_greedy_cpumask lb_domain) lb_domain]>
             (lb_domains st)) st in
      let upd :=
        if tune_bit (ti_kick_greedy_cpumask (tune_input st)) cpu
        then bpf_cpumask_set_cpu cpu else bpf_cpumask_clear_cpu cpu in
      Some (set_kick_greedy_cpumask (upd <$> kick_greedy_cpumask st) st)
    end.

Fixpoint refresh_tune_cpus (cpus : list Z) (st : state) : state :=
  match cpus with
  | [] => st
  | cpu :: cpus =>
    match refresh_tune_cpu cpu st with
    | None => st
    | Some st => refresh_tune_cpus cpus st
    end
  end.

Definition refresh_tune_params (st : state) : state :=
  if tune_params_gen st =? ti_gen (tune_input st) then st
  else
    let st := set_tune_params_gen (ti_gen (tune_input st)) st in
    let st := set_slice_ns (ti_slice_ns (tune_input st)) st in
    refresh_tune_cpus (bpf_iter_num 0 (s32 (nr_cpu_ids cfg))) st.

(** ** task_set_domain *)

Definition task_set_domain (p : task_struct) (new_dom_id : Z)
    (init_dsq_vtime : bool) (st : state) : bool * task_struct * state :=
  let '(taskc, t_cpumask, st) := lookup_task_ctx_mask p st in
  match taskc, t_cpumask with
  | Some taskc, Some t_cpumask =>
    let old_dom_id := target_dom taskc in
    let '(old_domc, st) := lookup_dom_ctx old_dom_id st in
    match old_domc with
    | None => (false, p, st)
    | Some _ =>
      if new_dom_id =? NO_DOM_FOUND cfg then
        (negb (flag_set (scx_flags p) SCX_TASK_QUEUED), p, task_mask_write p 0 st)
      else
        match try_lookup_dom_ctx new_dom_id st with
        | None => (false, p, st)
        | Some new_domc =>
          match lb_domain_get new_dom_id st with
          | None => (false, p, error st)
          | Some new_lb_domain =>
            match lbd_cpumask new_lb_domain with
            | None => (false, p, error st)
            | Some d_cpumask =>
              let '(p, st) :=
                if bpf_cpumask_intersects d_cpumask (cpus_ptr p) then
                  let now := scx_bpf_now kops (kern st) in
                  let st :=
                    if init_dsq_vtime then st
                    else set_acct (dom_xfer_task eops p taskc new_dom_id now
                                     (acct st)) st in
                  let taskc := set_target_dom new_dom_id taskc in
                  let taskc := set_domc (Some new_domc) taskc in
                  let st := taskc_write p taskc st in
                  let p := set_scx_dsq_vtime
                             (dom_min_vruntime eops new_domc (vt st)) p in
                  let '(p, _, st) :=
                    vtime_commit p taskc (init_vtime eops p taskc (vt st)) st in
                  (p, task_mask_write p (bpf_cpumask_and d_cpumask (cpus_ptr p)) st)
                else (p, st) in
              (match task_ctxs st !! tptr p with
               | Some taskc => target_dom taskc =? new_dom_id
               | None => false
               end, p, st)
            end
          end
        end
    end
  | _, _ => (false, p, error st)
  end.


(** ** Kernel helpers, with their calls recorded *)

Definition test_and_clear_cpu_idle (cpu : Z) (st : state) : bool * state :=
  let '(was_idle, k) := scx_bpf_test_and_clear_cpu_idle kops cpu (kern st) in
  (was_idle, emit (ev_test_and_clear_cpu_idle cpu was_idle) (set_kern k st)).

Definition pick_idle_cpu (mask : cpumask) (flags : Z) (st : state) : Z * state :=
  let '(cpu, k) := scx_bpf_pick_idle_cpu kops mask flags (kern st) in
  (cpu, emit (ev_pick_idle_cpu mask flags cpu) (set_kern k st)).

Definition any_distribute (mask : cpumask) (st : state) : Z * state :=
  let '(cpu, k) := bpf_cpumask_any_distribute kops mask (kern st) in
  (cpu, set_kern k st).

Definition any_and_distribute (a b : cpumask) (st : state) : Z * state :=
  let '(cpu, k) := bpf_cpumask_any_and_distribute kops a b (kern st) in
  (cpu, set_kern k st).

Definition dsq_nr_queued (dsq : Z) (st : state) : Z * state :=
  let n := scx_bpf_dsq_nr_queued kops dsq (kern st) in
  (n, emit (ev_dsq_nr_queued dsq n) st).

Definition dsq_move_to_local (dsq : Z) (st : state) : bool * state :=
  let '(moved, k) := scx_bpf_dsq_move_to_local kops dsq (kern st) in
  (moved, emit (ev_dsq_move_to_local dsq moved) (set_kern k st)).

Definition dsq_insert (p : task_struct) (dsq slice enq_flags : Z) (st : state)
  : state :=
  emit (ev_dsq_insert (tptr p) dsq slice enq_flags)
       (set_kern (scx_bpf_dsq_insert kops p dsq slice enq_flags (kern st)) st).

Definition kick_cpu (cpu flags : Z) (st : state) : state :=
  emit (ev_kick_cpu cpu flags) (set_kern (scx_bpf_kick_cpu kops cpu flags (kern st)) st).

(** [scx_percpu_bpfmask]: the scratch mask of the running CPU. *)
Definition scx_percpu_bpfmask (st : state) : option cpumask * state :=
  match percpu_bpfmask st !! bpf_get_smp_processor_id kops (kern st) with
  | Some (Some m) => (Some m, st)
  | _ => (None, error st)
  end.

(** A write through the pointer [taskc]. *)
Definition taskc_update (p : task_struct) (f : task_ctx -> task_ctx) (st : state)
  : state :=
  set_task_ctxs (alter f (tptr p) (task_ctxs st)) st.

(** [domc->id]; a NULL arena pointer reads as zero. *)
Definition domc_id_read (domc : option Z) (st : state) : Z :=
  match domc with
  | Some d => default 0 (domc_id <$> dom_ctxs st !! d)
  | None => 0
  end.

(** ** try_sync_wakeup

    The result is the CPU, or [- ENOENT]. *)
Definition try_sync_wakeup (p : task_struct) (taskc : task_ctx) (prev_cpu : Z)
    (st : state) : Z * state :=
  let current := bpf_get_current_task_btf kops (kern st) in
  let cpu := bpf_get_smp_processor_id kops (kern st) in
  let '(pcpuc, st) := lookup_pcpu_ctx cpu st in
  match pcpuc with
  | None => (- ENOENT, st)
  | Some pcpuc =>
    match lb_domain_get (dom_id pcpuc) st with
    | None => (- ENOENT, st)
    | Some lb_domain =>
      match lbd_cpumask lb_domain with
      | None => (- ENOENT, error st)
      | Some d_cpumask =>
        let share_llc := bpf_cpumask_test_cpu prev_cpu d_cpumask in
        let '(prev_idle, st) :=
          if share_llc then test_and_clear_cpu_idle prev_cpu st else (false, st) in
        if prev_idle then (prev_cpu, stat_add RUSTY_STAT_SYNC_PREV_IDLE 1 st)
        else
          let has_idle :=
            bpf_cpumask_intersects d_cpumask
              (scx_bpf_get_idle_cpumask kops (kern st)) in
          if has_idle && bpf_cpumask_test_cpu cpu (cpus_ptr p)
             && negb (flag_set (p_flags current) PF_EXITING)
             && (target_dom taskc <? MAX_DOMS cfg)
          then
            let '(n, st) := dsq_nr_queued (Z.lor SCX_DSQ_LOCAL_ON cpu) st in
            if n =? 0 then (cpu, stat_add RUSTY_STAT_WAKE_SYNC 1 st)
            else (- ENOENT, st)
          else (- ENOENT, st)
      end
    end
  end.

(** ** rusty_select_cpu *)

(** The exits of [rusty_select_cpu]: [goto direct], [goto enoent], or fall
    through to the next attempt. *)
Inductive pick :=
| Direct (cpu : Z)
| Enoent
| Next.

(** [direct:] *)
Definition select_cpu_direct (p : task_struct) (cpu : Z) (st : state) : Z * state :=
  (cpu, taskc_update p (set_dispatch_local true) st).

(** Keep [prev_cpu] when its whole core is idle. *)
Definition select_cpu_prev (prev_cpu : Z) (prev_domestic : bool) (st : state)
  : pick * state :=
  let idle_smtmask := scx_bpf_get_idle_smtmask kops (kern st) in
  if prev_domestic then
    if bpf_cpumask_test_cpu prev_cpu idle_smtmask then
      let '(was_idle, st) := test_and_clear_cpu_idle prev_cpu st in
      if was_idle then (Direct prev_cpu, stat_add RUSTY_STAT_PREV_IDLE 1 st)
      else (Next, st)
    else (Next, st)
  else
    match direct_greedy_cpumask st with
    | Some dgm =>
      if bpf_cpumask_test_cpu prev_cpu dgm
         && bpf_cpumask_test_cpu prev_cpu idle_smtmask then
        let '(was_idle, st) := test_and_clear_cpu_idle prev_cpu st in
        if was_idle then (Direct prev_cpu, stat_add RUSTY_STAT_GREEDY_IDLE 1 st)
        else (Next, st)
      else (Next, st)
    | None => (Next, st)
    end.

(** An idle core of the domain, [prev_cpu] itself, any idle CPU of the domain. *)
Definition select_cpu_domestic (p_cpumask : cpumask) (prev_cpu : Z)
    (prev_domestic has_idle_cores : bool) (st : state) : pick * state :=
  let '(core, st) :=
    if has_idle_cores then pick_idle_cpu p_cpumask SCX_PICK_IDLE_CORE st
    else (-1, st) in
  if has_idle_cores && (0 <=? core)
  then (Direct core, stat_add RUSTY_STAT_DIRECT_DISPATCH 1 st)
  else
    let '(was_idle, st) :=
      if prev_domestic then test_and_clear_cpu_idle prev_cpu st else (false, st) in
    if was_idle then (Direct prev_cpu, stat_add RUSTY_STAT_DIRECT_DISPATCH 1 st)
    else
      let '(cpu, st) := pick_idle_cpu p_cpumask 0 st in
      if 0 <=? cpu then (Direct cpu, stat_add RUSTY_STAT_DIRECT_DISPATCH 1 st)
      else (Next, st).

(** One [scx_bpf_pick_idle_cpu] attempt of the greedy search, skipped when
    [mask] is NULL. *)
Definition greedy_pick (mask : option cpumask) (flags : Z) (stat : stat_idx)
    (st : state) : pick * state :=
  match mask with
  | None => (Next, st)
  | Some m =>
    let '(cpu, st) := pick_idle_cpu m flags st in
    if 0 <=? cpu then (Direct cpu, stat_add stat 1 st) else (Next, st)
  end.

(** [a] then, if it falls through, [b]. *)
Definition or_else (a : pick * state) (b : state -> pick * state) : pick * state :=
  match a with
  | (Next, st) => b st
  | r => r
  end.

(** The domestic domain is fully booked: look at the direct-greedy CPUs. *)
Definition select_cpu_greedy (taskc : task_ctx) (prev_cpu : Z)
    (has_idle_cores : bool) (st : state) : pick * state :=
  match direct_greedy_cpumask st with
  | None => (Next, st)
  | Some dgm =>
    if all_cpus taskc && negb (bpf_cpumask_empty dgm) then
      let dom_id := cpu_to_dom_id prev_cpu in
      let '(found, domc, st) :=
        if is_offline_cpu prev_cpu then (true, None, st)
        else
          let '(domc, st) := lookup_dom_ctx dom_id st in
          (if domc is Some _ then true else false, domc, st) in
      if negb found then (Enoent, st)
      else
        match lb_domain_get (domc_id_read domc st) st with
        | None => (Enoent, error st)
        | Some lb_domain =>
          let '(tmp_direct_greedy, st) :=
            if negb (direct_greedy_numa cfg) && (if domc is Some _ then true else false)
            then
              match lbd_node_cpumask lb_domain with
              | None => (None, error st)
              | Some node_mask =>
                let '(tmp_cpumask, st) := scx_percpu_bpfmask st in
                match tmp_cpumask with
                | None => (None, error st)
                | Some _ =>
                  let m := bpf_cpumask_and node_mask dgm in
                  (Some m,
                   set_percpu_bpfmask
                     (<[bpf_get_smp_processor_id kops (kern st) := Some m]>
                        (percpu_bpfmask st)) st)
                end
              end
            else (Some dgm, st) in
          match tmp_direct_greedy with
          | None => (Enoent, st)
          | Some tmp_direct_greedy =>
            let dom_greedy :=
              if domc is Some _ then lbd_direct_greedy_cpumask lb_domain
              else None in
            or_else
              (if has_idle_cores then
                 or_else
                   (greedy_pick dom_greedy SCX_PICK_IDLE_CORE
                      RUSTY_STAT_DIRECT_GREEDY st)
                   (greedy_pick (Some tmp_direct_greedy) SCX_PICK_IDLE_CORE
                      RUSTY_STAT_DIRECT_GREEDY_FAR)
               else (Next, st))
              (fun st =>
                 or_else
                   (greedy_pick dom_greedy 0 RUSTY_STAT_DIRECT_GREEDY st)
                   (greedy_pick (Some tmp_direct_greedy) 0
                      RUSTY_STAT_DIRECT_GREEDY_FAR))
          end
        end
    else (Next, st)
  end.

(** No direct dispatch: the CPU returned for the domain queue. *)
Definition select_cpu_queue (p_cpumask : cpumask) (prev_cpu : Z)
    (prev_domestic : bool) (st : state) : Z * state :=
  if prev_domestic then (prev_cpu, st)
  else
    let '(cpu, st) := any_distribute p_cpumask st in
    (if nr_cpu_ids cfg <=? u32 cpu then prev_cpu else cpu, st).

Definition rusty_select_cpu (p : task_struct) (prev_cpu wake_flags : Z)
    (st : state) : Z * state :=
  let st := refresh_tune_params st in
  let '(taskc, p_cpumask, st) := lookup_task_ctx_mask p st in
  match taskc, p_cpumask with
  | Some taskc, Some p_cpumask =>
    if nr_cpus_allowed p =? 1 then
      let st :=
        if kthreads_local cfg && flag_set (p_flags p) PF_KTHREAD
        then stat_add RUSTY_STAT_DIRECT_DISPATCH 1 st
        else stat_add RUSTY_STAT_PINNED 1 st in
      select_cpu_direct p prev_cpu st
    else
      let '(sync, st) :=
        if flag_set wake_flags SCX_WAKE_SYNC
        then try_sync_wakeup p taskc prev_cpu st else (-1, st) in
      if flag_set wake_flags SCX_WAKE_SYNC && (0 <=? sync)
      then select_cpu_direct p sync st
      else
        let has_idle_cores :=
          negb (bpf_cpumask_empty (scx_bpf_get_idle_smtmask kops (kern st))) in
        let prev_domestic := bpf_cpumask_test_cpu prev_cpu p_cpumask in
        match
          or_else (select_cpu_prev prev_cpu prev_domestic st)
            (fun st =>
               or_else
                 (select_cpu_domestic p_cpumask prev_cpu prev_domestic
                    has_idle_cores st)
                 (select_cpu_greedy taskc prev_cpu has_idle_cores))
        with
        | (Direct cpu, st) => select_cpu_direct p cpu st
        | (Enoent, st) => (- ENOENT, st)
        | (Next, st) => select_cpu_queue p_cpumask prev_cpu prev_domestic st
        end
  | _, _ => (- ENOENT, st)
  end.


(** ** rusty_enqueue *)

(** [dom_queue:] and what follows it.  [cpu] is the local variable of
    [rusty_enqueue], which the greedy kick reads. *)
Definition enqueue_dom_queue (p : task_struct) (enq_flags cpu : Z) (st : state)
  : task_struct * state :=
  match task_ctxs st !! tptr p with
  | None => (p, st)
  | Some taskc =>
    let '(p, taskc, st) :=
      if fifo_sched cfg
      then (p, taskc, dsq_insert p (target_dom taskc) (slice_ns st) enq_flags st)
      else
        let '(u, k) := place_task_dl eops p taskc enq_flags (slice_ns st)
                         (vt st) (kern st) in
        vtime_commit p taskc u
          (emit (ev_place_task_dl (tptr p) enq_flags) (set_kern k st)) in
    if all_cpus taskc then
      let idle_cpumask := scx_bpf_get_idle_cpumask kops (kern st) in
      let '(cpu, st) :=
        match kick_greedy_cpumask st with
        | Some kgm =>
          let '(cpu, st) := any_and_distribute kgm idle_cpumask st in
          (if nr_cpu_ids cfg <=? u32 cpu then - EBUSY else cpu, st)
        | None => (cpu, st)
        end in
      if 0 <=? cpu
      then (p, kick_cpu cpu SCX_KICK_IDLE (stat_add RUSTY_STAT_KICK_GREEDY 1 st))
      else (p, st)
    else (p, st)
  end.

(** Kick a CPU of the task's mask, if there is one. *)
Definition kick_domestic (p : task_struct) (st : state) : Z * state :=
  match task_masks st !! tptr p with
  | Some (Some p_cpumask) =>
    let '(cpu, st) := any_distribute p_cpumask st in
    (cpu, if u32 cpu <? nr_cpu_ids cfg then kick_cpu cpu 0 st else st)
  | _ => (-1, st)
  end.

Definition rusty_enqueue (p : task_struct) (enq_flags : Z) (st : state)
  : task_struct * state :=
  let '(taskc, p_cpumask, st) := lookup_task_ctx_mask p st in
  match taskc, p_cpumask with
  | Some taskc, Some _ =>
    match domc taskc with
    | None => (p, st)
    | Some domc_ =>
      let '(migrated, p, st) :=
        if negb (domc_id_read (Some domc_) st =? target_dom taskc)
        then task_set_domain p (domc_id_read (Some domc_) st) false st
        else (false, p, st) in
      if migrated then
        let st := stat_add RUSTY_STAT_LOAD_BALANCE 1 st in
        let st := taskc_update p (set_dispatch_local false) st in
        let '(cpu, st) := kick_domestic p st in
        enqueue_dom_queue p enq_flags cpu st
      else
        match task_ctxs st !! tptr p with
        | None => (p, st)
        | Some taskc =>
          if dispatch_local taskc then
            let st := taskc_update p (set_dispatch_local false) st in
            (p, dsq_insert p SCX_DSQ_LOCAL (slice_ns st) enq_flags st)
          else
            let foreign :=
              match task_masks st !! tptr p with
              | Some (Some p_cpumask) =>
                negb (bpf_cpumask_test_cpu (scx_bpf_task_cpu kops p (kern st))
                        p_cpumask)
              | _ => false
              end in
            let '(cpu, st) :=
              if foreign then
                let '(cpu, st) := kick_domestic p st in
                (cpu, stat_add RUSTY_STAT_REPATRIATE 1 st)
              else (-1, st) in
            enqueue_dom_queue p enq_flags cpu st
        end
    end
  | _, _ => (p, st)
  end.

(** ** cpumask_intersects_domain, node_dom_mask *)

Definition cpumask_intersects_domain (mask : cpumask) (dom_id : Z) (st : state)
  : bool :=
  match lb_domain_get dom_id st with
  | None => false
  | Some lb_domain =>
    match lbd_cpumask lb_domain with
    | None => false
    | Some dmask => bpf_cpumask_intersects mask dmask
    end
  end.

Definition node_dom_mask (node_id : Z) : Z :=
  fold_left
    (fun mask dom_id =>
       if dom_node_id eops dom_id =? node_id
       then Z.lor mask (u64 (Z.shiftl 1 dom_id)) else mask)
    (bpf_iter_num 0 (s32 (nr_doms cfg))) 0.

(** ** task_set_preferred_mempolicy_dom_mask

    The local [val] is a [u32]: [bpf_core_read] copies [sizeof(val)] bytes,
    the low 32 bits of the first word of the node mask.  The test of a node
    is [val & 1 << node_id], with an [int] shift. *)

Definition task_set_preferred_mempolicy_dom_mask (p : task_struct) (st : state)
  : state :=
  let st := taskc_update p (set_preferred_dom_mask 0) st in
  let '(p_cpumask, st) := lookup_task_bpfmask p st in
  match p_mempolicy p, p_cpumask with
  | Some mempolicy, Some _ =>
    if negb (mempolicy_affinity cfg) then st
    else if negb (flag_set (mp_mode mempolicy)
                    (Z.lor (Z.lor MPOL_BIND MPOL_PREFERRED) MPOL_PREFERRED_MANY))
    then st
    else if 0 <=? s32 (mp_home_node mempolicy) then
      taskc_update p
        (set_preferred_dom_mask (node_dom_mask (u32 (mp_home_node mempolicy)))) st
    else
      match mp_nodes mempolicy with
      | None => st
      | Some val =>
        fold_left
          (fun st node_id =>
             if flag_set (u32 val) (int_shl_1 node_id) then
               taskc_update p
                 (fun t => set_preferred_dom_mask
                             (Z.lor (preferred_dom_mask t) (node_dom_mask node_id)) t)
                 st
             else st)
          (bpf_iter_num 0 (s32 (nr_nodes cfg))) st
      end
  | _, _ => st
  end.

(** ** task_pick_domain *)

(** The locals of the scan of [task_pick_domain]. *)
Record pick_locals := {
  pl_dom : Z;
  pl_first_dom : Z;
  pl_preferred_dom : Z
}.

(** The body of the [bpf_repeat(nr_doms)] loop, [n] times. *)
Fixpoint pick_domain_scan (n : nat) (p : task_struct) (mask : cpumask)
    (l : pick_locals) (st : state) : pick_locals * state :=
  match n with
  | O => (l, st)
  | S n =>
    let dom := u32 (pl_dom l + 1) mod nr_doms cfg in
    if cpumask_intersects_domain mask dom st then
      let st :=
        taskc_update p
          (fun t => set_dom_mask (Z.lor (dom_mask t) (u64 (Z.shiftl 1 dom))) t) st in
      let first_dom :=
        if pl_first_dom l =? NO_DOM_FOUND cfg then dom else pl_first_dom l in
      let preferred := default 0 (preferred_dom_mask <$> task_ctxs st !! tptr p) in
      let preferred_dom :=
        if preferred =? 0 then pl_preferred_dom l
        else if flag_set (u64 (Z.shiftl 1 dom)) preferred
                && (pl_preferred_dom l =? NO_DOM_FOUND cfg)
        then dom else pl_preferred_dom l in
      pick_domain_scan n p mask
        {| pl_dom := dom; pl_first_dom := first_dom;
           pl_preferred_dom := preferred_dom |} st
    else
      pick_domain_scan n p mask
        {| pl_dom := dom; pl_first_dom := pl_first_dom l;
           pl_preferred_dom := pl_preferred_dom l |} st
  end.

Definition task_pick_domain (p : task_struct) (mask : cpumask) (st : state)
  : Z * state :=
  let cpu := bpf_get_smp_processor_id kops (kern st) in
  if (cpu <? 0) || (MAX_CPUS cfg <=? cpu) then (NO_DOM_FOUND cfg, st)
  else
    let st := taskc_update p (set_dom_mask 0) st in
    let '(dom, st) := dom_rr_cur_postinc cpu st in
    let st := task_set_preferred_mempolicy_dom_mask p st in
    let '(l, st) :=
      pick_domain_scan (bpf_repeat (nr_doms cfg)) p mask
        {| pl_dom := dom; pl_first_dom := NO_DOM_FOUND cfg;
           pl_preferred_dom := NO_DOM_FOUND cfg |} st in
    (if negb (pl_preferred_dom l =? NO_DOM_FOUND cfg)
     then pl_preferred_dom l else pl_first_dom l, st).

Definition task_pick_and_set_domain (p : task_struct) (mask : cpumask)
    (init_dsq_vtime : bool) (st : state) : task_struct * state :=
  let '(dom_id, st) :=
    if 1 <? nr_doms cfg then task_pick_domain p mask st else (0, st) in
  let '(ok, p, st) := task_set_domain p dom_id init_dsq_vtime st in
  (p, if ok then st else error st).

(** ** rusty_set_cpumask, rusty_init_task *)

Definition rusty_set_cpumask (p : task_struct) (mask : cpumask) (st : state)
  : task_struct * state :=
  let '(taskc, st) := lookup_task_ctx p st in
  match taskc with
  | None => (p, st)
  | Some _ =>
    let '(p, st) := task_pick_and_set_domain p mask false st in
    match all_cpumask st with
    | Some all => (p, taskc_update p (set_all_cpus (bpf_cpumask_subset all mask)) st)
    | None => (p, st)
    end
  end.

(** The zero-initialised context that [rusty_init_task] writes. *)
Definition task_ctx_init (p : task_struct) (now : Z) : task_ctx :=
  {| target_dom := 0; domc := None; dom_mask := 0; preferred_dom_mask := 0;
     dispatch_local := false; all_cpus := false; is_kworker := false;
     runnable := false; dom_active_tasks_gen := u32 (-1); weight := 0;
     sum_runtime := 0; waker_freq := 0; last_woke_at := now; blocked_freq := 0;
     last_blocked_at := now; last_run_at := 0; pid := p_pid p;
     dcyc_rd := {| rd_val := 0; rd_val_at := 0; rd_old := 0; rd_cur := 0 |} |}.

(** The result is 0 or a negative error; [sdt_task_free] drops the context.
    The lookup that follows a successful [bpf_map_update_elem] finds the entry
    just written. *)
Definition rusty_init_task (p : task_struct) (st : state)
  : Z * task_struct * state :=
  let now := scx_bpf_now kops (kern st) in
  let '(allocated, k) := sdt_task_alloc kops p (kern st) in
  let st := set_kern k st in
  if negb allocated then (- ENOMEM, p, st)
  else
    let st := taskc_write p (task_ctx_init p now) st in
    let '(ret, k) := task_masks_update_elem kops p (kern st) in
    let st := set_kern k st in
    if negb (ret =? 0)
    then (ret, p, set_task_ctxs (delete (tptr p) (task_ctxs st)) st)
    else
      let st := set_task_masks (<[tptr p := None]> (task_masks st)) st in
      let '(ret, k) := create_save_cpumask kops (kern st) in
      let st := set_kern k st in
      if negb (ret =? 0)
      then (ret, p,
            set_task_ctxs (delete (tptr p) (task_ctxs st))
              (set_task_masks (delete (tptr p) (task_masks st)) st))
      else
        let st := task_mask_write p 0 st in
        let '(p, st) := task_pick_and_set_domain p (cpus_ptr p) true st in
        (0, p, st).


(** ** rusty_dispatch *)

(** The scan of the domains of the current NUMA node: at most [n] iterations
    of the loop body.  The result says whether a task was stolen (the
    [return] inside the loop). *)
Fixpoint steal_same_node (n : nat) (cpu curr_dom my_node : Z) (st : state)
  : bool * state :=
  match n with
  | O => (false, st)
  | S n =>
    let '(cur, st) := dom_rr_cur_postinc cpu st in
    let dom := cur mod nr_doms cfg in
    if (dom =? curr_dom) || negb (dom_node_id eops dom =? my_node)
    then steal_same_node n cpu curr_dom my_node st
    else
      let '(moved, st) := dsq_move_to_local dom st in
      if moved then (true, stat_add RUSTY_STAT_GREEDY_LOCAL 1 st)
      else steal_same_node n cpu curr_dom my_node st
  end.

(** The scan of the domains of the other NUMA nodes. *)
Fixpoint steal_cross_node (n : nat) (cpu curr_dom my_node : Z) (st : state)
  : bool * state :=
  match n with
  | O => (false, st)
  | S n =>
    let '(cur, st) := dom_rr_cur_postinc cpu st in
    let dom := cur mod nr_doms cfg in
    if (dom_node_id eops dom =? my_node) || (dom =? curr_dom)
    then steal_cross_node n cpu curr_dom my_node st
    else
      let '(queued, st) := dsq_nr_queued dom st in
      if greedy_threshold_x_numa cfg <=? u32 queued
      then steal_cross_node n cpu curr_dom my_node st
      else
        let '(moved, st) := dsq_move_to_local dom st in
        if moved then (true, stat_add RUSTY_STAT_GREEDY_XNUMA 1 st)
        else steal_cross_node n cpu curr_dom my_node st
  end.

Definition rusty_dispatch (cpu : Z) (st : state) : state :=
  let curr_dom := cpu_to_dom_id cpu in
  if is_offline_cpu cpu then st
  else
    let '(moved, st) := dsq_move_to_local curr_dom st in
    if moved then stat_add RUSTY_STAT_DSQ_DISPATCH 1 st
    else if greedy_threshold cfg =? 0 then st
    else
      let '(pcpuc, st) := lookup_pcpu_ctx cpu st in
      match pcpuc with
      | None => st
      | Some _ =>
        let my_node := dom_node_id eops curr_dom in
        let '(stolen, st) :=
          steal_same_node (bpf_repeat (u32 (nr_doms cfg - 1))) cpu curr_dom
            my_node st in
        if stolen then st
        else if (greedy_threshold_x_numa cfg =? 0) || (nr_nodes cfg =? 1) then st
        else
          snd (steal_cross_node (bpf_repeat (u32 (nr_doms cfg - 1))) cpu
                 curr_dom my_node st)
      end.

(** ** rusty_runnable, rusty_running, rusty_stopping, rusty_quiescent *)

Definition rusty_runnable (p : task_struct) (enq_flags : Z) (st : state) : state :=
  let now := scx_bpf_now kops (kern st) in
  let '(wakee_ctx, st) := lookup_task_ctx p st in
  match wakee_ctx with
  | None => st
  | Some wakee_ctx =>
    let wakee_ctx := set_is_kworker (flag_set (p_flags p) PF_WQ_WORKER) wakee_ctx in
    let wakee_ctx := task_load_adj wakee_ctx now true in
    let st := taskc_write p wakee_ctx st in
    let st :=
      set_acct (dom_dcycle_adj eops (domc wakee_ctx) (weight wakee_ctx) now true
                  (acct st)) st in
    if fifo_sched cfg then st
    else
      let st := taskc_update p (set_sum_runtime 0) st in
      let waker := bpf_get_current_task_btf kops (kern st) in
      match try_lookup_task_ctx waker st with
      | None => st
      | Some waker_ctx =>
        let interval := u64 (now - last_woke_at waker_ctx) in
        taskc_update waker
          (fun t => set_last_woke_at now
                      (set_waker_freq (update_freq eops (waker_freq t) interval) t))
          st
      end
  end.

(** [__sync_fetch_and_add(&domc->active_tasks.write_idx, 1)] *)
Definition write_idx_fetch_add (d : dom_ctx) : Z * dom_ctx :=
  (write_idx (active_tasks d),
   {| domc_id := domc_id d;
      active_tasks := {| gen := gen (active_tasks d);
                         write_idx := u64 (write_idx (active_tasks d) + 1);
                         tasks := tasks (active_tasks d) |} |}).

(** [domc->active_tasks.tasks[idx] = usrptr] *)
Definition active_tasks_store (idx usrptr : Z) (d : dom_ctx) : dom_ctx :=
  {| domc_id := domc_id d;
     active_tasks := {| gen := gen (active_tasks d);
                        write_idx := write_idx (active_tasks d);
                        tasks := <[Z.to_nat idx := usrptr]> (tasks (active_tasks d)) |} |}.

(** The index of the ring that [rusty_running] writes, from the value that
    the fetch-and-add of the write cursor returned. *)
Definition active_tasks_idx (old : Z) : Z := old mod MAX_DOM_ACTIVE_TPTRS cfg.

(** What one recording does to the domain context when it goes through: the
    fetch-and-add of the cursor, then the store at the index. *)
Definition active_tasks_record (usrptr : Z) (d : dom_ctx) : dom_ctx :=
  let '(old, d) := write_idx_fetch_add d in
  active_tasks_store (active_tasks_idx old) usrptr d.

(** The recording of [p] in the ring of its domain.  The boolean is true for
    the [return] after the out-of-bounds error.  The local [dap_gen] is a
    [u32]: it holds the low 32 bits of the generation of the ring, and that
    is what is compared with and stored in the task's context. *)
Definition running_record_active (p : task_struct) (taskc : task_ctx)
    (domc_ : Z) (d : dom_ctx) (st : state) : bool * state :=
  let dap_gen := u32 (gen (active_tasks d)) in
  if negb (dom_active_tasks_gen taskc =? dap_gen) then
    let '(old, d) := write_idx_fetch_add d in
    let st := set_dom_ctxs (<[domc_ := d]> (dom_ctxs st)) st in
    let idx := active_tasks_idx old in
    if MAX_DOM_ACTIVE_TPTRS cfg <=? idx then (true, error st)
    else
      let usrptr := sdt_task_data eops p in
      let st :=
        set_dom_ctxs (<[domc_ := active_tasks_store idx usrptr d]> (dom_ctxs st)) st in
      (false, taskc_update p (set_dom_active_tasks_gen dap_gen) st)
  else (false, st).

(** A dangling [domc] cannot occur (domains are never freed); the model then
    leaves the state as it is. *)
Definition rusty_running (p : task_struct) (st : state) : task_struct * state :=
  let '(taskc, st) := lookup_task_ctx p st in
  match taskc with
  | None => (p, st)
  | Some taskc =>
    match domc taskc with
    | None => (p, error st)
    | Some domc_ =>
      match dom_ctxs st !! domc_ with
      | None => (p, st)
      | Some d =>
        let '(oob, st) := running_record_active p taskc domc_ d st in
        if oob then (p, st)
        else if fifo_sched cfg then (p, st)
        else
          match task_ctxs st !! tptr p with
          | None => (p, st)
          | Some taskc =>
            let '(p, _, st) :=
              vtime_commit p taskc
                (running_update_vtime eops p taskc domc_ (vt st)) st in
            (p, taskc_update p (set_last_run_at (scx_bpf_now kops (kern st))) st)
          end
      end
    end
  end.

Definition rusty_stopping (p : task_struct) (runnable_ : bool) (st : state)
  : task_struct * state :=
  if fifo_sched cfg then (p, st)
  else
    let '(taskc, st) := lookup_task_ctx p st in
    match taskc with
    | None => (p, st)
    | Some taskc =>
      match domc taskc with
      | None => (p, st)
      | Some domc_ =>
        let '(p, _, st) :=
          vtime_commit p taskc
            (stopping_update_vtime eops p taskc domc_ (kern st) (vt st)) st in
        (p, st)
      end
    end.

Definition rusty_quiescent (p : task_struct) (deq_flags : Z) (st : state) : state :=
  let now := scx_bpf_now kops (kern st) in
  let '(taskc, st) := lookup_task_ctx p st in
  match taskc with
  | None => st
  | Some taskc =>
    match domc taskc with
    | None => st
    | Some domc_ =>
      let taskc := task_load_adj taskc now false in
      let st := taskc_write p taskc st in
      let st :=
        set_acct (dom_dcycle_adj eops (Some domc_) (weight taskc) now false
                    (acct st)) st in
      if fifo_sched cfg then st
      else
        let interval := u64 (now - last_blocked_at taskc) in
        taskc_update p
          (fun t => set_last_blocked_at now
                      (set_blocked_freq (update_freq eops (blocked_freq t) interval) t))
          st
    end
  end.

Definition rusty_set_weight (p : task_struct) (weight_ : Z) (st : state) : state :=
  let '(taskc, st) := lookup_task_ctx p st in
  match taskc with
  | None => st
  | Some _ => taskc_update p (set_weight weight_) st
  end.

End Rusty.

(** ** Per-CPU initialisation and task exit

    The remaining self-contained functions of main.bpf.c.  The result of
    [bpf_map_delete_elem(&task_masks, &p)], which the kernel may refuse, is a
    further parameter. *)

Section RustyLifecycle.

Context {K V A : Type}.
Variable kops : kernel_ops K.
Variable cfg : config.
Variable task_masks_delete_elem : task_struct -> K -> Z * K.

Local Abbreviation state := (sched K V A).

(** [pcpuc->dom_rr_cur = v] and [pcpuc->dom_id = v] for the context of [cpu]. *)
Definition pcpu_set_dom_rr_cur (cpu v : Z) (st : state) : state :=
  set_pcpu_ctx (<[cpu := {| dom_rr_cur := v;
                            dom_id := dom_id (pcpu_ctx_read cpu st) |}]>
                  (pcpu_ctx st)) st.

Definition pcpu_set_dom_id (cpu v : Z) (st : state) : state :=
  set_pcpu_ctx (<[cpu := {| dom_rr_cur := dom_rr_cur (pcpu_ctx_read cpu st);
                            dom_id := v |}]>
                  (pcpu_ctx st)) st.

(** The loop of [initialize_cpu] over the domain ids [doms]: the result is 0
    with [pcpuc->dom_id] set to the first domain whose mask holds [cpu], or
    [- ENOENT]. *)
Fixpoint initialize_cpu_scan (cpu : Z) (doms : list Z) (st : state) : Z * state :=
  match doms with
  | [] => (- ENOENT, st)
  | i :: doms =>
    match lb_domain_get i st with
    | None => (- ENOENT, st)
    | Some lb_domain =>
      match lbd_cpumask lb_domain with
      | None => (- ENOENT, error kops st)
      | Some mask =>
        if bpf_cpumask_test_cpu cpu mask then (0, pcpu_set_dom_id cpu i st)
        else initialize_cpu_scan cpu doms st
      end
    end
  end.

Definition initialize_cpu (cpu : Z) (st : state) : Z * state :=
  let '(pcpuc, st) := lookup_pcpu_ctx kops cfg cpu st in
  match pcpuc with
  | None => (- ENOENT, st)
  | Some _ =>
    let st := pcpu_set_dom_rr_cur cpu (u32 cpu) st in
    initialize_cpu_scan cpu (bpf_iter_num 0 (s32 (nr_doms cfg))) st
  end.

(** [rusty_exit_task]: the context is freed; the mask entry is deleted unless
    the kernel refuses, which is counted. *)
Definition rusty_exit_task (p : task_struct) (st : state) : state :=
  let st := set_task_ctxs (delete (tptr p) (task_ctxs st)) st in
  let '(ret, k) := task_masks_delete_elem p (kern st) in
  let st := set_kern k st in
  if negb (ret =? 0) then stat_add RUSTY_STAT_TASK_GET_ERR 1 st
  else set_task_masks (delete (tptr p) (task_masks st)) st.

End RustyLifecycle.

(** ** A reference platform

    A small concrete kernel for a machine with four CPUs and a trivial
    fairness engine, on which the hooks can be run.  A dispatch queue is the
    list of the tasks queued on it. *)

Module Ref.

Record kernel := {
  k_now : Z;
  k_cpu : Z;
  k_task_cpu : Z;
  k_nr_cpu_ids : Z;
  k_idle : cpumask;
  k_idle_smt : cpumask;
  k_dsqs : gmap Z (list Z)
}.

Definition with_idle (idle idle_smt : cpumask) (k : kernel) : kernel :=
  {| k_now := k_now k; k_cpu := k_cpu k; k_task_cpu := k_task_cpu k;
     k_nr_cpu_ids := k_nr_cpu_ids k; k_idle := idle; k_idle_smt := idle_smt;
     k_dsqs := k_dsqs k |}.

Definition with_dsqs (dsqs : gmap Z (list Z)) (k : kernel) : kernel :=
  {| k_now := k_now k; k_cpu := k_cpu k; k_task_cpu := k_task_cpu k;
     k_nr_cpu_ids := k_nr_cpu_ids k; k_idle := k_idle k;
     k_idle_smt := k_idle_smt k; k_dsqs := dsqs |}.

(** The lowest CPU of a mask, [none] when the mask is empty. *)
Definition first_cpu (m : cpumask) (none : Z) : Z :=
  if m <=? 0 then none else Z.log2 (Z.land m (- m)).

Definition idle_task : task_struct :=
  {| tptr := 0; p_pid := 0; p_flags := 0; cpus_ptr := 0; nr_cpus_allowed := 0;
     scx_flags := 0; scx_dsq_vtime := 0; p_mempolicy := None |}.

Definition pick_idle (m : cpumask) (flags : Z) (k : kernel) : Z * kernel :=
  let cand := Z.land m (if flag_set flags SCX_PICK_IDLE_CORE
                        then k_idle_smt k else k_idle k) in
  let cpu := first_cpu cand (- EBUSY) in
  (cpu, if cpu <? 0 then k
        else with_idle (Z.clearbit (k_idle k) cpu) (Z.clearbit (k_idle_smt k) cpu) k).

Definition move_to_local (dsq : Z) (k : kernel) : bool * kernel :=
  match k_dsqs k !! dsq with
  | Some (_ :: q) => (true, with_dsqs (<[dsq := q]> (k_dsqs k)) k)
  | _ => (false, k)
  end.

Definition kops : kernel_ops kernel :=
  {| scx_bpf_now := k_now;
     bpf_get_smp_processor_id := fun k => k_cpu k mod 4;
     bpf_get_current_task_btf := fun _ => idle_task;
     scx_bpf_task_cpu := fun _ k => k_task_cpu k;
     scx_bpf_get_idle_cpumask := k_idle;
     scx_bpf_get_idle_smtmask := k_idle_smt;
     scx_bpf_test_and_clear_cpu_idle := fun cpu k =>
       (Z.testbit (k_idle k) cpu,
        with_idle (Z.clearbit (k_idle k) cpu) (Z.clearbit (k_idle_smt k) cpu) k);
     scx_bpf_pick_idle_cpu := pick_idle;
     bpf_cpumask_any_distribute := fun m k => (first_cpu m (k_nr_cpu_ids k), k);
     bpf_cpumask_any_and_distribute := fun a b k =>
       (first_cpu (Z.land a b) (k_nr_cpu_ids k), k);
     scx_bpf_dsq_nr_queued := fun dsq k =>
       Z.of_nat (length (default [] (k_dsqs k !! dsq)));
     scx_bpf_dsq_move_to_local := move_to_local;
     scx_bpf_dsq_insert := fun p dsq _ _ k =>
       with_dsqs (<[dsq := default [] (k_dsqs k !! dsq) ++ [tptr p]]> (k_dsqs k)) k;
     scx_bpf_kick_cpu := fun _ _ k => k;
     scx_bpf_error := fun k => k;
     sdt_task_alloc := fun _ k => (true, k);
     task_masks_update_elem := fun _ k => (0, k);
     create_save_cpumask := fun k => (0, k) |}.

(** An engine that keeps every vtime where it is; domain [d] is on node
    [node_of d]. *)
Definition keep (p : task_struct) (taskc : task_ctx) : vtime_update unit :=
  {| vu_dsq_vtime := scx_dsq_vtime p; vu_sum_runtime := sum_runtime taskc;
     vu_vt := tt |}.

Definition eops (node_of : Z -> Z) : engine_ops kernel unit unit :=
  {| dom_node_id := node_of;
     sdt_task_data := tptr;
     load_half_life := 1;
     ravg_accumulate := fun rd _ _ _ => rd;
     update_freq := fun freq _ => freq;
     dom_dcycle_adj := fun _ _ _ _ a => a;
     dom_xfer_task := fun _ _ _ _ a => a;
     dom_min_vruntime := fun _ _ => 0;
     init_vtime := fun p taskc _ => keep p taskc;
     running_update_vtime := fun p taskc _ _ => keep p taskc;
     stopping_update_vtime := fun p taskc _ _ _ => keep p taskc;
     place_task_dl := fun p taskc _ _ _ k => (keep p taskc, k) |}.

(** A configuration with [doms] domains on [nodes] NUMA nodes and the CPU to
    domain map [map]. *)
Definition config_of (doms nodes : Z) (map : list Z) (fifo : bool)
    (threshold_x_numa : Z) : config :=
  {| MAX_CPUS := 512; MAX_DOMS := 64; MAX_DOM_ACTIVE_TPTRS := 8;
     NO_DOM_FOUND := 65; nr_doms := doms; nr_nodes := nodes; nr_cpu_ids := 4;
     cpu_dom_id_map := map;
     kthreads_local := false; fifo_sched := fifo; direct_greedy_numa := false;
     mempolicy_affinity := false; greedy_threshold := 1;
     greedy_threshold_x_numa := threshold_x_numa |}.

(** Two domains, CPUs 0-1 and CPUs 2-3, on [nodes] NUMA nodes. *)
Definition config2 (nodes : Z) (fifo : bool) (threshold_x_numa : Z) : config :=
  config_of 2 nodes [0; 0; 1; 1] fifo threshold_x_numa.

(** One domain holding the four CPUs. *)
Definition config1 : config := config_of 1 1 [0; 0; 0; 0] false 0.


Definition kernel0 : kernel :=
  {| k_now := 1000; k_cpu := 0; k_task_cpu := 0; k_nr_cpu_ids := 4;
     k_idle := 0; k_idle_smt := 0; k_dsqs := ∅ |}.

Definition empty_ring : dom_active_tasks :=
  {| gen := 0; write_idx := 0; tasks := replicate 8 0 |}.

Definition domain (mask : cpumask) : lb_domain :=
  {| lbd_cpumask := Some mask; lbd_direct_greedy_cpumask := Some 0;
     lbd_node_cpumask := Some mask |}.

(** A task context assigned to domain [cur], with balancer target [target]. *)
Definition taskc0 (cur target : Z) (local : bool) : task_ctx :=
  {| target_dom := target; domc := Some cur; dom_mask := 0;
     preferred_dom_mask := 0; dispatch_local := local; all_cpus := false;
     is_kworker := false; runnable := false; dom_active_tasks_gen := u32 (-1);
     weight := 100; sum_runtime := 0; waker_freq := 0; last_woke_at := 0;
     blocked_freq := 0; last_blocked_at := 0; last_run_at := 0; pid := 7;
     dcyc_rd := {| rd_val := 0; rd_val_at := 0; rd_old := 0; rd_cur := 0 |} |}.

(** Task 7, allowed on the CPUs of [affinity]. *)
Definition task7 (affinity : cpumask) (allowed : Z) : task_struct :=
  {| tptr := 7; p_pid := 7; p_flags := 0; cpus_ptr := affinity;
     nr_cpus_allowed := allowed; scx_flags := 0; scx_dsq_vtime := 0;
     p_mempolicy := None |}.

(** The state after [rusty_init]: one domain per mask of [masks], numbered
    from 0, and no task yet. *)
Definition boot (masks : list cpumask) (k : kernel) : sched kernel unit unit :=
  {| task_ctxs := ∅;
     task_masks := ∅;
     dom_ctxs :=
       list_to_map
         (imap (fun i _ => (Z.of_nat i, {| domc_id := Z.of_nat i;
                                           active_tasks := empty_ring |})) masks);
     lb_domains := list_to_map (imap (fun i m => (Z.of_nat i, domain m)) masks);
     pcpu_ctx := ∅;
     percpu_bpfmask := ∅;
     tune_input := {| ti_gen := 0; ti_slice_ns := 20000;
                      ti_direct_greedy_cpumask := [0];
                      ti_kick_greedy_cpumask := [0] |};
     tune_params_gen := 0;
     slice_ns := 20000;
     all_cpumask := Some 15;
     direct_greedy_cpumask := Some 0;
     kick_greedy_cpumask := Some 0;
     stats := fun _ => 0;
     kern := k; vt := tt; acct := tt; trace := [] |}.

(** Task 7 admitted with context [taskc] and working mask [mask]. *)
Definition with_task7 (taskc : task_ctx) (mask : cpumask) (st : sched kernel unit unit)
  : sched kernel unit unit :=
  set_task_masks (<[7 := Some mask]> (task_masks st))
    (set_task_ctxs (<[7 := taskc]> (task_ctxs st)) st).

(** Two domains, 0 (CPUs 0-1) and 1 (CPUs 2-3), and task 7. *)
Definition state2 (taskc : task_ctx) (mask : cpumask) (k : kernel)
  : sched kernel unit unit :=
  with_task7 taskc mask (boot [3; 12] k).

(** The tuning input of generation [g], with slice [slice]. *)
Definition with_tune_input (g slice : Z) (st : sched kernel unit unit)
  : sched kernel unit unit :=
  {| task_ctxs := task_ctxs st; task_masks := task_masks st;
     dom_ctxs := dom_ctxs st; lb_domains := lb_domains st;
     pcpu_ctx := pcpu_ctx st; percpu_bpfmask := percpu_bpfmask st;
     tune_input := {| ti_gen := g; ti_slice_ns := slice;
                      ti_direct_greedy_cpumask := [5];
                      ti_kick_greedy_cpumask := [10] |};
     tune_params_gen := tune_params_gen st; slice_ns := slice_ns st;
     all_cpumask := all_cpumask st;
     direct_greedy_cpumask := direct_greedy_cpumask st;
     kick_greedy_cpumask := kick_greedy_cpumask st; stats := stats st;
     kern := kern st; vt := vt st; acct := acct st; trace := trace st |}.

(** Domain [d] is on NUMA node [d]. *)
Definition eops2 : engine_ops kernel unit unit := eops (fun d => d).

(** The kernel with the tasks [q] waiting on the queue of domain 1. *)
Definition kernel_q (q : list Z) : kernel := with_dsqs {[ 1 := q ]} kernel0.

(** The scenario of the specification: capacity 8 and ten run-starts on one
    domain, by the tasks 1 to 10, each running for the first time. *)
Definition ten_tasks : list Z := [1; 2; 3; 4; 5; 6; 7; 8; 9; 10].

Definition task_n (n : Z) : task_struct :=
  {| tptr := n; p_pid := n; p_flags := 0; cpus_ptr := 15; nr_cpus_allowed := 4;
     scx_flags := 0; scx_dsq_vtime := 0; p_mempolicy := None |}.

Definition ten_tasks_state : sched kernel unit unit :=
  set_task_ctxs
    (list_to_map (map (fun n => (n, taskc0 0 0 false)) ten_tasks))
    (boot [15] kernel0).

Definition ten_runs : sched kernel unit unit :=
  fold_left (fun st n => (rusty_running kops eops2 config1 (task_n n) st).2)
    ten_tasks ten_tasks_state.

(** Two domains on two nodes, with the mempolicy affinity configured. *)
Definition config_mempolicy : config :=
  {| MAX_CPUS := 512; MAX_DOMS := 64; MAX_DOM_ACTIVE_TPTRS := 8;
     NO_DOM_FOUND := 65; nr_doms := 2; nr_nodes := 2; nr_cpu_ids := 4;
     cpu_dom_id_map := [0; 0; 1; 1];
     kthreads_local := false; fifo_sched := false; direct_greedy_numa := false;
     mempolicy_affinity := true; greedy_threshold := 1;
     greedy_threshold_x_numa := 2 |}.

(** Task 7, allowed on all four CPUs and bound ([MPOL_BIND]) to the home node
    [node]. *)
Definition task7_bound (node : Z) : task_struct :=
  {| tptr := 7; p_pid := 7; p_flags := 0; cpus_ptr := 15;
     nr_cpus_allowed := 4; scx_flags := 0; scx_dsq_vtime := 0;
     p_mempolicy := Some {| mp_mode := MPOL_BIND; mp_home_node := node;
                            mp_nodes := None |} |}.

End Ref.

(** ** Predicates used in the statements *)

(** The two states hold the same scheduling data; the kernel, the statistics
    and the trace may differ. *)
Definition same_sched {K V A : Type} (st st' : sched K V A) : Prop :=
  task_ctxs st' = task_ctxs st /\ task_masks st' = task_masks st
  /\ dom_ctxs st' = dom_ctxs st /\ lb_domains st' = lb_domains st
  /\ vt st' = vt st /\ acct st' = acct st.


(** The domain visited by iteration [j] (from 0) of the scan of
    [task_pick_domain] that starts at cursor [dom]. *)
Definition scan_dom (cfg : config) (dom : Z) (j : nat) : Z :=
  Nat.iter (S j) (fun dom => u32 (dom + 1) mod nr_doms cfg) dom.

(** The [dom_mask] of the task, if it has a context. *)
Definition dom_mask_of {K V A : Type} (p : task_struct) (st : sched K V A)
  : option Z :=
  dom_mask <$> task_ctxs st !! tptr p.

(** A step that touches neither the domains' masks nor the task's [dom_mask]. *)
Definition dom_mask_kept {K V A : Type} (p : task_struct) (st st' : sched K V A)
  : Prop :=
  lb_domains st' = lb_domains st /\ dom_mask_of p st' = dom_mask_of p st.

(** The steal probes ([scx_bpf_dsq_move_to_local]) of a trace: their number
    and the queues they looked at. *)
Fixpoint probes (evs : list event) : nat :=
  match evs with
  | [] => 0
  | ev_dsq_move_to_local _ _ :: evs => S (probes evs)
  | _ :: evs => probes evs
  end.

Fixpoint probed (evs : list event) : list Z :=
  match evs with
  | [] => []
  | ev_dsq_move_to_local dsq _ :: evs => dsq :: probed evs
  | _ :: evs => probed evs
  end.

(** A scan gated on the occupancy: every probe of a queue directly follows
    the reading of the occupancy of that queue, and is made exactly when
    [skip] does not hold of the occupancy read. *)
Fixpoint scan_gated (skip : Z -> bool) (evs : list event) : bool :=
  match evs with
  | [] => true
  | ev_dsq_nr_queued dsq n :: rest =>
    if skip n then
      match rest with
      | ev_dsq_move_to_local _ _ :: _ => false
      | _ => scan_gated skip rest
      end
    else
      match rest with
      | ev_dsq_move_to_local dsq' _ :: rest' =>
        (dsq' =? dsq) && scan_gated skip rest'
      | _ => false
      end
  | _ => false
  end.

(** What the cross-node scan of the code does: a queue whose occupancy is at
    or above the threshold is skipped. *)
Definition skip_at_or_above (cfg : config) (queued : Z) : bool :=
  greedy_threshold_x_numa cfg <=? u32 queued.

(** What the cross-node scan is said to do: a queue whose occupancy is below
    the threshold is skipped. *)
Definition skip_below (cfg : config) (queued : Z) : bool :=
  u32 queued <? greedy_threshold_x_numa cfg.

(** The queue insertions of a trace: FIFO insertions ([scx_bpf_dsq_insert])
    and insertions ordered by the fairness engine ([place_task_dl]). *)
Fixpoint inserts (evs : list event) : list event :=
  match evs with
  | [] => []
  | ev_dsq_insert p dsq slice enq_flags :: evs =>
    ev_dsq_insert p dsq slice enq_flags :: inserts evs
  | ev_place_task_dl p enq_flags :: evs => ev_place_task_dl p enq_flags :: inserts evs
  | _ :: evs => inserts evs
  end.

(** The fields of a task context that the fairness engine and the vtime part
    of the hooks maintain. *)
Definition vtime_fields (taskc : task_ctx) : Z * Z * Z * Z * Z * Z :=
  (sum_runtime taskc, waker_freq taskc, last_woke_at taskc,
   blocked_freq taskc, last_blocked_at taskc, last_run_at taskc).

(** Nothing of the virtual-time bookkeeping differs between the two states:
    the state of the fairness engine and the vtime fields of every task
    context are the same. *)
Definition vtime_untouched {K V A : Type} (st st' : sched K V A) : Prop :=
  vt st' = vt st
  /\ forall key, vtime_fields <$> task_ctxs st' !! key
                 = vtime_fields <$> task_ctxs st !! key.

(** A step that inserts the task nowhere and keeps the slice. *)
Definition quiet {K V A : Type} (st st' : sched K V A) : Prop :=
  slice_ns st' = slice_ns st
  /\ exists evs, trace st' = trace st ++ evs /\ inserts evs = [].

(** Whether the CPU mask of domain [d] holds [cpu]; [None] when the domain is
    not registered or has no mask. *)
Definition dom_cpu_bit {K V A : Type} (cpu d : Z) (st : sched K V A)
  : option bool :=
  (fun m => bpf_cpumask_test_cpu cpu m) <$> (lb_domains st !! d ≫= lbd_cpumask).


(** The task with pointer [q] has a context, has a working cpumask. *)
Definition has_ctx {K V A : Type} (q : Z) (st : sched K V A) : Prop :=
  is_Some (task_ctxs st !! q).

Definition has_mask {K V A : Type} (q : Z) (st : sched K V A) : Prop :=
  exists m, task_masks st !! q = Some (Some m).

(** A step on behalf of the task [p] that neither gives [p] a context or a
    cpumask nor takes them away, and that leaves the contexts and the masks
    of all the other tasks as they are. *)
Definition task_frame {K V A : Type} (p : task_struct) (st st' : sched K V A)
  : Prop :=
  (has_ctx (tptr p) st' <-> has_ctx (tptr p) st)
  /\ (has_mask (tptr p) st' <-> has_mask (tptr p) st)
  /\ forall q, q <> tptr p ->
       task_ctxs st' !! q = task_ctxs st !! q
       /\ task_masks st' !! q = task_masks st !! q.

(** The nodes that a memory policy names: its home node when it has one,
    otherwise the nodes below [nr_nodes] whose bit is set in the low 32 bits
    of the first word of its node mask. *)
Definition policy_node (cfg : config) (mp : mempolicy) (node : Z) : bool :=
  if 0 <=? s32 (mp_home_node mp) then node =? u32 (mp_home_node mp)
  else
    match mp_nodes mp with
    | None => false
    | Some val =>
      (0 <=? node) && (node <? nr_nodes cfg) && Z.testbit (u32 val) node
    end.

(** Whether [task_set_preferred_mempolicy_dom_mask] looks at the policy. *)
Definition policy_applies (cfg : config) (mp : mempolicy) : bool :=
  mempolicy_affinity cfg
  && flag_set (mp_mode mp) (Z.lor (Z.lor MPOL_BIND MPOL_PREFERRED) MPOL_PREFERRED_MANY).

(** The queues from which a task was moved to the local queue. *)
Fixpoint moved_from (evs : list event) : list Z :=
  match evs with
  | [] => []
  | ev_dsq_move_to_local dsq true :: evs => dsq :: moved_from evs
  | _ :: evs => moved_from evs
  end.

(** The statistics of [st'] are those of [st] with [idx] counted once more. *)
Definition counted_once {K V A : Type} (idx : stat_idx) (st st' : sched K V A)
  : Prop :=
  forall i, stats st' i = if decide (i = idx) then u64 (stats st i + 1)
                          else stats st i.

(** The idle CPUs that a trace claimed: the CPUs whose idle state a
    test-and-clear found set, and the CPUs that a pick returned. *)
Fixpoint claimed (evs : list event) : list Z :=
  match evs with
  | [] => []
  | ev_test_and_clear_cpu_idle cpu true :: evs => cpu :: claimed evs
  | ev_pick_idle_cpu _ _ ret :: evs =>
    if 0 <=? ret then ret :: claimed evs else claimed evs
  | _ :: evs => claimed evs
  end.

(** A step of the idle-CPU search: it touches no task store and claims no
    idle CPU ([c = None]) or exactly the CPU [c], which is a valid id. *)
Definition search_step {K V A : Type} (c : option Z) (st st' : sched K V A)
  : Prop :=
  task_ctxs st' = task_ctxs st /\ task_masks st' = task_masks st
  /\ (forall cpu, c = Some cpu -> 0 <= cpu)
  /\ exists evs, trace st' = trace st ++ evs
       /\ claimed evs = match c with Some c => [c] | None => [] end.

(** The CPU of a direct dispatch. *)
Definition pick_cpu (r : pick) : option Z :=
  match r with
  | Direct c => Some c
  | _ => None
  end.

(** The outcome [r] of a CPU selection for the task [p] wastes no idle CPU:
    the selection claimed no idle CPU, or it claimed exactly the CPU it
    returns and flagged the task for local dispatch there.  The contexts and
    masks of the other tasks are as before. *)
Definition claims_selected {K V A : Type} (p : task_struct) (st : sched K V A)
    (r : Z * sched K V A) : Prop :=
  task_frame p st r.2
  /\ exists evs,
       trace r.2 = trace st ++ evs
       /\ (claimed evs = []
           \/ (claimed evs = [r.1] /\ 0 <= r.1
               /\ forall taskc', task_ctxs r.2 !! tptr p = Some taskc' ->
                                 dispatch_local taskc' = true)).

(** The same tasks are admitted in the two states: a task has a context, and
    a working cpumask, in the one exactly when it has in the other. *)
Definition same_tasks {K V A : Type} (st st' : sched K V A) : Prop :=
  forall q, (has_ctx q st' <-> has_ctx q st) /\ (has_mask q st' <-> has_mask q st).

(** A step that leaves the domain records of the model (the ids and rings
    of the domain contexts, the masks of the domains), the global tuning
    state and the statistics alone.  The per-domain load data is not part of
    these records: it is the load accounting [acct]. *)
Definition globals_kept {K V A : Type} (st st' : sched K V A) : Prop :=
  dom_ctxs st' = dom_ctxs st /\ lb_domains st' = lb_domains st
  /\ all_cpumask st' = all_cpumask st
  /\ direct_greedy_cpumask st' = direct_greedy_cpumask st
  /\ kick_greedy_cpumask st' = kick_greedy_cpumask st
  /\ slice_ns st' = slice_ns st /\ tune_params_gen st' = tune_params_gen st
  /\ stats st' = stats st.

(** Whether a step of the CPU selection ended in a direct dispatch, and what
    it counted: one statistic once when it did, nothing otherwise. *)
Definition direct_counted {K V A : Type} (direct : bool) (st st' : sched K V A)
  : Prop :=
  if direct then exists idx, counted_once idx st st' else stats st' = stats st.

Definition is_direct (r : pick) : bool :=
  match r with
  | Direct _ => true
  | _ => false
  end.

(** * Properties *)

Section RustyFacts.

Context {K V A : Type}.
Variable kops : kernel_ops K.
Variable eops : engine_ops K V A.
Variable cfg : config.

Local Abbreviation state := (sched K V A).

Lemma intersects_comm (a b : cpumask) :
  bpf_cpumask_intersects a b = bpf_cpumask_intersects b a.
Proof. unfold bpf_cpumask_intersects. by rewrite Z.land_comm. Qed.

(** ** Bits and bounded loops *)

Lemma bit_of_dom (dom d : Z) :
  0 <= dom -> 0 <= d ->
  Z.testbit (u64 (Z.shiftl 1 dom)) d = (dom =? d) && (d <? 64).
Proof.
  intros Hdom Hd. unfold u64. rewrite Z.shiftl_1_l.
  destruct (Z.ltb_spec d 64).
  - rewrite Z.mod_pow2_bits_low by lia.
    rewrite Z.pow2_bits_eqb by lia. by rewrite andb_true_r.
  - rewrite Z.mod_pow2_bits_high by lia. by rewrite andb_false_r.
Qed.

Lemma bpf_iter_num_length (n : Z) :
  0 <= n <= BPF_MAX_LOOPS -> length (bpf_iter_num 0 n) = Z.to_nat n.
Proof.
  intros Hn. unfold bpf_iter_num.
  destruct (Z.leb_spec 0 n); [|lia].
  rewrite Z.sub_0_r. destruct (Z.leb_spec n BPF_MAX_LOOPS); [|lia].
  simpl. by rewrite length_seqZ.
Qed.

Lemma s32_small (n : Z) : 0 <= n < 2 ^ 31 -> s32 n = n.
Proof. intros Hn. unfold s32. rewrite Z.mod_small; lia. Qed.

Lemma bpf_repeat_small (n : Z) :
  0 <= n <= BPF_MAX_LOOPS -> bpf_repeat n = Z.to_nat n.
Proof.
  intros Hn. unfold bpf_repeat. unfold BPF_MAX_LOOPS in *.
  rewrite s32_small by lia. apply bpf_iter_num_length. unfold BPF_MAX_LOOPS. lia.
Qed.


(** One iteration of the loop of [refresh_tune_params] leaves the generation
    and the slice that were just stored; so does the loop. *)
Lemma refresh_tune_cpu_gen_slice cpu (st st' : state) :
  refresh_tune_cpu cfg cpu st = Some st' ->
  tune_params_gen st' = tune_params_gen st /\ slice_ns st' = slice_ns st.
Proof.
  unfold refresh_tune_cpu.
  destruct (is_offline_cpu cfg cpu); [by intros [= <-]|].
  destruct (lb_domain_get _ st); [|done].
  by intros [= <-].
Qed.

Lemma refresh_tune_cpus_gen_slice cpus (st : state) :
  tune_params_gen (refresh_tune_cpus cfg cpus st) = tune_params_gen st
  /\ slice_ns (refresh_tune_cpus cfg cpus st) = slice_ns st.
Proof.
  revert st. induction cpus as [|cpu cpus IH]; intros st; simpl; [done|].
  destruct (refresh_tune_cpu cfg cpu st) as [st'|] eqn:Hcpu; [|done].
  destruct (refresh_tune_cpu_gen_slice _ _ _ Hcpu) as [<- <-]. apply IH.
Qed.

(** C9. When the cached generation equals the live one, [refresh_tune_params]
    returns the state it was given: the slice, the global and per-domain
    direct-greedy masks, the kick-greedy mask and the cached generation are
    all unchanged.  When the generations differ, the new generation and the
    slice of the tuning input are stored and the masks are recomputed by the
    loop over the CPUs. *)
Theorem refresh_tune_params_generation (st : state) :
  (tune_params_gen st = ti_gen (tune_input st) ->
   refresh_tune_params cfg st = st)
  /\ (tune_params_gen st <> ti_gen (tune_input st) ->
      tune_params_gen (refresh_tune_params cfg st) = ti_gen (tune_input st)
      /\ slice_ns (refresh_tune_params cfg st) = ti_slice_ns (tune_input st)
      /\ refresh_tune_params cfg st =
         refresh_tune_cpus cfg (bpf_iter_num 0 (s32 (nr_cpu_ids cfg)))
           (set_slice_ns (ti_slice_ns (tune_input st))
              (set_tune_params_gen (ti_gen (tune_input st)) st))).
Proof.
  unfold refresh_tune_params. split; intros Hgen.
  - apply Z.eqb_eq in Hgen. by rewrite Hgen.
  - apply Z.eqb_neq in Hgen. rewrite Hgen.
    split_and!; [| |done].
    + by rewrite (proj1 (refresh_tune_cpus_gen_slice _ _)).
    + by rewrite (proj2 (refresh_tune_cpus_gen_slice _ _)).
Qed.

(** [lookup_task_ctx_mask] changes only the kernel and the trace. *)
Lemma lookup_task_ctx_mask_spec p (st : state) :
  exists st',
    lookup_task_ctx_mask kops p st
    = (task_ctxs st !! tptr p, mjoin (task_masks st !! tptr p), st')
    /\ same_sched st st'
    /\ (is_Some (task_ctxs st !! tptr p) ->
        is_Some (mjoin (task_masks st !! tptr p)) -> st' = st).
Proof.
  unfold lookup_task_ctx_mask, lookup_task_ctx, try_lookup_task_ctx,
    lookup_task_bpfmask.
  destruct (task_ctxs st !! tptr p) as [taskc|] eqn:Hc; simpl;
    destruct (task_masks st !! tptr p) as [[m|]|] eqn:Hm; simpl;
    rewrite ?Hm; simpl; eexists; (split; [reflexivity|]);
    (split; [by repeat split|]); intros [] []; done.
Qed.

(** C1, as the code has it.  A call of [task_set_domain] with a real domain id
    (not [NO_DOM_FOUND]) whose CPU mask does not intersect [p->cpus_ptr]
    changes nothing of the scheduling state: the task contexts (with
    [target_dom] and the cached [domc]), the working cpumasks, the task with
    its vtime, the fairness engine and the load accounting are as before.  It
    returns false when the id differs from [taskc->target_dom], the
    assignment the function reads as the old domain; the domain named by the
    cached pointer [taskc->domc] plays no part in the result. *)
Theorem task_set_domain_disjoint p new_dom_id init_dsq_vtime (st : state) :
  new_dom_id <> NO_DOM_FOUND cfg ->
  cpumask_intersects_domain (cpus_ptr p) new_dom_id st = false ->
  let '(ok, p', st') := task_set_domain kops eops cfg p new_dom_id init_dsq_vtime st in
  ((forall taskc, task_ctxs st !! tptr p = Some taskc ->
                  target_dom taskc <> new_dom_id) -> ok = false)
  /\ p' = p
  /\ task_ctxs st' = task_ctxs st
  /\ task_masks st' = task_masks st
  /\ vt st' = vt st
  /\ acct st' = acct st.
Proof.
  intros Hreal Hdisj. unfold task_set_domain.
  destruct (lookup_task_ctx_mask_spec p st) as (st1 & -> & Hsame & _).
  destruct Hsame as (Hc & Hm & Hd & Hl & Hv & Ha).
  destruct (task_ctxs st !! tptr p) as [taskc|] eqn:Htaskc; [|done].
  destruct (mjoin (task_masks st !! tptr p)) as [t_cpumask|]; [|done].
  unfold lookup_dom_ctx, try_lookup_dom_ctx.
  destruct (dom_ctxs st1 !! target_dom taskc); [|done].
  apply Z.eqb_neq in Hreal. rewrite Hreal.
  destruct (dom_ctxs st1 !! new_dom_id); [|done].
  unfold cpumask_intersects_domain, lb_domain_get in *. rewrite Hl.
  destruct (lb_domains st !! new_dom_id) as [lbd|]; [|done].
  destruct (lbd_cpumask lbd) as [d_cpumask|]; [|done].
  rewrite intersects_comm, Hdisj, Hc, Htaskc.
  split; [|done]. intros Hdiff.
  specialize (Hdiff _ eq_refl). by apply Z.eqb_neq in Hdiff.
Qed.

(** C10. When the requested domain is the one the task is already assigned
    to ([new_dom_id = taskc->target_dom], a registered domain and not
    [NO_DOM_FOUND]), [task_set_domain] returns true whether or not the task's
    affinity intersects the domain: the intersection test guards only the
    update, the result is the comparison of [target_dom] with the requested
    id.  Without intersection the state is returned as it was. *)
Theorem task_set_domain_same_target p new_dom_id init_dsq_vtime (st : state)
    taskc t_cpumask lb_domain d_cpumask :
  task_ctxs st !! tptr p = Some taskc ->
  task_masks st !! tptr p = Some (Some t_cpumask) ->
  new_dom_id = target_dom taskc ->
  new_dom_id <> NO_DOM_FOUND cfg ->
  is_Some (dom_ctxs st !! new_dom_id) ->
  lb_domains st !! new_dom_id = Some lb_domain ->
  lbd_cpumask lb_domain = Some d_cpumask ->
  (task_set_domain kops eops cfg p new_dom_id init_dsq_vtime st).1.1 = true
  /\ (bpf_cpumask_intersects d_cpumask (cpus_ptr p) = false ->
      task_set_domain kops eops cfg p new_dom_id init_dsq_vtime st = (true, p, st)).
Proof.
  intros Htaskc Hmask -> Hreal [d Hdom] Hlbd Hcpumask. unfold task_set_domain.
  destruct (lookup_task_ctx_mask_spec p st) as (st1 & -> & _ & Hst1).
  rewrite Htaskc, Hmask in *. simpl in *.
  rewrite (Hst1 ltac:(done) ltac:(done)). clear Hst1 st1.
  unfold lookup_dom_ctx, try_lookup_dom_ctx, lb_domain_get.
  apply Z.eqb_neq in Hreal. rewrite Hdom, Hreal, Hlbd, Hcpumask.
  destruct (bpf_cpumask_intersects d_cpumask (cpus_ptr p)); simpl.
  - split; [|done]. unfold vtime_commit, taskc_write, task_mask_write. simpl.
    rewrite ?Hdom. simpl. rewrite lookup_insert_eq. simpl. apply Z.eqb_refl.
  - rewrite ?Hdom. simpl. rewrite Htaskc, Z.eqb_refl. done.
Qed.

(** ** Domain selection *)

Lemma taskc_update_lookup p f (st : state) :
  task_ctxs (taskc_update p f st) !! tptr p = f <$> task_ctxs st !! tptr p.
Proof. unfold taskc_update. simpl. apply lookup_alter_eq. Qed.

Lemma cpumask_intersects_domain_ext mask d (st st' : state) :
  lb_domains st' = lb_domains st ->
  cpumask_intersects_domain mask d st' = cpumask_intersects_domain mask d st.
Proof. unfold cpumask_intersects_domain, lb_domain_get. by intros ->. Qed.

Lemma scan_dom_S dom j :
  scan_dom cfg dom (S j) = scan_dom cfg (u32 (dom + 1) mod nr_doms cfg) j.
Proof. unfold scan_dom. by rewrite (Nat.iter_succ_r (S j)). Qed.


(** After the first step the scan walks the domain ids cyclically. *)
Lemma scan_dom_eq dom j :
  0 < nr_doms cfg <= 2 ^ 31 ->
  scan_dom cfg dom j = (u32 (dom + 1) + Z.of_nat j) mod nr_doms cfg.
Proof.
  intros HN. induction j as [|j IH].
  - unfold scan_dom. simpl. by rewrite Z.add_0_r.
  - unfold scan_dom in *. rewrite Nat.iter_succ, IH.
    pose proof (Z.mod_pos_bound (u32 (dom + 1) + Z.of_nat j) (nr_doms cfg)
                  ltac:(lia)) as Hb.
    unfold u32 at 1. rewrite (Z.mod_small (_ + 1) (2 ^ 32)) by lia.
    rewrite Zplus_mod_idemp_l. f_equal. lia.
Qed.

(** [nr_doms] iterations visit every domain. *)
Lemma scan_dom_all dom d :
  0 < nr_doms cfg <= 2 ^ 31 -> 0 <= d < nr_doms cfg ->
  exists j, (j < Z.to_nat (nr_doms cfg))%nat /\ scan_dom cfg dom j = d.
Proof.
  intros HN Hd.
  exists (Z.to_nat ((d - u32 (dom + 1)) mod nr_doms cfg)).
  pose proof (Z.mod_pos_bound (d - u32 (dom + 1)) (nr_doms cfg) ltac:(lia)).
  split; [lia|]. rewrite scan_dom_eq by done.
  rewrite Z2Nat.id by lia. rewrite Zplus_mod_idemp_r.
  replace (u32 (dom + 1) + (d - u32 (dom + 1))) with d by lia.
  apply Z.mod_small. lia.
Qed.

Lemma dom_mask_kept_trans p (st1 st2 st3 : state) :
  dom_mask_kept p st1 st2 -> dom_mask_kept p st2 st3 -> dom_mask_kept p st1 st3.
Proof. intros [? ?] [? ?]. split; congruence. Qed.

Lemma dom_mask_kept_update p f (st : state) :
  (forall t, dom_mask (f t) = dom_mask t) ->
  dom_mask_kept p st (taskc_update p f st).
Proof.
  intros Hf. split; [done|]. unfold dom_mask_of.
  rewrite taskc_update_lookup. destruct (task_ctxs st !! tptr p); simpl; [|done].
  by rewrite Hf.
Qed.

(** [task_set_domain] leaves the task's [dom_mask] and the domains' masks. *)
Lemma task_set_domain_kept p new_dom_id init_dsq_vtime (st : state) :
  tptr (task_set_domain kops eops cfg p new_dom_id init_dsq_vtime st).1.2 = tptr p
  /\ dom_mask_kept p st
       (task_set_domain kops eops cfg p new_dom_id init_dsq_vtime st).2.
Proof.
  unfold task_set_domain.
  destruct (lookup_task_ctx_mask_spec p st) as (st1 & -> & Hsame & _).
  assert (dom_mask_kept p st st1) as H1.
  { destruct Hsame as (Hc & _ & _ & Hl & _). split; [done|].
    unfold dom_mask_of. by rewrite Hc. }
  assert (task_ctxs st1 !! tptr p = task_ctxs st !! tptr p) as Hc1
    by (destruct Hsame as (-> & _); done).
  destruct (task_ctxs st !! tptr p) as [taskc|] eqn:Htaskc; [|done].
  destruct (mjoin (task_masks st !! tptr p)) as [t_cpumask|]; [|done].
  unfold lookup_dom_ctx, try_lookup_dom_ctx.
  destruct (dom_ctxs st1 !! target_dom taskc); [|done].
  destruct (new_dom_id =? NO_DOM_FOUND cfg); [done|].
  destruct (dom_ctxs st1 !! new_dom_id); [|done].
  destruct (lb_domain_get new_dom_id st1) as [lbd|]; [|done].
  destruct (lbd_cpumask lbd) as [d_cpumask|]; [|done].
  destruct (bpf_cpumask_intersects d_cpumask (cpus_ptr p)); [|done].
  unfold vtime_commit. simpl. split; [done|].
  destruct H1 as [Hl Hm]. split; [by destruct init_dsq_vtime|].
  unfold dom_mask_of in *. simpl. rewrite lookup_insert_eq. simpl.
  rewrite <-Hm, Hc1. done.
Qed.

Lemma dom_rr_cur_postinc_kept p cpu (st : state) :
  dom_mask_kept p st (dom_rr_cur_postinc cpu st).2.
Proof. done. Qed.

Lemma task_set_preferred_mempolicy_dom_mask_kept p (st : state) :
  dom_mask_kept p st (task_set_preferred_mempolicy_dom_mask kops eops cfg p st).
Proof.
  unfold task_set_preferred_mempolicy_dom_mask.
  set (st0 := taskc_update p (set_preferred_dom_mask 0) st).
  assert (dom_mask_kept p st st0) as H0 by (by apply dom_mask_kept_update).
  unfold lookup_task_bpfmask.
  assert (forall st1 : state, dom_mask_kept p st st1 ->
            dom_mask_kept p st
              match p_mempolicy p, @None cpumask with
              | Some _, Some _ => st | _, _ => st1 end) as Hnone
    by (intros st1 ?; by destruct (p_mempolicy p)).
  destruct (task_masks st0 !! tptr p) as [[m|]|]; [|by apply Hnone..].
  destruct (p_mempolicy p) as [mp|]; [|done].
  destruct (negb (mempolicy_affinity cfg)); [done|].
  destruct (negb (flag_set _ _)); [done|].
  destruct (0 <=? s32 (mp_home_node mp)).
  { eapply dom_mask_kept_trans; [exact H0|]. by apply dom_mask_kept_update. }
  destruct (mp_nodes mp) as [val|]; [|done].
  generalize (bpf_iter_num 0 (s32 (nr_nodes cfg))). intros nodes.
  revert H0. generalize st0. clear st0.
  induction nodes as [|node nodes IH]; intros st0 H0; simpl; [done|].
  apply IH. destruct (flag_set (u32 val) (int_shl_1 node)); [|done].
  eapply dom_mask_kept_trans; [exact H0|]. by apply dom_mask_kept_update.
Qed.




(** ** The ring of active tasks *)

Lemma active_tasks_idx_bound old :
  0 < MAX_DOM_ACTIVE_TPTRS cfg ->
  0 <= active_tasks_idx cfg old < MAX_DOM_ACTIVE_TPTRS cfg.
Proof. intros HM. unfold active_tasks_idx. by apply Z.mod_pos_bound. Qed.

(** The recording never takes the out-of-bounds exit. *)
Lemma running_record_active_in_bounds p taskc domc_ d (st : state) :
  0 < MAX_DOM_ACTIVE_TPTRS cfg ->
  (running_record_active kops eops cfg p taskc domc_ d st).1 = false.
Proof.
  intros HM. unfold running_record_active.
  destruct (negb _); [|done]. simpl.
  pose proof (active_tasks_idx_bound (write_idx (active_tasks d)) HM).
  destruct (Z.leb_spec (MAX_DOM_ACTIVE_TPTRS cfg)
              (active_tasks_idx cfg (write_idx (active_tasks d)))); [lia|done].
Qed.

Lemma mod_apart (a b m : Z) : 0 < b - a < m -> a mod m <> b mod m.
Proof.
  intros Hd Heq.
  assert ((b - a) mod m = 0) as H0
    by (rewrite Zminus_mod, Heq, Z.sub_diag; apply Z.mod_0_l; lia).
  rewrite Z.mod_small in H0; lia.
Qed.

(** Successive recordings on a ring of [MAX_DOM_ACTIVE_TPTRS] slots, as
    long as the 64-bit cursor does not overflow: the cursor counts them, and
    each of the last [MAX_DOM_ACTIVE_TPTRS] recorded tasks is in the ring, at
    its cursor modulo the capacity; the older ones have been overwritten. *)
Lemma active_tasks_record_wrap (us : list Z) (d : dom_ctx) :
  0 < MAX_DOM_ACTIVE_TPTRS cfg ->
  length (tasks (active_tasks d)) = Z.to_nat (MAX_DOM_ACTIVE_TPTRS cfg) ->
  0 <= write_idx (active_tasks d) ->
  write_idx (active_tasks d) + Z.of_nat (length us) < 2 ^ 64 ->
  let d' := fold_left (fun d u => active_tasks_record cfg u d) us d in
  write_idx (active_tasks d') = write_idx (active_tasks d) + Z.of_nat (length us)
  /\ length (tasks (active_tasks d')) = length (tasks (active_tasks d))
  /\ forall (k : nat) u,
       us !! k = Some u ->
       Z.of_nat (length us) - MAX_DOM_ACTIVE_TPTRS cfg <= Z.of_nat k ->
       tasks (active_tasks d')
         !! Z.to_nat (active_tasks_idx cfg (write_idx (active_tasks d) + Z.of_nat k))
       = Some u.
Proof.
  intros HM Hlen Hw. induction us as [|u us IH] using rev_ind; intros Hover d'.
  - subst d'. simpl. split_and!; [lia|done|by intros k u].
  - subst d'. rewrite length_app in *. simpl in *.
    rewrite fold_left_app. simpl.
    destruct (IH ltac:(lia)) as (Hcur & Hlen' & Hlast).
    set (d1 := fold_left (fun d u => active_tasks_record cfg u d) us d) in *.
    unfold active_tasks_record, write_idx_fetch_add, active_tasks_store. simpl.
    rewrite Hcur. split_and!.
    + unfold u64. rewrite Z.mod_small; lia.
    + by rewrite length_insert.
    + intros k u' Hk Hrecent.
      pose proof (active_tasks_idx_bound
                    (write_idx (active_tasks d) + Z.of_nat (length us)) HM) as Hb.
      destruct (decide (k < length us)%nat) as [Hlt|Hge].
      * rewrite lookup_app_l in Hk by done.
        rewrite list_lookup_insert_ne; [apply Hlast; [done|lia]|].
        intros Heq. apply Z2Nat.inj in Heq;
          [|apply active_tasks_idx_bound; done..].
        apply (mod_apart (write_idx (active_tasks d) + Z.of_nat k)
                 (write_idx (active_tasks d) + Z.of_nat (length us))
                 (MAX_DOM_ACTIVE_TPTRS cfg)); [lia|done].
      * pose proof (lookup_lt_Some _ _ _ Hk) as Hklt.
        rewrite length_app in Hklt. simpl in Hklt.
        assert (k = length us) as -> by lia.
        rewrite lookup_app_r, Nat.sub_diag in Hk by lia.
        injection Hk as ->.
        apply list_lookup_insert_eq. rewrite Hlen', Hlen. lia.
Qed.

(** C5. In [rusty_running] the index written in the ring of active tasks is
    the value returned by the fetch-and-add of the write cursor, modulo the
    capacity [MAX_DOM_ACTIVE_TPTRS]: it is below the capacity and the
    out-of-bounds exit is never taken, for any task and state.  A run-start
    writes when the generation carried by the task differs from the low 32
    bits of the generation of the ring (the [u32] local [dap_gen]); then no
    error is recorded, the task is stored at that index and the cursor
    advances by one.  Successive writes
    wrap around and overwrite the oldest entries: a cursor that is one
    capacity further lands on the same slot, and after any number of
    recordings the ring holds the last [MAX_DOM_ACTIVE_TPTRS] recorded tasks,
    each at its cursor modulo the capacity. *)
Theorem rusty_running_ring_index p (st : state) taskc domc_ d :
  0 < MAX_DOM_ACTIVE_TPTRS cfg ->
  task_ctxs st !! tptr p = Some taskc ->
  domc taskc = Some domc_ ->
  dom_ctxs st !! domc_ = Some d ->
  dom_active_tasks_gen taskc <> u32 (gen (active_tasks d)) ->
  let idx := active_tasks_idx cfg (write_idx (active_tasks d)) in
  let st' := (rusty_running kops eops cfg p st).2 in
  idx = write_idx (active_tasks d) mod MAX_DOM_ACTIVE_TPTRS cfg
  /\ 0 <= idx < MAX_DOM_ACTIVE_TPTRS cfg
  /\ (forall taskc2 (st2 : state),
        (running_record_active kops eops cfg p taskc2 domc_ d st2).1 = false)
  /\ trace st' = trace st
  /\ (exists d',
        dom_ctxs st' !! domc_ = Some d'
        /\ d' = active_tasks_record cfg (sdt_task_data eops p) d
        /\ write_idx (active_tasks d') = u64 (write_idx (active_tasks d) + 1)
        /\ tasks (active_tasks d')
           = <[Z.to_nat idx := sdt_task_data eops p]> (tasks (active_tasks d)))
  /\ (forall old,
        active_tasks_idx cfg (old + MAX_DOM_ACTIVE_TPTRS cfg)
        = active_tasks_idx cfg old)
  /\ (forall (us : list Z) (k : nat) u,
        length (tasks (active_tasks d)) = Z.to_nat (MAX_DOM_ACTIVE_TPTRS cfg) ->
        0 <= write_idx (active_tasks d) ->
        write_idx (active_tasks d) + Z.of_nat (length us) < 2 ^ 64 ->
        us !! k = Some u ->
        Z.of_nat (length us) - MAX_DOM_ACTIVE_TPTRS cfg <= Z.of_nat k ->
        tasks (active_tasks
                 (fold_left (fun d u => active_tasks_record cfg u d) us d))
          !! Z.to_nat (active_tasks_idx cfg
                         (write_idx (active_tasks d) + Z.of_nat k))
        = Some u).
Proof.
  intros HM Htaskc Hdomc Hd Hgen idx st'.
  pose proof (active_tasks_idx_bound (write_idx (active_tasks d)) HM) as Hidx.
  split; [reflexivity|]. split; [exact Hidx|]. split_and!.
  - intros taskc2 st2. by apply running_record_active_in_bounds.
  - subst st'. unfold rusty_running, lookup_task_ctx, try_lookup_task_ctx.
    rewrite Htaskc, Hdomc, Hd. unfold running_record_active.
    apply Z.eqb_neq in Hgen. rewrite Hgen. simpl.
    destruct (Z.leb_spec (MAX_DOM_ACTIVE_TPTRS cfg)
                (active_tasks_idx cfg (write_idx (active_tasks d)))); [lia|].
    destruct (fifo_sched cfg); [done|].
    rewrite taskc_update_lookup. simpl. rewrite Htaskc. done.
  - subst st'. unfold rusty_running, lookup_task_ctx, try_lookup_task_ctx.
    rewrite Htaskc, Hdomc, Hd. unfold running_record_active.
    apply Z.eqb_neq in Hgen. rewrite Hgen. simpl.
    destruct (Z.leb_spec (MAX_DOM_ACTIVE_TPTRS cfg)
                (active_tasks_idx cfg (write_idx (active_tasks d)))); [lia|].
    eexists. split.
    { destruct (fifo_sched cfg); [apply lookup_insert_eq|].
      rewrite taskc_update_lookup. simpl. rewrite Htaskc. simpl.
      apply lookup_insert_eq. }
    split_and!; reflexivity.
  - intros old. unfold active_tasks_idx.
    rewrite <-(Z.mul_1_l (MAX_DOM_ACTIVE_TPTRS cfg)) at 1.
    apply Z.mod_add. lia.
  - intros us k u Hlen Hw Hover Hk Hrecent.
    by apply (active_tasks_record_wrap us d HM Hlen Hw Hover).
Qed.

(** ** rusty_select_cpu *)

(** [refresh_tune_params] touches only the tuning state. *)
Lemma refresh_tune_cpus_frame cpus (st : state) :
  let st' := refresh_tune_cpus cfg cpus st in
  task_ctxs st' = task_ctxs st /\ task_masks st' = task_masks st
  /\ stats st' = stats st /\ kern st' = kern st /\ trace st' = trace st.
Proof.
  revert st. induction cpus as [|cpu cpus IH]; intros st; simpl; [done|].
  unfold refresh_tune_cpu.
  destruct (is_offline_cpu cfg cpu); [apply IH|].
  destruct (lb_domain_get _ st); [|done].
  match goal with
  | |- context [refresh_tune_cpus cfg cpus ?st1] =>
    destruct (IH st1) as (-> & -> & -> & -> & ->)
  end.
  done.
Qed.

Lemma refresh_tune_params_frame (st : state) :
  let st' := refresh_tune_params cfg st in
  task_ctxs st' = task_ctxs st /\ task_masks st' = task_masks st
  /\ stats st' = stats st /\ kern st' = kern st /\ trace st' = trace st.
Proof.
  unfold refresh_tune_params.
  destruct (tune_params_gen st =? ti_gen (tune_input st)); [done|].
  match goal with
  | |- context [refresh_tune_cpus cfg ?cpus ?st1] =>
    destruct (refresh_tune_cpus_frame cpus st1) as (-> & -> & -> & -> & ->)
  end.
  done.
Qed.

(** C6. For a task that has its context and whose affinity allows exactly
    one CPU, [rusty_select_cpu] returns [prev_cpu] at once: no kernel helper
    is called (the trace and the kernel state are as before, so no idle CPU
    was searched or claimed), the task is marked for local dispatch, and one
    counter is bumped: [RUSTY_STAT_DIRECT_DISPATCH] when [kthreads_local] is
    set and the task is a kernel thread, [RUSTY_STAT_PINNED] otherwise. *)
Theorem rusty_select_cpu_pinned p prev_cpu wake_flags (st : state) taskc p_cpumask :
  task_ctxs st !! tptr p = Some taskc ->
  task_masks st !! tptr p = Some (Some p_cpumask) ->
  nr_cpus_allowed p = 1 ->
  let counter :=
    if kthreads_local cfg && flag_set (p_flags p) PF_KTHREAD
    then RUSTY_STAT_DIRECT_DISPATCH else RUSTY_STAT_PINNED in
  let r := rusty_select_cpu kops cfg p prev_cpu wake_flags st in
  r.1 = prev_cpu
  /\ task_ctxs r.2 !! tptr p = Some (set_dispatch_local true taskc)
  /\ trace r.2 = trace st
  /\ kern r.2 = kern st
  /\ forall i, stats r.2 i =
               if decide (i = counter) then u64 (stats st i + 1) else stats st i.
Proof.
  intros Htaskc Hmask Hone counter r. subst r. unfold rusty_select_cpu.
  destruct (refresh_tune_params_frame st) as (Hc & Hm & Hs & Hk & Ht).
  set (st0 := refresh_tune_params cfg st) in *.
  destruct (lookup_task_ctx_mask_spec p st0) as (st1 & -> & _ & Hst1).
  rewrite Hc, Hm, Htaskc, Hmask in *. simpl in Hst1 |- *.
  rewrite (Hst1 ltac:(done) ltac:(done)). clear Hst1 st1.
  rewrite Hone. simpl. subst counter.
  destruct (kthreads_local cfg && flag_set (p_flags p) PF_KTHREAD); simpl;
    rewrite lookup_alter_eq, Hc, Htaskc, Ht, Hk, Hs; done.
Qed.

(** ** rusty_dispatch *)

(** The same-node scan: at most one probe per iteration, each of a domain of
    the current node other than the current domain. *)
Lemma steal_same_node_trace n cpu curr_dom my_node : forall st : state,
  exists evs,
    trace (steal_same_node kops eops cfg n cpu curr_dom my_node st).2
    = trace st ++ evs
    /\ (probes evs <= n)%nat
    /\ Forall (fun dom => dom <> curr_dom /\ dom_node_id eops dom = my_node)
         (probed evs).
Proof.
  induction n as [|n IH]; intros st; simpl.
  - exists []. by rewrite app_nil_r.
  - set (dom := dom_rr_cur (pcpu_ctx_read cpu st) mod nr_doms cfg).
    set (st1 := set_pcpu_ctx _ st).
    destruct (Z.eqb_spec dom curr_dom) as [|Hcurr]; simpl.
    { destruct (IH st1) as (evs & -> & ? & ?). exists evs. split_and!; [done|lia|done]. }
    destruct (Z.eqb_spec (dom_node_id eops dom) my_node) as [Hnode|]; simpl;
      [|destruct (IH st1) as (evs & -> & ? & ?); exists evs;
        split_and!; [done|lia|done]].
    unfold dsq_move_to_local.
    destruct (scx_bpf_dsq_move_to_local kops dom (kern st1)) as [moved k].
    destruct moved.
    + exists [ev_dsq_move_to_local dom true]. simpl.
      split_and!; [done|lia|]. by repeat constructor.
    + match goal with
      | |- context [steal_same_node kops eops cfg n cpu curr_dom my_node ?st2] =>
        destruct (IH st2) as (evs & -> & ? & ?)
      end.
      exists (ev_dsq_move_to_local dom false :: evs). simpl.
      split_and!; [by rewrite <-app_assoc|lia|]. by constructor.
Qed.

(** The cross-node scan: at most one probe per iteration, each of a domain of
    another node, made right after reading the occupancy of its queue and
    only when that occupancy is below [greedy_threshold_x_numa]. *)
Lemma steal_cross_node_trace n cpu curr_dom my_node : forall st : state,
  exists evs,
    trace (steal_cross_node kops eops cfg n cpu curr_dom my_node st).2
    = trace st ++ evs
    /\ (probes evs <= n)%nat
    /\ Forall (fun dom => dom <> curr_dom /\ dom_node_id eops dom <> my_node)
         (probed evs)
    /\ scan_gated (skip_at_or_above cfg) evs = true.
Proof.
  induction n as [|n IH]; intros st; simpl.
  - exists []. by rewrite app_nil_r.
  - set (dom := dom_rr_cur (pcpu_ctx_read cpu st) mod nr_doms cfg).
    set (st1 := set_pcpu_ctx _ st).
    destruct (Z.eqb_spec (dom_node_id eops dom) my_node) as [|Hnode]; simpl.
    { destruct (IH st1) as (evs & -> & ? & ? & ?). exists evs.
      split_and!; [done|lia|done|done]. }
    destruct (Z.eqb_spec dom curr_dom) as [|Hcurr]; simpl.
    { destruct (IH st1) as (evs & -> & ? & ? & ?). exists evs.
      split_and!; [done|lia|done|done]. }
    unfold dsq_nr_queued. simpl.
    set (queued := scx_bpf_dsq_nr_queued kops dom (kern st)).
    destruct (greedy_threshold_x_numa cfg <=? u32 queued) eqn:Hskip.
    + match goal with
      | |- context [steal_cross_node kops eops cfg n cpu curr_dom my_node ?st2] =>
        destruct (IH st2) as (evs & -> & ? & ? & Hgated)
      end.
      exists (ev_dsq_nr_queued dom queued :: evs). simpl.
      split_and!; [by rewrite <-app_assoc|lia|done|].
      unfold skip_at_or_above at 1. rewrite Hskip.
      by destruct evs as [|[] ?].
    + unfold dsq_move_to_local. simpl.
      destruct (scx_bpf_dsq_move_to_local kops dom (kern st)) as [moved k].
      destruct moved.
      * exists [ev_dsq_nr_queued dom queued; ev_dsq_move_to_local dom true].
        simpl. split_and!; [by rewrite <-app_assoc|lia|by repeat constructor|].
        unfold skip_at_or_above. by rewrite Hskip, Z.eqb_refl.
      * match goal with
        | |- context [steal_cross_node kops eops cfg n cpu curr_dom my_node ?st2] =>
          destruct (IH st2) as (evs & -> & ? & ? & Hgated)
        end.
        exists (ev_dsq_nr_queued dom queued :: ev_dsq_move_to_local dom false :: evs).
        simpl. split_and!; [by rewrite <-!app_assoc|lia|by constructor|].
        unfold skip_at_or_above at 1. by rewrite Hskip, Z.eqb_refl.
Qed.


(** The calls of a dispatch, in order: nothing on an offline CPU; otherwise
    the attempt on the local queue, the events [same] of the same-node scan
    and the events [cross] of the cross-node scan. *)
Lemma rusty_dispatch_trace cpu (st : state) :
  let curr_dom := cpu_to_dom_id cfg cpu in
  let my_node := dom_node_id eops curr_dom in
  exists evs,
    trace (rusty_dispatch kops eops cfg cpu st) = trace st ++ evs
    /\ if is_offline_cpu cfg cpu then evs = []
       else exists moved same cross,
         evs = ev_dsq_move_to_local curr_dom moved :: same ++ cross
         /\ (probes same <= bpf_repeat (u32 (nr_doms cfg - 1)))%nat
         /\ (probes cross <= bpf_repeat (u32 (nr_doms cfg - 1)))%nat
         /\ Forall (fun dom => dom <> curr_dom /\ dom_node_id eops dom = my_node)
              (probed same)
         /\ Forall (fun dom => dom <> curr_dom /\ dom_node_id eops dom <> my_node)
              (probed cross)
         /\ scan_gated (skip_at_or_above cfg) cross = true
         /\ (same <> [] -> moved = false /\ greedy_threshold cfg <> 0)
         /\ (cross <> [] ->
             moved = false /\ greedy_threshold cfg <> 0
             /\ greedy_threshold_x_numa cfg <> 0 /\ nr_nodes cfg <> 1).
Proof.
  intros curr_dom my_node. unfold rusty_dispatch.
  destruct (is_offline_cpu cfg cpu); [exists []; by rewrite app_nil_r|].
  fold curr_dom. unfold dsq_move_to_local.
  destruct (scx_bpf_dsq_move_to_local kops curr_dom (kern st)) as [moved k].
  assert (forall moved', exists moved same cross,
            [ev_dsq_move_to_local curr_dom moved']
            = ev_dsq_move_to_local curr_dom moved :: same ++ cross
            /\ (probes same <= bpf_repeat (u32 (nr_doms cfg - 1)))%nat
            /\ (probes cross <= bpf_repeat (u32 (nr_doms cfg - 1)))%nat
            /\ Forall (fun dom => dom <> curr_dom
                                  /\ dom_node_id eops dom = my_node) (probed same)
            /\ Forall (fun dom => dom <> curr_dom
                                  /\ dom_node_id eops dom <> my_node) (probed cross)
            /\ scan_gated (skip_at_or_above cfg) cross = true
            /\ (same <> [] -> moved = false /\ greedy_threshold cfg <> 0)
            /\ (cross <> [] ->
                moved = false /\ greedy_threshold cfg <> 0
                /\ greedy_threshold_x_numa cfg <> 0 /\ nr_nodes cfg <> 1))
    as Hlocal.
  { intros moved'. exists moved', [], []. simpl. split_and!; try done; lia. }
  destruct moved; [eexists; split; [reflexivity|apply Hlocal]|].
  destruct (Z.eqb_spec (greedy_threshold cfg) 0) as [|Hgreedy];
    [eexists; split; [reflexivity|apply Hlocal]|].
  unfold lookup_pcpu_ctx.
  destruct ((0 <=? cpu) && (cpu <? MAX_CPUS cfg)).
  2:{ exists [ev_dsq_move_to_local curr_dom false; ev_error]. simpl.
      split; [by rewrite <-app_assoc|].
      exists false, [ev_error], []. simpl. split_and!; try done; lia. }
  fold my_node.
  match goal with
  | |- context [steal_same_node kops eops cfg ?n cpu curr_dom my_node ?st1] =>
    destruct (steal_same_node_trace n cpu curr_dom my_node st1)
      as (same & Hsame & Hn & Hprobed);
    destruct (steal_same_node kops eops cfg n cpu curr_dom my_node st1)
      as [stolen st2]
  end.
  simpl in Hsame.
  assert (exists evs, trace st2 = trace st ++ evs
            /\ evs = ev_dsq_move_to_local curr_dom false :: same ++ []) as Hst2.
  { eexists. split; [|reflexivity]. rewrite Hsame, app_nil_r.
    by rewrite <-app_assoc. }
  destruct stolen.
  { destruct Hst2 as (evs & -> & ->). eexists. split; [reflexivity|].
    exists false, same, []. simpl. split_and!; try done; lia. }
  destruct ((greedy_threshold_x_numa cfg =? 0) || (nr_nodes cfg =? 1)) eqn:Hx.
  { destruct Hst2 as (evs & -> & ->). eexists. split; [reflexivity|].
    exists false, same, []. simpl. split_and!; try done; lia. }
  apply orb_false_iff in Hx. destruct Hx as [Hx Hnodes].
  apply Z.eqb_neq in Hx, Hnodes.
  match goal with
  | |- context [steal_cross_node kops eops cfg ?n cpu curr_dom my_node st2] =>
    destruct (steal_cross_node_trace n cpu curr_dom my_node st2)
      as (cross & -> & Hn' & Hprobed' & Hgated)
  end.
  rewrite Hsame.
  exists (ev_dsq_move_to_local curr_dom false :: same ++ cross). simpl.
  split; [by rewrite <-!app_assoc|].
  exists false, same, cross. split_and!; try done.
Qed.

(** C3, as the code has it.  In the cross-node scan of [rusty_dispatch] a
    domain is probed only if it is on another NUMA node, is not the current
    domain, and the occupancy just read from its queue is below
    [greedy_threshold_x_numa]; every domain whose queue occupancy is at or
    above the threshold is skipped.  This holds of the scan loop for any
    number of iterations, and of a whole dispatch: its trace is made of calls
    [pre] that probe only domains of the CPU's node, followed by the gated
    calls [cross], which hold every probe of a domain of another node.  The
    occupancy in the trace is the value [scx_bpf_dsq_nr_queued] returned. *)
Theorem cross_node_scan_gate cpu (st : state) :
  (forall n curr_dom my_node,
     exists evs,
       trace (steal_cross_node kops eops cfg n cpu curr_dom my_node st).2
       = trace st ++ evs
       /\ scan_gated (skip_at_or_above cfg) evs = true
       /\ Forall (fun dom => dom <> curr_dom /\ dom_node_id eops dom <> my_node)
            (probed evs))
  /\ exists pre cross,
       trace (rusty_dispatch kops eops cfg cpu st) = trace st ++ pre ++ cross
       /\ Forall (fun dom => dom_node_id eops dom
                             = dom_node_id eops (cpu_to_dom_id cfg cpu))
            (probed pre)
       /\ Forall (fun dom => dom_node_id eops dom
                             <> dom_node_id eops (cpu_to_dom_id cfg cpu))
            (probed cross)
       /\ scan_gated (skip_at_or_above cfg) cross = true.
Proof.
  split.
  - intros n curr_dom my_node.
    destruct (steal_cross_node_trace n cpu curr_dom my_node st)
      as (evs & ? & ? & ? & ?).
    by exists evs.
  - destruct (rusty_dispatch_trace cpu st) as (evs & -> & Hevs).
    destruct (is_offline_cpu cfg cpu).
    { subst evs. exists [], []. by split_and!. }
    destruct Hevs as (moved & same & cross & -> & _ & _ & Hsame & Hcross & Hgated & _).
    exists (ev_dsq_move_to_local (cpu_to_dom_id cfg cpu) moved :: same), cross.
    split_and!; [done| | |done].
    + simpl. constructor; [done|].
      eapply Forall_impl; [exact Hsame|]. by intros dom [_ ?].
    + eapply Forall_impl; [exact Hcross|]. by intros dom [_ ?].
Qed.


(** ** FIFO mode *)

Lemma inserts_app evs1 evs2 : inserts (evs1 ++ evs2) = inserts evs1 ++ inserts evs2.
Proof.
  induction evs1 as [|e evs1 IH]; simpl; [done|]. destruct e; simpl; by rewrite ?IH.
Qed.

Lemma vtime_untouched_trans (st1 st2 st3 : state) :
  vtime_untouched st1 st2 -> vtime_untouched st2 st3 -> vtime_untouched st1 st3.
Proof. intros [? H12] [? H23]. split; [congruence|]. intros key. by rewrite H23. Qed.

Lemma vtime_untouched_update p f (st : state) :
  (forall t, vtime_fields (f t) = vtime_fields t) ->
  vtime_untouched st (taskc_update p f st).
Proof.
  intros Hf. split; [done|]. intros key. unfold taskc_update. simpl.
  destruct (decide (key = tptr p)) as [->|Hne].
  - rewrite lookup_alter_eq. destruct (task_ctxs st !! tptr p); simpl; [|done].
    by rewrite Hf.
  - by rewrite lookup_alter_ne.
Qed.

Lemma vtime_untouched_write p taskc taskc' (st : state) :
  task_ctxs st !! tptr p = Some taskc ->
  vtime_fields taskc' = vtime_fields taskc ->
  vtime_untouched st (taskc_write p taskc' st).
Proof.
  intros Htaskc Hf. split; [done|]. intros key. unfold taskc_write. simpl.
  destruct (decide (key = tptr p)) as [->|Hne].
  - rewrite lookup_insert_eq, Htaskc. simpl. by rewrite Hf.
  - by rewrite lookup_insert_ne.
Qed.

(** In FIFO mode the four accounting hooks leave the virtual times alone. *)
Lemma rusty_stopping_fifo p runnable_ (st : state) :
  fifo_sched cfg = true ->
  rusty_stopping kops eops cfg p runnable_ st = (p, st).
Proof. intros Hfifo. unfold rusty_stopping. by rewrite Hfifo. Qed.

Lemma rusty_running_fifo p (st : state) :
  fifo_sched cfg = true ->
  (rusty_running kops eops cfg p st).1 = p
  /\ vtime_untouched st (rusty_running kops eops cfg p st).2.
Proof.
  intros Hfifo. unfold rusty_running, lookup_task_ctx, try_lookup_task_ctx.
  destruct (task_ctxs st !! tptr p) as [taskc|]; [|done].
  destruct (domc taskc) as [domc_|]; [|done].
  destruct (dom_ctxs st !! domc_) as [d|]; [|done].
  unfold running_record_active.
  destruct (negb _); simpl; [|by rewrite Hfifo].
  destruct (MAX_DOM_ACTIVE_TPTRS cfg <=? _); [done|]. rewrite Hfifo.
  split; [done|]. simpl.
  match goal with
  | |- vtime_untouched st (taskc_update p ?f ?st1) =>
    apply (vtime_untouched_trans st st1); [done|by apply vtime_untouched_update]
  end.
Qed.

Lemma rusty_runnable_fifo p enq_flags (st : state) :
  fifo_sched cfg = true ->
  vtime_untouched st (rusty_runnable kops eops cfg p enq_flags st).
Proof.
  intros Hfifo. unfold rusty_runnable, lookup_task_ctx, try_lookup_task_ctx.
  destruct (task_ctxs st !! tptr p) as [taskc|] eqn:Htaskc; [|done].
  rewrite Hfifo.
  match goal with
  | |- vtime_untouched st (set_acct _ ?st1) =>
    apply (vtime_untouched_trans st st1); [|done]
  end.
  by eapply vtime_untouched_write.
Qed.

Lemma rusty_quiescent_fifo p deq_flags (st : state) :
  fifo_sched cfg = true ->
  vtime_untouched st (rusty_quiescent kops eops cfg p deq_flags st).
Proof.
  intros Hfifo. unfold rusty_quiescent, lookup_task_ctx, try_lookup_task_ctx.
  destruct (task_ctxs st !! tptr p) as [taskc|] eqn:Htaskc; [|done].
  destruct (domc taskc) as [domc_|]; [|done].
  rewrite Hfifo.
  match goal with
  | |- vtime_untouched st (set_acct _ ?st1) =>
    apply (vtime_untouched_trans st st1); [|done]
  end.
  by eapply vtime_untouched_write.
Qed.

Lemma quiet_refl (st : state) : quiet st st.
Proof. split; [done|]. exists []. by rewrite app_nil_r. Qed.

Lemma quiet_trans (st1 st2 st3 : state) :
  quiet st1 st2 -> quiet st2 st3 -> quiet st1 st3.
Proof.
  intros [Hs1 (evs1 & H1 & Hi1)] [Hs2 (evs2 & H2 & Hi2)]. split; [congruence|].
  exists (evs1 ++ evs2). rewrite H2, H1, inserts_app, Hi1, Hi2, <-app_assoc.
  done.
Qed.

Lemma quiet_same (st st' : state) :
  slice_ns st' = slice_ns st -> trace st' = trace st -> quiet st st'.
Proof. intros ? Ht. split; [done|]. exists []. by rewrite app_nil_r. Qed.

Lemma quiet_error (st : state) : quiet st (error kops st).
Proof. split; [done|]. by exists [ev_error]. Qed.

Lemma quiet_kick cpu flags (st : state) : quiet st (kick_cpu kops cpu flags st).
Proof. split; [done|]. by exists [ev_kick_cpu cpu flags]. Qed.

Lemma lookup_task_ctx_mask_quiet p (st : state) :
  quiet st (lookup_task_ctx_mask kops p st).2.
Proof.
  unfold lookup_task_ctx_mask, lookup_task_ctx, try_lookup_task_ctx,
    lookup_task_bpfmask.
  destruct (task_ctxs st !! tptr p); simpl;
    destruct (task_masks st !! tptr p) as [[|]|]; simpl;
    repeat first [apply quiet_refl
                 | eapply quiet_trans; [|apply quiet_error]].
Qed.

(** [task_set_domain] inserts the task nowhere; when it fails, the task
    contexts are as before. *)
Lemma task_set_domain_quiet p new_dom_id init_dsq_vtime (st : state) :
  let r := task_set_domain kops eops cfg p new_dom_id init_dsq_vtime st in
  quiet st r.2
  /\ tptr r.1.2 = tptr p
  /\ (is_Some (task_ctxs st !! tptr p) -> is_Some (task_ctxs r.2 !! tptr p))
  /\ (r.1.1 = false -> task_ctxs r.2 = task_ctxs st).
Proof.
  unfold task_set_domain.
  pose proof (lookup_task_ctx_mask_quiet p st) as Hq.
  destruct (lookup_task_ctx_mask_spec p st) as (st1 & Hlk & Hsame & _).
  rewrite Hlk in *. simpl in Hq. destruct Hsame as (Hc & _).
  destruct (task_ctxs st !! tptr p) as [taskc|] eqn:Htaskc.
  2:{ simpl. split_and!; [|done|by intros []|done].
      eapply quiet_trans; [exact Hq|apply quiet_error]. }
  destruct (mjoin (task_masks st !! tptr p)) as [t_cpumask|].
  2:{ simpl. rewrite Hc, Htaskc. split_and!; [|done|done|done].
      eapply quiet_trans; [exact Hq|apply quiet_error]. }
  unfold lookup_dom_ctx, try_lookup_dom_ctx.
  destruct (dom_ctxs st1 !! target_dom taskc).
  2:{ simpl. rewrite Hc, Htaskc. split_and!; [|done|done|done].
      eapply quiet_trans; [exact Hq|apply quiet_error]. }
  destruct (new_dom_id =? NO_DOM_FOUND cfg).
  { simpl. rewrite Hc, Htaskc. split_and!; [|done|done|done].
    eapply quiet_trans; [exact Hq|by apply quiet_same]. }
  destruct (dom_ctxs st1 !! new_dom_id).
  2:{ simpl. by rewrite Hc, Htaskc. }
  destruct (lb_domain_get new_dom_id st1) as [lbd|].
  2:{ simpl. rewrite Hc, Htaskc. split_and!; [|done|done|done].
      eapply quiet_trans; [exact Hq|apply quiet_error]. }
  destruct (lbd_cpumask lbd) as [d_cpumask|].
  2:{ simpl. rewrite Hc, Htaskc. split_and!; [|done|done|done].
      eapply quiet_trans; [exact Hq|apply quiet_error]. }
  destruct (bpf_cpumask_intersects d_cpumask (cpus_ptr p)).
  2:{ simpl. by rewrite Hc, Htaskc. }
  unfold vtime_commit. simpl. rewrite lookup_insert_eq. simpl.
  rewrite Z.eqb_refl. split_and!; [|done|done|done].
  eapply quiet_trans; [exact Hq|]. apply quiet_same; by destruct init_dsq_vtime.
Qed.

Lemma kick_domestic_quiet p (st : state) :
  quiet st (kick_domestic kops cfg p st).2
  /\ task_ctxs (kick_domestic kops cfg p st).2 = task_ctxs st.
Proof.
  unfold kick_domestic. destruct (task_masks st !! tptr p) as [[m|]|];
    [|split; [apply quiet_refl|done]..].
  unfold any_distribute.
  destruct (bpf_cpumask_any_distribute kops m (kern st)) as [cpu k]. simpl.
  destruct (u32 cpu <? nr_cpu_ids cfg); split; try done.
  - eapply quiet_trans; [|apply quiet_kick]. by apply quiet_same.
  - by apply quiet_same.
Qed.

(** In FIFO mode [dom_queue:] inserts the task, with [scx_bpf_dsq_insert],
    into the queue named by its [target_dom], with the current slice. *)
Lemma enqueue_dom_queue_fifo p enq_flags cpu (st : state) taskc :
  fifo_sched cfg = true ->
  task_ctxs st !! tptr p = Some taskc ->
  let r := enqueue_dom_queue kops eops cfg p enq_flags cpu st in
  task_ctxs r.2 = task_ctxs st
  /\ exists evs,
       trace r.2 = trace st ++ evs
       /\ inserts evs
          = [ev_dsq_insert (tptr p) (target_dom taskc) (slice_ns st) enq_flags].
Proof.
  intros Hfifo Htaskc. unfold enqueue_dom_queue. rewrite Htaskc, Hfifo.
  destruct (all_cpus taskc); [|split; [done|by eexists]].
  destruct (kick_greedy_cpumask _) as [kgm|].
  - unfold any_and_distribute. simpl.
    destruct (bpf_cpumask_any_and_distribute kops kgm _ _) as [cpu' k]. simpl.
    destruct (0 <=? (if nr_cpu_ids cfg <=? u32 cpu' then - EBUSY else cpu'));
      (split; [done|]); simpl.
    + eexists. split; [by rewrite <-app_assoc|done].
    + by eexists.
  - destruct (0 <=? cpu); (split; [done|]); simpl.
    + eexists. split; [by rewrite <-app_assoc|done].
    + by eexists.
Qed.

#[local] Arguments domc_id_read : simpl never.

(** In FIFO mode an enqueue of an admitted task makes exactly one insertion,
    a FIFO one with the current slice: into the local queue when the task was
    flagged for local dispatch and was not just migrated, into the queue named
    by its [target_dom] otherwise. *)
Lemma rusty_enqueue_fifo p enq_flags (st : state) taskc p_cpumask domc_ :
  fifo_sched cfg = true ->
  task_ctxs st !! tptr p = Some taskc ->
  task_masks st !! tptr p = Some (Some p_cpumask) ->
  domc taskc = Some domc_ ->
  let r := rusty_enqueue kops eops cfg p enq_flags st in
  let migrated :=
    negb (domc_id_read (Some domc_) st =? target_dom taskc)
    && (task_set_domain kops eops cfg p (domc_id_read (Some domc_) st) false st).1.1 in
  exists evs dsq taskc',
    trace r.2 = trace st ++ evs
    /\ inserts evs = [ev_dsq_insert (tptr p) dsq (slice_ns st) enq_flags]
    /\ task_ctxs r.2 !! tptr p = Some taskc'
    /\ dsq = if negb migrated && dispatch_local taskc
             then SCX_DSQ_LOCAL else target_dom taskc'.
Proof.
  intros Hfifo Htaskc Hmask Hdomc r migrated. subst r. unfold rusty_enqueue.
  destruct (lookup_task_ctx_mask_spec p st) as (st0 & -> & _ & Hst0).
  rewrite Htaskc, Hmask in *. simpl in Hst0 |- *.
  rewrite (Hst0 ltac:(done) ltac:(done)), Hdomc. clear Hst0 st0.
  set (cur := domc_id_read (Some domc_) st) in *.
  assert (exists ok p1 (st1 : state),
            (if negb (cur =? target_dom taskc)
             then task_set_domain kops eops cfg p cur false st
             else (false, p, st)) = (ok, p1, st1)
            /\ migrated = ok /\ quiet st st1 /\ tptr p1 = tptr p
            /\ is_Some (task_ctxs st1 !! tptr p)
            /\ (ok = false -> task_ctxs st1 = task_ctxs st))
    as (ok & p1 & st1 & -> & Hmig & Hq & Hp1 & Hsome & Hfail).
  { subst migrated. destruct (negb (cur =? target_dom taskc)).
    - destruct (task_set_domain_quiet p cur false st) as (? & ? & Hs & ?).
      destruct (task_set_domain kops eops cfg p cur false st) as [[ok p1] st1].
      exists ok, p1, st1. simpl in *. split_and!; try done. apply Hs. eauto.
    - exists false, p, st. split_and!; try done; try apply quiet_refl; eauto. }
  rewrite Hmig. clear Hmig migrated.
  destruct Hq as [Hslice (evs1 & Ht1 & Hi1)].
  destruct ok.
  - destruct Hsome as [taskc1 Htaskc1].
    set (st2 := taskc_update p1 _ _).
    destruct (kick_domestic_quiet p1 st2) as ([Hs3 (evs3 & Ht3 & Hi3)] & Hc3).
    destruct (kick_domestic kops cfg p1 st2) as [cpu st3]. simpl in *.
    assert (task_ctxs st3 !! tptr p1 = Some (set_dispatch_local false taskc1))
      as Htaskc3.
    { rewrite Hc3. subst st2. unfold taskc_update. simpl.
      by rewrite lookup_alter_eq, Hp1, Htaskc1. }
    destruct (enqueue_dom_queue_fifo p1 enq_flags cpu st3 _ Hfifo Htaskc3)
      as (Hc4 & evs4 & Ht4 & Hi4).
    exists (evs1 ++ evs3 ++ evs4), (target_dom taskc1),
      (set_dispatch_local false taskc1).
    split_and!.
    + rewrite Ht4, Ht3. subst st2. simpl. rewrite Ht1. by rewrite <-!app_assoc.
    + rewrite !inserts_app, Hi1, Hi3, Hi4. simpl. rewrite Hp1, Hs3. subst st2.
      simpl. by rewrite Hslice.
    + by rewrite Hc4, <-Hp1.
    + done.
  - rewrite Hp1, (Hfail eq_refl), Htaskc. simpl.
    destruct (dispatch_local taskc) eqn:Hlocal.
    + exists (evs1 ++ [ev_dsq_insert (tptr p1) SCX_DSQ_LOCAL (slice_ns st1) enq_flags]),
        SCX_DSQ_LOCAL, (set_dispatch_local false taskc).
      simpl. split_and!.
      * by rewrite Ht1, <-app_assoc.
      * by rewrite inserts_app, Hi1, Hp1, Hslice.
      * by rewrite Hp1, lookup_alter_eq, (Hfail eq_refl), Htaskc.
      * done.
    + destruct (match task_masks st1 !! tptr p with
                | Some (Some m) => _ | _ => false end).
      * destruct (kick_domestic_quiet p1 st1) as ([Hs3 (evs3 & Ht3 & Hi3)] & Hc3).
        destruct (kick_domestic kops cfg p1 st1) as [cpu st3]. simpl in *.
        assert (task_ctxs (stat_add RUSTY_STAT_REPATRIATE 1 st3) !! tptr p1
                = Some taskc) as Htaskc3
          by (simpl; by rewrite Hc3, Hp1, (Hfail eq_refl)).
        destruct (enqueue_dom_queue_fifo p1 enq_flags cpu _ _ Hfifo Htaskc3)
          as (Hc4 & evs4 & Ht4 & Hi4).
        exists (evs1 ++ evs3 ++ evs4), (target_dom taskc), taskc.
        split_and!; [| | |done].
        -- rewrite Ht4. simpl. rewrite Ht3, Ht1. by rewrite <-!app_assoc.
        -- rewrite !inserts_app, Hi1, Hi3, Hi4. simpl.
           by rewrite Hp1, Hs3, Hslice.
        -- by rewrite Hc4, <-Hp1.
      * assert (task_ctxs st1 !! tptr p1 = Some taskc) as Htaskc3
          by (by rewrite Hp1, (Hfail eq_refl)).
        destruct (enqueue_dom_queue_fifo p1 enq_flags (-1) _ _ Hfifo Htaskc3)
          as (Hc4 & evs4 & Ht4 & Hi4).
        exists (evs1 ++ evs4), (target_dom taskc), taskc.
        split_and!; [| | |done].
        -- rewrite Ht4, Ht1. by rewrite <-!app_assoc.
        -- rewrite !inserts_app, Hi1, Hi4. simpl. by rewrite Hp1, Hslice.
        -- by rewrite Hc4, <-Hp1.
Qed.

(** An enqueue of an admitted task without a domain ([domc] NULL) returns at
    once: nothing is inserted and the state is as it was. *)
Lemma rusty_enqueue_no_domain p enq_flags (st : state) taskc p_cpumask :
  task_ctxs st !! tptr p = Some taskc ->
  task_masks st !! tptr p = Some (Some p_cpumask) ->
  domc taskc = None ->
  rusty_enqueue kops eops cfg p enq_flags st = (p, st).
Proof.
  intros Htaskc Hmask Hdomc. unfold rusty_enqueue.
  destruct (lookup_task_ctx_mask_spec p st) as (st0 & -> & _ & Hst0).
  rewrite Htaskc, Hmask in *. simpl in Hst0 |- *.
  by rewrite (Hst0 ltac:(done) ltac:(done)), Hdomc.
Qed.

(** C8, as the code has it.  With [fifo_sched] set, an enqueue of an admitted
    task that has a domain ([domc] not NULL) makes one insertion, always with
    [scx_bpf_dsq_insert] (insertion order) and the current slice, never
    through the fairness engine ([place_task_dl]): into the queue named by
    the task's [target_dom], except for a task flagged for local dispatch (and
    not just migrated), which goes to the local queue of the CPU.  An enqueue
    of an admitted task without a domain ([domc] NULL, as [rusty_init_task]
    leaves a task for which no domain was found) inserts the task nowhere and
    changes nothing.  The vtime parts of [rusty_runnable], [rusty_running],
    [rusty_stopping] and [rusty_quiescent] are skipped: the state of the
    fairness engine, the vtime of the task and the vtime fields of every task
    context stay as they were. *)
Theorem fifo_mode_bypasses_vtime :
  fifo_sched cfg = true ->
  (forall p enq_flags (st : state) taskc p_cpumask domc_,
     task_ctxs st !! tptr p = Some taskc ->
     task_masks st !! tptr p = Some (Some p_cpumask) ->
     domc taskc = Some domc_ ->
     let r := rusty_enqueue kops eops cfg p enq_flags st in
     let migrated :=
       negb (domc_id_read (Some domc_) st =? target_dom taskc)
       && (task_set_domain kops eops cfg p (domc_id_read (Some domc_) st)
             false st).1.1 in
     exists evs dsq taskc',
       trace r.2 = trace st ++ evs
       /\ inserts evs = [ev_dsq_insert (tptr p) dsq (slice_ns st) enq_flags]
       /\ task_ctxs r.2 !! tptr p = Some taskc'
       /\ dsq = if negb migrated && dispatch_local taskc
                then SCX_DSQ_LOCAL else target_dom taskc')
  /\ (forall p enq_flags (st : state) taskc p_cpumask,
        task_ctxs st !! tptr p = Some taskc ->
        task_masks st !! tptr p = Some (Some p_cpumask) ->
        domc taskc = None ->
        rusty_enqueue kops eops cfg p enq_flags st = (p, st))
  /\ (forall p enq_flags (st : state),
        vtime_untouched st (rusty_runnable kops eops cfg p enq_flags st))
  /\ (forall p (st : state),
        (rusty_running kops eops cfg p st).1 = p
        /\ vtime_untouched st (rusty_running kops eops cfg p st).2)
  /\ (forall p runnable_ (st : state),
        rusty_stopping kops eops cfg p runnable_ st = (p, st))
  /\ (forall p deq_flags (st : state),
        vtime_untouched st (rusty_quiescent kops eops cfg p deq_flags st)).
Proof.
  intros Hfifo. split_and!.
  - intros. by eapply rusty_enqueue_fifo.
  - intros. by eapply rusty_enqueue_no_domain.
  - intros. by apply rusty_runnable_fifo.
  - intros. by apply rusty_running_fifo.
  - intros. by apply rusty_stopping_fifo.
  - intros. by apply rusty_quiescent_fifo.
Qed.

(** ** Migration on enqueue *)

(** A successful [task_set_domain] leaves [new_dom_id] in [target_dom]. *)
Lemma task_set_domain_success_target p new_dom_id init_dsq_vtime (st : state) :
  new_dom_id <> NO_DOM_FOUND cfg ->
  let r := task_set_domain kops eops cfg p new_dom_id init_dsq_vtime st in
  r.1.1 = true ->
  target_dom <$> task_ctxs r.2 !! tptr p = Some new_dom_id.
Proof.
  intros Hreal. unfold task_set_domain.
  destruct (lookup_task_ctx_mask_spec p st) as (st1 & -> & Hsame & _).
  destruct (task_ctxs st !! tptr p) as [taskc|]; [|done].
  destruct (mjoin (task_masks st !! tptr p)) as [t_cpumask|]; [|done].
  unfold lookup_dom_ctx, try_lookup_dom_ctx.
  destruct (dom_ctxs st1 !! target_dom taskc); [|done].
  apply Z.eqb_neq in Hreal. rewrite Hreal.
  destruct (dom_ctxs st1 !! new_dom_id); [|done].
  destruct (lb_domain_get new_dom_id st1) as [lbd|]; [|done].
  destruct (lbd_cpumask lbd) as [d_cpumask|]; [|done].
  destruct (bpf_cpumask_intersects d_cpumask (cpus_ptr p)).
  - unfold vtime_commit. simpl. by rewrite lookup_insert_eq.
  - simpl. destruct (task_ctxs st1 !! tptr p) as [taskc1|]; [|done].
    simpl. intros Heq. apply Z.eqb_eq in Heq. by rewrite Heq.
Qed.

(** [dom_queue:] does not touch [target_dom]. *)
Lemma enqueue_dom_queue_target p enq_flags cpu (st : state) :
  let r := enqueue_dom_queue kops eops cfg p enq_flags cpu st in
  target_dom <$> task_ctxs r.2 !! tptr p = target_dom <$> task_ctxs st !! tptr p.
Proof.
  unfold enqueue_dom_queue.
  destruct (task_ctxs st !! tptr p) as [taskc|] eqn:Htaskc; simpl;
    [|by rewrite Htaskc].
  destruct (fifo_sched cfg).
  - destruct (all_cpus taskc); simpl; [|by rewrite Htaskc].
    destruct (kick_greedy_cpumask _) as [kgm|].
    + unfold any_and_distribute. simpl.
      destruct (bpf_cpumask_any_and_distribute kops kgm _ _) as [cpu' k].
      destruct (0 <=? _); simpl; by rewrite Htaskc.
    + destruct (0 <=? cpu); simpl; by rewrite Htaskc.
  - destruct (place_task_dl eops p taskc enq_flags (slice_ns st) (vt st) (kern st))
      as [u k].
    unfold vtime_commit. simpl.
    destruct (all_cpus taskc); simpl; [|by rewrite lookup_insert_eq].
    destruct (kick_greedy_cpumask st) as [kgm|].
    + unfold any_and_distribute. simpl.
      destruct (bpf_cpumask_any_and_distribute kops kgm _ _) as [cpu' k'].
      destruct (0 <=? _); simpl; by rewrite lookup_insert_eq.
    + destruct (0 <=? cpu); simpl; by rewrite lookup_insert_eq.
Qed.

(** What the migration of [rusty_enqueue] does, for every state.  When the
    domain the task is in ([domc->id]) differs from the [target_dom] written
    by the balancer and the call of [task_set_domain] made by the enqueue
    succeeds, the task's [target_dom] is afterwards [domc->id]: the request of
    the balancer is overwritten and the task is not moved to the domain it
    named. *)
Lemma rusty_enqueue_migration_target p enq_flags (st : state) taskc p_cpumask domc_ :
  task_ctxs st !! tptr p = Some taskc ->
  task_masks st !! tptr p = Some (Some p_cpumask) ->
  domc taskc = Some domc_ ->
  let cur := domc_id_read (Some domc_) st in
  cur <> target_dom taskc ->
  cur <> NO_DOM_FOUND cfg ->
  (task_set_domain kops eops cfg p cur false st).1.1 = true ->
  target_dom <$> task_ctxs (rusty_enqueue kops eops cfg p enq_flags st).2 !! tptr p
  = Some cur
  /\ Some cur <> Some (target_dom taskc).
Proof.
  intros Htaskc Hmask Hdomc cur Hne Hreal Hok. split; [|congruence].
  unfold rusty_enqueue.
  destruct (lookup_task_ctx_mask_spec p st) as (st0 & -> & _ & Hst0).
  rewrite Htaskc, Hmask in *. simpl in Hst0 |- *.
  rewrite (Hst0 ltac:(done) ltac:(done)), Hdomc. clear Hst0 st0.
  fold cur. apply Z.eqb_neq in Hne. rewrite Hne. simpl.
  pose proof (task_set_domain_success_target p cur false st Hreal Hok) as Htarget.
  destruct (task_set_domain_quiet p cur false st) as (_ & Hp1 & _).
  destruct (task_set_domain kops eops cfg p cur false st) as [[ok p1] st1].
  simpl in *. subst ok.
  set (st2 := taskc_update p1 _ _).
  destruct (kick_domestic_quiet p1 st2) as (_ & Hc3).
  destruct (kick_domestic kops cfg p1 st2) as [cpu st3]. simpl in *.
  rewrite <-Hp1, enqueue_dom_queue_target, Hc3. subst st2.
  unfold taskc_update. simpl. rewrite lookup_alter_eq, Hp1.
  destruct (task_ctxs st1 !! tptr p); [|done]. done.
Qed.

(** * Further properties of the code *)

(** ** refresh_tune_params, again *)

Lemma refresh_tune_cpus_tune_input cpus (st : state) :
  tune_input (refresh_tune_cpus cfg cpus st) = tune_input st.
Proof.
  revert st. induction cpus as [|cpu cpus IH]; intros st; simpl; [done|].
  destruct (refresh_tune_cpu cfg cpu st) as [st'|] eqn:Hcpu; [|done].
  rewrite IH. unfold refresh_tune_cpu in Hcpu.
  destruct (is_offline_cpu cfg cpu); [by injection Hcpu as <-|].
  destruct (lb_domain_get _ st); [|done]. by injection Hcpu as <-.
Qed.

(** X1. [refresh_tune_params] never writes the tuning input and always
    leaves the cached generation equal to the live one, also when its loop
    stops early because a CPU's domain has no [lb_domain]; so a second call
    changes nothing. *)
Theorem refresh_tune_params_twice (st : state) :
  tune_input (refresh_tune_params cfg st) = tune_input st
  /\ tune_params_gen (refresh_tune_params cfg st) = ti_gen (tune_input st)
  /\ refresh_tune_params cfg (refresh_tune_params cfg st)
     = refresh_tune_params cfg st.
Proof.
  assert (tune_input (refresh_tune_params cfg st) = tune_input st
          /\ tune_params_gen (refresh_tune_params cfg st) = ti_gen (tune_input st))
    as [Hin Hgen].
  { unfold refresh_tune_params.
    destruct (Z.eqb_spec (tune_params_gen st) (ti_gen (tune_input st))); [done|].
    rewrite refresh_tune_cpus_tune_input.
    by rewrite (proj1 (refresh_tune_cpus_gen_slice _ _)). }
  split_and!; [done|done|].
  unfold refresh_tune_params at 1. by rewrite Hin, Hgen, Z.eqb_refl.
Qed.

(** ** task_set_domain, the other paths *)

(** A successful move of a task to another domain. *)
Lemma task_set_domain_success p new_dom_id init_dsq_vtime (st : state)
    taskc t_cpumask lb_domain d_cpumask :
  task_ctxs st !! tptr p = Some taskc ->
  task_masks st !! tptr p = Some (Some t_cpumask) ->
  is_Some (dom_ctxs st !! target_dom taskc) ->
  new_dom_id <> NO_DOM_FOUND cfg ->
  is_Some (dom_ctxs st !! new_dom_id) ->
  lb_domains st !! new_dom_id = Some lb_domain ->
  lbd_cpumask lb_domain = Some d_cpumask ->
  bpf_cpumask_intersects d_cpumask (cpus_ptr p) = true ->
  let r := task_set_domain kops eops cfg p new_dom_id init_dsq_vtime st in
  let restart := set_scx_dsq_vtime (dom_min_vruntime eops new_dom_id (vt st)) p in
  let moved := set_domc (Some new_dom_id) (set_target_dom new_dom_id taskc) in
  let u := init_vtime eops restart moved (vt st) in
  r.1.1 = true
  /\ r.1.2 = set_scx_dsq_vtime (vu_dsq_vtime u) p
  /\ task_ctxs r.2 !! tptr p = Some (set_sum_runtime (vu_sum_runtime u) moved)
  /\ task_masks r.2 !! tptr p = Some (Some (Z.land d_cpumask (cpus_ptr p)))
  /\ Z.land d_cpumask (cpus_ptr p) <> 0
  /\ bpf_cpumask_subset (Z.land d_cpumask (cpus_ptr p)) d_cpumask = true
  /\ bpf_cpumask_subset (Z.land d_cpumask (cpus_ptr p)) (cpus_ptr p) = true
  /\ acct r.2 = (if init_dsq_vtime then acct st
                 else dom_xfer_task eops p taskc new_dom_id
                        (scx_bpf_now kops (kern st)) (acct st))
  /\ vt r.2 = vu_vt u
  /\ dom_ctxs r.2 = dom_ctxs st /\ lb_domains r.2 = lb_domains st
  /\ trace r.2 = trace st.
Proof.
  intros Htaskc Hmask [d0 Hold] Hreal [d1 Hnew] Hlbd Hcpumask Hint r restart moved u.
  subst r. unfold task_set_domain.
  destruct (lookup_task_ctx_mask_spec p st) as (st1 & -> & _ & Hst1).
  rewrite Htaskc, Hmask in *. simpl in Hst1 |- *.
  rewrite (Hst1 ltac:(done) ltac:(done)). clear Hst1 st1.
  unfold lookup_dom_ctx, try_lookup_dom_ctx, lb_domain_get.
  apply Z.eqb_neq in Hreal. rewrite Hold, Hreal, Hnew, Hlbd, Hcpumask, Hint.
  unfold vtime_commit, taskc_write, task_mask_write. simpl.
  rewrite !lookup_insert_eq. simpl. rewrite Z.eqb_refl.
  assert (forall a b, Z.ldiff (Z.land a b) a = 0 /\ Z.ldiff (Z.land a b) b = 0)
    as Hsub.
  { intros a b. split; apply Z.bits_inj'; intros n Hn;
      rewrite Z.ldiff_spec, Z.land_spec, Z.bits_0;
      destruct (Z.testbit a n), (Z.testbit b n); done. }
  unfold bpf_cpumask_subset.
  rewrite (proj1 (Hsub d_cpumask (cpus_ptr p))),
    (proj2 (Hsub d_cpumask (cpus_ptr p))).
  split_and!; try done; try (by destruct init_dsq_vtime).
  unfold bpf_cpumask_intersects in Hint. apply negb_true_iff in Hint.
  by apply Z.eqb_neq in Hint.
Qed.

(** X3. A successful migration.  For an admitted task whose old domain is
    registered, a real new domain that is registered, has a CPU mask and
    intersects [p->cpus_ptr]: [task_set_domain] returns true, the task's
    [target_dom] and [domc] are the new domain, its working cpumask is the
    domain mask narrowed by the affinity (not empty, inside both), the load is
    transferred exactly when this is not the initial assignment, and the
    vtime is what [init_vtime] returns for the task restarted at the domain's
    minimum vruntime.  Nothing else of the context changes but
    [sum_runtime], and the domains are untouched. *)
Theorem task_set_domain_migrates p new_dom_id init_dsq_vtime (st : state)
    taskc t_cpumask lb_domain d_cpumask :
  task_ctxs st !! tptr p = Some taskc ->
  task_masks st !! tptr p = Some (Some t_cpumask) ->
  is_Some (dom_ctxs st !! target_dom taskc) ->
  new_dom_id <> NO_DOM_FOUND cfg ->
  is_Some (dom_ctxs st !! new_dom_id) ->
  lb_domains st !! new_dom_id = Some lb_domain ->
  lbd_cpumask lb_domain = Some d_cpumask ->
  bpf_cpumask_intersects d_cpumask (cpus_ptr p) = true ->
  let r := task_set_domain kops eops cfg p new_dom_id init_dsq_vtime st in
  let restart := set_scx_dsq_vtime (dom_min_vruntime eops new_dom_id (vt st)) p in
  let moved := set_domc (Some new_dom_id) (set_target_dom new_dom_id taskc) in
  let u := init_vtime eops restart moved (vt st) in
  r.1.1 = true
  /\ r.1.2 = set_scx_dsq_vtime (vu_dsq_vtime u) p
  /\ task_ctxs r.2 !! tptr p = Some (set_sum_runtime (vu_sum_runtime u) moved)
  /\ task_masks r.2 !! tptr p = Some (Some (Z.land d_cpumask (cpus_ptr p)))
  /\ Z.land d_cpumask (cpus_ptr p) <> 0
  /\ bpf_cpumask_subset (Z.land d_cpumask (cpus_ptr p)) d_cpumask = true
  /\ bpf_cpumask_subset (Z.land d_cpumask (cpus_ptr p)) (cpus_ptr p) = true
  /\ acct r.2 = (if init_dsq_vtime then acct st
                 else dom_xfer_task eops p taskc new_dom_id
                        (scx_bpf_now kops (kern st)) (acct st))
  /\ vt r.2 = vu_vt u
  /\ dom_ctxs r.2 = dom_ctxs st /\ lb_domains r.2 = lb_domains st
  /\ trace r.2 = trace st.
Proof. apply task_set_domain_success. Qed.

(** X4. The teardown call.  With [NO_DOM_FOUND] as the new domain, for an
    admitted task whose old domain is registered, [task_set_domain] empties the
    working cpumask, returns whether the task is not queued
    ([SCX_TASK_QUEUED] clear), and changes nothing else: the context keeps its
    [target_dom] and [domc], and no error is recorded. *)
Theorem task_set_domain_no_dom p init_dsq_vtime (st : state) taskc t_cpumask :
  task_ctxs st !! tptr p = Some taskc ->
  task_masks st !! tptr p = Some (Some t_cpumask) ->
  is_Some (dom_ctxs st !! target_dom taskc) ->
  let r := task_set_domain kops eops cfg p (NO_DOM_FOUND cfg) init_dsq_vtime st in
  r.1.1 = negb (flag_set (scx_flags p) SCX_TASK_QUEUED)
  /\ r.1.2 = p
  /\ r.2 = task_mask_write p 0 st
  /\ task_masks r.2 !! tptr p = Some (Some 0)
  /\ task_ctxs r.2 = task_ctxs st.
Proof.
  intros Htaskc Hmask [d0 Hold] r. subst r. unfold task_set_domain.
  destruct (lookup_task_ctx_mask_spec p st) as (st1 & -> & _ & Hst1).
  rewrite Htaskc, Hmask in *. simpl in Hst1 |- *.
  rewrite (Hst1 ltac:(done) ltac:(done)). clear Hst1 st1.
  unfold lookup_dom_ctx, try_lookup_dom_ctx. rewrite Hold, Z.eqb_refl. simpl.
  by rewrite lookup_insert_eq.
Qed.

(** X5. Lookups that fail.  When the task has no context or no cpumask,
    [task_set_domain] returns false, records an error and leaves the
    scheduling data as they are.  When only the new domain is not registered
    it returns false without recording anything: the state is the one it was
    given. *)
Theorem task_set_domain_not_found p new_dom_id init_dsq_vtime (st : state) :
  (task_ctxs st !! tptr p = None \/ mjoin (task_masks st !! tptr p) = None ->
   let r := task_set_domain kops eops cfg p new_dom_id init_dsq_vtime st in
   r.1 = (false, p) /\ same_sched st r.2
   /\ exists evs, trace r.2 = trace st ++ evs ++ [ev_error])
  /\ (forall taskc t_cpumask,
        task_ctxs st !! tptr p = Some taskc ->
        task_masks st !! tptr p = Some (Some t_cpumask) ->
        is_Some (dom_ctxs st !! target_dom taskc) ->
        new_dom_id <> NO_DOM_FOUND cfg ->
        dom_ctxs st !! new_dom_id = None ->
        task_set_domain kops eops cfg p new_dom_id init_dsq_vtime st
        = (false, p, st)).
Proof.
  split.
  - intros Hnone r. subst r. unfold task_set_domain.
    pose proof (lookup_task_ctx_mask_quiet p st) as Hq.
    destruct (lookup_task_ctx_mask_spec p st) as (st1 & Hlk & Hsame & _).
    rewrite Hlk in *. simpl in Hq. destruct Hq as [_ (evs & Ht & _)].
    assert (same_sched st (error kops st1)) as Hsame'
      by (destruct Hsame as (?&?&?&?&?&?); by repeat split).
    destruct (task_ctxs st !! tptr p) as [taskc|];
      destruct (mjoin (task_masks st !! tptr p)) as [m|];
      try (by destruct Hnone); simpl;
      (split_and!; [done|done|]); exists evs; by rewrite Ht, app_assoc.
  - intros taskc t_cpumask Htaskc Hmask [d0 Hold] Hreal Hnew.
    unfold task_set_domain.
    destruct (lookup_task_ctx_mask_spec p st) as (st1 & -> & _ & Hst1).
    rewrite Htaskc, Hmask in *. simpl in Hst1 |- *.
    rewrite (Hst1 ltac:(done) ltac:(done)). clear Hst1 st1.
    unfold lookup_dom_ctx, try_lookup_dom_ctx.
    apply Z.eqb_neq in Hreal. by rewrite Hold, Hreal, Hnew.
Qed.

(** ** refresh_tune_params: the masks *)

Lemma upd_bit (b : bool) (cpu c : Z) (m : cpumask) :
  0 <= cpu -> 0 <= c ->
  Z.testbit ((if b then bpf_cpumask_set_cpu cpu else bpf_cpumask_clear_cpu cpu) m) c
  = if c =? cpu then b else Z.testbit m c.
Proof.
  intros Hcpu Hc. unfold bpf_cpumask_set_cpu, bpf_cpumask_clear_cpu.
  destruct (Z.leb_spec 0 cpu); [|lia].
  destruct b.
  - rewrite Z.setbit_eqb by done. rewrite (Z.eqb_sym cpu c).
    by destruct (c =? cpu).
  - rewrite Z.clearbit_eqb. rewrite (Z.eqb_sym cpu c).
    destruct (c =? cpu); simpl; [by rewrite andb_false_r|by rewrite andb_true_r].
Qed.

(** The loop over the CPUs [cpus], when no online CPU lacks an [lb_domain]:
    the bit of every online CPU of [cpus] is the bit of the tuning input, the
    other bits stay. *)
Lemma refresh_tune_cpus_masks cpus : forall st : state,
  Forall (fun c => 0 <= c) cpus ->
  (forall c, c ∈ cpus -> is_offline_cpu cfg c = false ->
             is_Some (lb_domains st !! cpu_to_dom_id cfg c)) ->
  (forall m, kick_greedy_cpumask st = Some m ->
     exists m', kick_greedy_cpumask (refresh_tune_cpus cfg cpus st) = Some m'
       /\ forall c, 0 <= c ->
            Z.testbit m' c
            = if bool_decide (c ∈ cpus) && negb (is_offline_cpu cfg c)
              then tune_bit (ti_kick_greedy_cpumask (tune_input st)) c
              else Z.testbit m c)
  /\ (forall m, direct_greedy_cpumask st = Some m ->
        exists m', direct_greedy_cpumask (refresh_tune_cpus cfg cpus st) = Some m'
          /\ forall c, 0 <= c ->
               Z.testbit m' c
               = if bool_decide (c ∈ cpus) && negb (is_offline_cpu cfg c)
                 then tune_bit (ti_direct_greedy_cpumask (tune_input st)) c
                 else Z.testbit m c).
Proof.
  induction cpus as [|cpu cpus IH]; intros st Hpos Hdoms; simpl.
  - split; intros m Hm; exists m; (split; [done|]); by intros c Hc.
  - apply Forall_cons in Hpos as [Hcpu Hpos].
    assert (forall c, bool_decide (c ∈ cpu :: cpus)
                      = (c =? cpu) || bool_decide (c ∈ cpus)) as Hin.
    { intros c. destruct (Z.eqb_spec c cpu) as [->|Hne]; simpl.
      - apply bool_decide_eq_true_2. apply elem_of_cons. by left.
      - apply bool_decide_ext. rewrite elem_of_cons.
        split; [intros [?|?]; [lia|done]|by right]. }
    unfold refresh_tune_cpu.
    destruct (is_offline_cpu cfg cpu) eqn:Hoff.
    { destruct (IH st Hpos) as [Hk Hd].
      { intros c Hc. apply Hdoms. apply elem_of_cons. by right. }
      split; intros m Hm; [destruct (Hk m Hm) as (m' & -> & Hbits)
                          |destruct (Hd m Hm) as (m' & -> & Hbits)];
        exists m'; (split; [done|]); intros c Hc; rewrite (Hbits c Hc), Hin;
        destruct (Z.eqb_spec c cpu) as [->|]; simpl; try done;
        rewrite Hoff; simpl; by rewrite andb_false_r. }
    destruct (Hdoms cpu ltac:(apply elem_of_cons; by left) Hoff) as [lbd Hlbd].
    unfold lb_domain_get. rewrite Hlbd.
    set (updd := if tune_bit (ti_direct_greedy_cpumask (tune_input st)) cpu
                 then bpf_cpumask_set_cpu cpu else bpf_cpumask_clear_cpu cpu).
    match goal with
    | |- context [refresh_tune_cpus cfg cpus ?st1] => set (st1' := st1)
    end.
    set (updk := if tune_bit (ti_kick_greedy_cpumask (tune_input st)) cpu
                 then bpf_cpumask_set_cpu cpu else bpf_cpumask_clear_cpu cpu).
    assert (kick_greedy_cpumask st1' = updk <$> kick_greedy_cpumask st)
      as Hk1 by done.
    assert (direct_greedy_cpumask st1' = updd <$> direct_greedy_cpumask st)
      as Hd1 by done.
    assert (tune_input st1' = tune_input st) as Hin1 by done.
    destruct (IH st1' Hpos) as [Hk Hd].
    { intros c Hc Hon. subst st1'. simpl.
      destruct (decide (cpu_to_dom_id cfg cpu = cpu_to_dom_id cfg c)) as [<-|Hne].
      - rewrite lookup_insert_eq. eauto.
      - rewrite lookup_insert_ne by done.
        apply Hdoms; [apply elem_of_cons; by right|done]. }
    rewrite Hin1 in Hk, Hd.
    split; intros m Hm.
    + destruct (Hk (updk m)) as (m' & Hm' & Hbits); [by rewrite Hk1, Hm|].
      exists m'. split; [done|]. intros c Hc. rewrite (Hbits c Hc), Hin.
      subst updk. rewrite upd_bit by done.
      destruct (Z.eqb_spec c cpu) as [->|]; simpl; [|done].
      rewrite Hoff. simpl. by destruct (bool_decide (cpu ∈ cpus)).
    + destruct (Hd (updd m)) as (m' & Hm' & Hbits); [by rewrite Hd1, Hm|].
      exists m'. split; [done|]. intros c Hc. rewrite (Hbits c Hc), Hin.
      subst updd. rewrite upd_bit by done.
      destruct (Z.eqb_spec c cpu) as [->|]; simpl; [|done].
      rewrite Hoff. simpl. by destruct (bool_decide (cpu ∈ cpus)).
Qed.

(** X2. A refresh that runs.  When the generations differ, [nr_cpu_ids] is
    a valid loop bound and every online CPU below it has the [lb_domain] of
    its domain, [refresh_tune_params] rewrites the global kick-greedy and
    direct-greedy masks (when they are allocated) from the tuning input: the
    bit of every online CPU below [nr_cpu_ids] becomes the bit of that CPU in
    the input, and the bits of the offline CPUs and of the CPUs from
    [nr_cpu_ids] on stay as they were. *)
Theorem refresh_tune_params_masks (st : state) :
  tune_params_gen st <> ti_gen (tune_input st) ->
  0 <= nr_cpu_ids cfg <= BPF_MAX_LOOPS ->
  (forall c, 0 <= c < nr_cpu_ids cfg -> is_offline_cpu cfg c = false ->
             is_Some (lb_domains st !! cpu_to_dom_id cfg c)) ->
  let st' := refresh_tune_params cfg st in
  let fresh c := (c <? nr_cpu_ids cfg) && negb (is_offline_cpu cfg c) in
  (forall m, kick_greedy_cpumask st = Some m ->
     exists m', kick_greedy_cpumask st' = Some m'
       /\ forall c, 0 <= c ->
            Z.testbit m' c
            = if fresh c then tune_bit (ti_kick_greedy_cpumask (tune_input st)) c
              else Z.testbit m c)
  /\ (forall m, direct_greedy_cpumask st = Some m ->
        exists m', direct_greedy_cpumask st' = Some m'
          /\ forall c, 0 <= c ->
               Z.testbit m' c
               = if fresh c
                 then tune_bit (ti_direct_greedy_cpumask (tune_input st)) c
                 else Z.testbit m c).
Proof.
  intros Hgen Hnr Hdoms st' fresh. subst st'. unfold refresh_tune_params.
  apply Z.eqb_neq in Hgen. rewrite Hgen.
  assert (bpf_iter_num 0 (s32 (nr_cpu_ids cfg)) = seqZ 0 (nr_cpu_ids cfg)) as ->.
  { unfold BPF_MAX_LOOPS in Hnr. rewrite s32_small by lia.
    unfold bpf_iter_num, BPF_MAX_LOOPS.
    destruct (Z.leb_spec 0 (nr_cpu_ids cfg)); [|lia].
    destruct (Z.leb_spec (nr_cpu_ids cfg - 0) (8 * 1024 * 1024)); [|lia].
    simpl. by rewrite Z.sub_0_r. }
  match goal with
  | |- context [refresh_tune_cpus cfg ?cpus ?st1] =>
    destruct (refresh_tune_cpus_masks cpus st1) as [Hk Hd]
  end.
  { apply Forall_forall. intros c Hc. apply elem_of_seqZ in Hc. lia. }
  { intros c Hc. apply elem_of_seqZ in Hc. simpl. apply Hdoms. lia. }
  assert (forall c, 0 <= c ->
            bool_decide (c ∈ seqZ 0 (nr_cpu_ids cfg)) = (c <? nr_cpu_ids cfg))
    as Hin.
  { intros c Hc. destruct (Z.ltb_spec c (nr_cpu_ids cfg)).
    - apply bool_decide_eq_true_2. apply elem_of_seqZ. lia.
    - apply bool_decide_eq_false_2. rewrite elem_of_seqZ. lia. }
  simpl in Hk, Hd. subst fresh.
  split; intros m Hm; [destruct (Hk m Hm) as (m' & Hm' & Hbits)
                      |destruct (Hd m Hm) as (m' & Hm' & Hbits)];
    exists m'; (split; [exact Hm'|]); intros c Hc;
    by rewrite (Hbits c Hc), Hin.
Qed.

(** ** The task stores *)

Lemma task_frame_refl p (st : state) : task_frame p st st.
Proof. by repeat split. Qed.

Lemma task_frame_trans p (st1 st2 st3 : state) :
  task_frame p st1 st2 -> task_frame p st2 st3 -> task_frame p st1 st3.
Proof.
  intros (Hc1 & Hm1 & Ho1) (Hc2 & Hm2 & Ho2). split_and!.
  - by rewrite Hc2.
  - by rewrite Hm2.
  - intros q Hq. destruct (Ho1 q Hq) as [<- <-]. by apply Ho2.
Qed.

Lemma task_frame_maps p (st st' : state) :
  task_ctxs st' = task_ctxs st -> task_masks st' = task_masks st ->
  task_frame p st st'.
Proof.
  intros Hc Hm. unfold task_frame, has_ctx, has_mask. rewrite Hc, Hm.
  by repeat split.
Qed.

Lemma task_frame_update p f (st : state) :
  task_frame p st (taskc_update p f st).
Proof.
  unfold task_frame, has_ctx, has_mask, taskc_update. simpl. split_and!.
  - rewrite lookup_alter_eq. by rewrite fmap_is_Some.
  - done.
  - intros q Hq. by rewrite lookup_alter_ne.
Qed.

Lemma task_frame_write p taskc (st : state) :
  has_ctx (tptr p) st -> task_frame p st (taskc_write p taskc st).
Proof.
  intros Hc. unfold task_frame, has_ctx, has_mask, taskc_write. simpl. split_and!.
  - rewrite lookup_insert_eq. split; [done|by eauto].
  - done.
  - intros q Hq. by rewrite lookup_insert_ne.
Qed.

Lemma task_frame_mask_write p m (st : state) :
  has_mask (tptr p) st -> task_frame p st (task_mask_write p m st).
Proof.
  intros Hm. unfold task_frame, has_ctx, has_mask, task_mask_write. simpl.
  split_and!.
  - done.
  - rewrite lookup_insert_eq. split; [done|by eauto].
  - intros q Hq. by rewrite lookup_insert_ne.
Qed.

Lemma task_frame_same p (st st' : state) : same_sched st st' -> task_frame p st st'.
Proof. intros (Hc & Hm & _). by apply task_frame_maps. Qed.

(** [task_set_domain] works on the entries of its task only. *)
Lemma task_set_domain_frame p new_dom_id init_dsq_vtime (st : state) :
  task_frame p st (task_set_domain kops eops cfg p new_dom_id init_dsq_vtime st).2.
Proof.
  unfold task_set_domain.
  destruct (lookup_task_ctx_mask_spec p st) as (st1 & -> & Hsame & _).
  pose proof (task_frame_same p _ _ Hsame) as H1.
  assert (task_ctxs st1 !! tptr p = task_ctxs st !! tptr p) as Hc1
    by (destruct Hsame as (-> & _); done).
  assert (task_masks st1 !! tptr p = task_masks st !! tptr p) as Hm1
    by (destruct Hsame as (_ & -> & _); done).
  destruct (task_ctxs st !! tptr p) as [taskc|] eqn:Htaskc;
    [|eapply task_frame_trans; [exact H1|]; by apply task_frame_maps].
  destruct (task_masks st !! tptr p) as [[t_cpumask|]|] eqn:Hmask; simpl;
    [|eapply task_frame_trans; [exact H1|]; by apply task_frame_maps..].
  assert (has_mask (tptr p) st1) as Hhas by (by exists t_cpumask).
  assert (has_ctx (tptr p) st1) as Hctx by (unfold has_ctx; by rewrite Hc1).
  unfold lookup_dom_ctx, try_lookup_dom_ctx.
  destruct (dom_ctxs st1 !! target_dom taskc);
    [|eapply task_frame_trans; [exact H1|]; by apply task_frame_maps].
  destruct (new_dom_id =? NO_DOM_FOUND cfg).
  { eapply task_frame_trans; [exact H1|]. by apply task_frame_mask_write. }
  destruct (dom_ctxs st1 !! new_dom_id); [|done].
  destruct (lb_domain_get new_dom_id st1) as [lbd|];
    [|eapply task_frame_trans; [exact H1|]; by apply task_frame_maps].
  destruct (lbd_cpumask lbd) as [d_cpumask|];
    [|eapply task_frame_trans; [exact H1|]; by apply task_frame_maps].
  destruct (bpf_cpumask_intersects d_cpumask (cpus_ptr p)); [|done].
  unfold vtime_commit. simpl.
  eapply task_frame_trans; [exact H1|].
  unfold task_frame, has_ctx, has_mask in *. simpl.
  rewrite !lookup_insert_eq. split_and!.
  - split; [done|by eauto].
  - split; [done|by eauto].
  - intros q Hq. rewrite !lookup_insert_ne by done. by destruct init_dsq_vtime.
Qed.

Lemma task_set_preferred_mempolicy_dom_mask_frame p (st : state) :
  task_frame p st (task_set_preferred_mempolicy_dom_mask kops eops cfg p st).
Proof.
  unfold task_set_preferred_mempolicy_dom_mask.
  set (st0 := taskc_update p (set_preferred_dom_mask 0) st).
  assert (task_frame p st st0) as H0 by apply task_frame_update.
  unfold lookup_task_bpfmask.
  assert (forall st1 : state, task_frame p st st1 ->
            task_frame p st
              match p_mempolicy p, @None cpumask with
              | Some _, Some _ => st | _, _ => st1 end) as Hnone
    by (intros st1 ?; by destruct (p_mempolicy p)).
  destruct (task_masks st0 !! tptr p) as [[m|]|];
    [|apply Hnone; (eapply task_frame_trans; [exact H0|]);
      by apply task_frame_maps..].
  destruct (p_mempolicy p) as [mp|]; [|done].
  destruct (negb (mempolicy_affinity cfg)); [done|].
  destruct (negb (flag_set _ _)); [done|].
  destruct (0 <=? s32 (mp_home_node mp)).
  { eapply task_frame_trans; [exact H0|]. apply task_frame_update. }
  destruct (mp_nodes mp) as [val|]; [|done].
  generalize (bpf_iter_num 0 (s32 (nr_nodes cfg))). intros nodes.
  revert H0. generalize st0. clear st0.
  induction nodes as [|node nodes IH]; intros st0 H0; simpl; [done|].
  apply IH. destruct (flag_set (u32 val) (int_shl_1 node)); [|done].
  eapply task_frame_trans; [exact H0|]. apply task_frame_update.
Qed.

Lemma pick_domain_scan_frame p mask n : forall l (st : state),
  task_frame p st (pick_domain_scan cfg n p mask l st).2.
Proof.
  induction n as [|n IH]; intros l st; simpl; [apply task_frame_refl|].
  destruct (cpumask_intersects_domain mask _ st); [|apply IH].
  eapply task_frame_trans; [|apply IH]. apply task_frame_update.
Qed.

Lemma task_pick_domain_frame p mask (st : state) :
  task_frame p st (task_pick_domain kops eops cfg p mask st).2.
Proof.
  unfold task_pick_domain.
  destruct ((_ <? 0) || (MAX_CPUS cfg <=? _)); [apply task_frame_refl|].
  unfold dom_rr_cur_postinc.
  match goal with
  | |- context [pick_domain_scan cfg ?n p mask ?l ?st1] =>
    pose proof (pick_domain_scan_frame p mask n l st1) as Hscan;
    destruct (pick_domain_scan cfg n p mask l st1) as [l' st']
  end.
  simpl in *.
  eapply task_frame_trans; [|exact Hscan].
  eapply task_frame_trans; [|apply task_set_preferred_mempolicy_dom_mask_frame].
  eapply task_frame_trans; [apply task_frame_update|].
  by apply task_frame_maps.
Qed.

Lemma task_pick_and_set_domain_frame p mask init_dsq_vtime (st : state) :
  let r := task_pick_and_set_domain kops eops cfg p mask init_dsq_vtime st in
  tptr r.1 = tptr p /\ task_frame p st r.2.
Proof.
  unfold task_pick_and_set_domain.
  assert (exists dom_id st1,
            (if 1 <? nr_doms cfg then task_pick_domain kops eops cfg p mask st
             else (0, st)) = (dom_id, st1) /\ task_frame p st st1)
    as (dom_id & st1 & -> & H1).
  { destruct (1 <? nr_doms cfg).
    - pose proof (task_pick_domain_frame p mask st) as H.
      destruct (task_pick_domain kops eops cfg p mask st) as [d s]. by exists d, s.
    - exists 0, st. split; [done|apply task_frame_refl]. }
  pose proof (task_set_domain_frame p dom_id init_dsq_vtime st1) as H2.
  destruct (task_set_domain_kept p dom_id init_dsq_vtime st1) as [Hp _].
  destruct (task_set_domain kops eops cfg p dom_id init_dsq_vtime st1)
    as [[ok p'] st2].
  simpl in *. split; [done|].
  eapply task_frame_trans; [exact H1|].
  eapply task_frame_trans; [exact H2|].
  destruct ok; [apply task_frame_refl|by apply task_frame_maps].
Qed.

(** ** task_pick_domain: the domain returned *)

Lemma scan_dom_range dom j :
  0 < nr_doms cfg -> 0 <= scan_dom cfg dom j < nr_doms cfg.
Proof.
  intros HN. unfold scan_dom. rewrite Nat.iter_succ.
  apply Z.mod_pos_bound. lia.
Qed.

(** A first match, once found, is kept. *)
Lemma pick_domain_scan_first_kept p mask n : forall l (st : state),
  pl_first_dom l <> NO_DOM_FOUND cfg ->
  pl_first_dom (pick_domain_scan cfg n p mask l st).1 = pl_first_dom l.
Proof.
  induction n as [|n IH]; intros l st Hl; simpl; [done|].
  apply Z.eqb_neq in Hl as Hl'.
  destruct (cpumask_intersects_domain mask _ st); rewrite IH; simpl;
    by rewrite ?Hl'.
Qed.

(** The first match of the scan is the first visited domain that intersects
    the affinity. *)
Lemma pick_domain_scan_first p mask n : forall l (st : state),
  0 < nr_doms cfg <= NO_DOM_FOUND cfg ->
  pl_first_dom l = NO_DOM_FOUND cfg ->
  let r := pick_domain_scan cfg n p mask l st in
  let hit j := cpumask_intersects_domain mask (scan_dom cfg (pl_dom l) j) st in
  (pl_first_dom r.1 = NO_DOM_FOUND cfg
   /\ forall j, (j < n)%nat -> hit j = false)
  \/ exists j, (j < n)%nat /\ hit j = true
       /\ (forall j', (j' < j)%nat -> hit j' = false)
       /\ pl_first_dom r.1 = scan_dom cfg (pl_dom l) j.
Proof.
  induction n as [|n IH]; intros l st HN Hl; simpl.
  - left. split; [done|]. intros j Hj. lia.
  - set (dom := u32 (pl_dom l + 1) mod nr_doms cfg).
    assert (dom = scan_dom cfg (pl_dom l) 0) as Hdom0 by done.
    pose proof (scan_dom_range (pl_dom l) 0 ltac:(lia)) as Hrange.
    rewrite <- Hdom0 in Hrange.
    destruct (cpumask_intersects_domain mask dom st) eqn:Hint.
    + right. exists 0%nat. split; [lia|]. split; [by rewrite <- Hdom0|].
      split; [intros j' Hj'; lia|].
      rewrite pick_domain_scan_first_kept; simpl; rewrite Hl, Z.eqb_refl;
        [done|lia].
    + match goal with
      | |- context [pick_domain_scan cfg n p mask ?l1 st] =>
        destruct (IH l1 st HN Hl) as [[Hnone Hmiss]|(j & Hj & Hhit & Hmiss & Hfirst)]
      end; simpl in *.
      * left. split; [done|]. intros [|j] Hj; [by rewrite <- Hdom0|].
        rewrite scan_dom_S. apply Hmiss. lia.
      * right. exists (S j). rewrite scan_dom_S. split; [lia|].
        split; [done|]. split; [|done].
        intros [|j'] Hj'; [by rewrite <- Hdom0|].
        rewrite scan_dom_S. apply Hmiss. lia.
Qed.

(** The preferred match of the scan, when there is one, is a visited domain
    that intersects the affinity; there is none when the task has no
    preferred domains. *)
Lemma pick_domain_scan_preferred p mask n : forall l (st : state),
  let r := pick_domain_scan cfg n p mask l st in
  let hit j := cpumask_intersects_domain mask (scan_dom cfg (pl_dom l) j) st in
  (pl_preferred_dom r.1 = pl_preferred_dom l
   \/ exists j, (j < n)%nat /\ hit j = true
        /\ pl_preferred_dom r.1 = scan_dom cfg (pl_dom l) j)
  /\ (default 0 (preferred_dom_mask <$> task_ctxs st !! tptr p) = 0 ->
      pl_preferred_dom r.1 = pl_preferred_dom l).
Proof.
  induction n as [|n IH]; intros l st; simpl; [by split; [left|]|].
  set (dom := u32 (pl_dom l + 1) mod nr_doms cfg).
  assert (dom = scan_dom cfg (pl_dom l) 0) as Hdom0 by done.
  destruct (cpumask_intersects_domain mask dom st) eqn:Hint.
  - assert (forall f : task_ctx -> task_ctx,
              (forall t, preferred_dom_mask (f t) = preferred_dom_mask t) ->
              preferred_dom_mask <$> alter f (tptr p) (task_ctxs st) !! tptr p
              = preferred_dom_mask <$> task_ctxs st !! tptr p) as Hpref.
    { intros f Hf. rewrite lookup_alter_eq.
      destruct (task_ctxs st !! tptr p); simpl; [by rewrite Hf|done]. }
    rewrite !Hpref by done.
    set (st1 := taskc_update p _ st).
    match goal with
    | |- context [pick_domain_scan cfg n p mask ?l1 st1] =>
      destruct (IH l1 st1) as [Hor Hzero]; set (l1' := l1) in *
    end.
    simpl in Hor, Hzero. rewrite Hpref in Hzero by done. split.
    + destruct Hor as [Heq|(j & Hj & Hhit & Heq)].
      * rewrite Heq. subst l1'. simpl.
        destruct (_ =? 0); [by left|].
        destruct (_ && _); [|by left].
        right. exists 0%nat. split; [lia|]. by rewrite <- Hdom0.
      * right. exists (S j). rewrite scan_dom_S. split; [lia|]. by split.
    + intros Hz. rewrite Hzero by done.
      subst l1'. simpl. by rewrite Hz.
  - match goal with
    | |- context [pick_domain_scan cfg n p mask ?l1 st] =>
      destruct (IH l1 st) as [Hor Hzero]
    end.
    simpl in Hor, Hzero. split; [|done].
    destruct Hor as [Heq|(j & Hj & Hhit & Heq)]; [by left|].
    right. exists (S j). rewrite scan_dom_S. split; [lia|]. by split.
Qed.

Lemma task_set_preferred_mempolicy_dom_mask_pcpu p (st : state) :
  pcpu_ctx (task_set_preferred_mempolicy_dom_mask kops eops cfg p st) = pcpu_ctx st.
Proof.
  unfold task_set_preferred_mempolicy_dom_mask.
  set (st0 := taskc_update p (set_preferred_dom_mask 0) st).
  assert (pcpu_ctx st0 = pcpu_ctx st) as H0 by done.
  unfold lookup_task_bpfmask.
  assert (forall st1 : state, pcpu_ctx st1 = pcpu_ctx st ->
            pcpu_ctx match p_mempolicy p, @None cpumask with
                     | Some _, Some _ => st | _, _ => st1 end = pcpu_ctx st)
    as Hnone by (intros st1 ?; by destruct (p_mempolicy p)).
  destruct (task_masks st0 !! tptr p) as [[m|]|]; [|by apply Hnone..].
  destruct (p_mempolicy p) as [mp|]; [|done].
  destruct (negb (mempolicy_affinity cfg)); [done|].
  destruct (negb (flag_set _ _)); [done|].
  destruct (0 <=? s32 (mp_home_node mp)); [done|].
  destruct (mp_nodes mp) as [val|]; [|done].
  generalize (bpf_iter_num 0 (s32 (nr_nodes cfg))). intros nodes.
  revert H0. generalize st0. clear st0.
  induction nodes as [|node nodes IH]; intros st0 H0; simpl; [done|].
  apply IH. by destruct (flag_set (u32 val) (int_shl_1 node)).
Qed.

(** A task without a memory policy has no preferred domains. *)
Lemma task_set_preferred_mempolicy_dom_mask_none p (st : state) :
  p_mempolicy p = None ->
  default 0 (preferred_dom_mask
               <$> task_ctxs (task_set_preferred_mempolicy_dom_mask kops eops cfg p st)
                   !! tptr p) = 0.
Proof.
  intros Hmp. unfold task_set_preferred_mempolicy_dom_mask, lookup_task_bpfmask.
  rewrite Hmp.
  assert (default 0 (preferred_dom_mask
                       <$> task_ctxs (taskc_update p (set_preferred_dom_mask 0) st)
                           !! tptr p) = 0) as H0.
  { rewrite taskc_update_lookup. by destruct (task_ctxs st !! tptr p). }
  by destruct (task_masks _ !! tptr p) as [[m|]|].
Qed.

Lemma pick_domain_scan_pcpu p mask n : forall l (st : state),
  pcpu_ctx (pick_domain_scan cfg n p mask l st).2 = pcpu_ctx st
  /\ lb_domains (pick_domain_scan cfg n p mask l st).2 = lb_domains st.
Proof.
  induction n as [|n IH]; intros l st; simpl; [done|].
  destruct (cpumask_intersects_domain mask _ st); [|apply IH].
  match goal with
  | |- context [pick_domain_scan cfg n p mask ?l1 ?st1] =>
    destruct (IH l1 st1) as [-> ->]
  end.
  done.
Qed.

(** The domain that [task_pick_domain] returns. *)
Lemma task_pick_domain_spec p mask (st : state) :
  0 < nr_doms cfg <= BPF_MAX_LOOPS ->
  nr_doms cfg <= NO_DOM_FOUND cfg ->
  0 <= bpf_get_smp_processor_id kops (kern st) < MAX_CPUS cfg ->
  let cpu := bpf_get_smp_processor_id kops (kern st) in
  let cursor := dom_rr_cur (pcpu_ctx_read cpu st) in
  let r := task_pick_domain kops eops cfg p mask st in
  (r.1 = NO_DOM_FOUND cfg <->
   forall d, 0 <= d < nr_doms cfg -> cpumask_intersects_domain mask d st = false)
  /\ (r.1 <> NO_DOM_FOUND cfg ->
      0 <= r.1 < nr_doms cfg /\ cpumask_intersects_domain mask r.1 st = true)
  /\ (r.1 <> NO_DOM_FOUND cfg -> p_mempolicy p = None ->
      exists j, (j < Z.to_nat (nr_doms cfg))%nat
        /\ r.1 = scan_dom cfg cursor j
        /\ forall j', (j' < j)%nat ->
             cpumask_intersects_domain mask (scan_dom cfg cursor j') st = false)
  /\ dom_rr_cur (pcpu_ctx_read cpu r.2) = u32 (cursor + 1)
  /\ lb_domains r.2 = lb_domains st.
Proof.
  intros HN HNO Hcpu cpu cursor r. subst r. unfold task_pick_domain.
  fold cpu. destruct (Z.ltb_spec cpu 0); [lia|].
  destruct (Z.leb_spec (MAX_CPUS cfg) cpu); [lia|]. simpl.
  set (st0 := taskc_update p (set_dom_mask 0) st).
  set (st1 := task_set_preferred_mempolicy_dom_mask kops eops cfg p _).
  assert (dom_mask_kept p st0 st1) as [Hl1 _].
  { eapply dom_mask_kept_trans; [apply (dom_rr_cur_postinc_kept p cpu)|].
    apply task_set_preferred_mempolicy_dom_mask_kept. }
  assert (pcpu_ctx st1
          = <[cpu := {| dom_rr_cur := u32 (cursor + 1);
                        dom_id := dom_id (pcpu_ctx_read cpu st) |}]> (pcpu_ctx st))
    as Hpcpu.
  { subst st1. by rewrite task_set_preferred_mempolicy_dom_mask_pcpu. }
  assert (forall d, cpumask_intersects_domain mask d st1
                    = cpumask_intersects_domain mask d st) as Hhit.
  { intros d. apply cpumask_intersects_domain_ext. by rewrite Hl1. }
  assert (p_mempolicy p = None ->
          default 0 (preferred_dom_mask <$> task_ctxs st1 !! tptr p) = 0) as Hnone.
  { intros Hmp. subst st1. by apply task_set_preferred_mempolicy_dom_mask_none. }
  change (dom_rr_cur (pcpu_ctx_read cpu st0)) with cursor.
  rewrite bpf_repeat_small by lia.
  set (l0 := {| pl_dom := cursor; pl_first_dom := NO_DOM_FOUND cfg;
                pl_preferred_dom := NO_DOM_FOUND cfg |}).
  pose proof (pick_domain_scan_first p mask (Z.to_nat (nr_doms cfg)) l0 st1
                ltac:(lia) eq_refl) as Hfirst.
  destruct (pick_domain_scan_preferred p mask (Z.to_nat (nr_doms cfg)) l0 st1)
    as [Hpref Hzero].
  destruct (pick_domain_scan_pcpu p mask (Z.to_nat (nr_doms cfg)) l0 st1)
    as [Hpc Hlb].
  destruct (pick_domain_scan cfg (Z.to_nat (nr_doms cfg)) p mask l0 st1)
    as [l' st'].
  simpl in *. unfold BPF_MAX_LOOPS in HN.
  assert (forall d, 0 <= d < nr_doms cfg ->
            exists j, (j < Z.to_nat (nr_doms cfg))%nat /\ scan_dom cfg cursor j = d)
    as Hall by (intros d Hd; apply scan_dom_all; lia).
  (* the result is a visited domain that intersects, or NO_DOM_FOUND *)
  set (res := if negb (pl_preferred_dom l' =? NO_DOM_FOUND cfg)
              then pl_preferred_dom l' else pl_first_dom l').
  assert (res <> NO_DOM_FOUND cfg ->
          exists j, (j < Z.to_nat (nr_doms cfg))%nat
            /\ cpumask_intersects_domain mask (scan_dom cfg cursor j) st = true
            /\ res = scan_dom cfg cursor j) as Hres.
  { subst res. destruct (Z.eqb_spec (pl_preferred_dom l') (NO_DOM_FOUND cfg)) as [He|Hne];
      simpl; intros Hr.
    - destruct Hfirst as [[? _]|(j & Hj & Hhj & _ & Hf)]; [done|].
      exists j. by rewrite <- Hhit.
    - destruct Hpref as [?|(j & Hj & Hhj & Hp)]; [done|].
      exists j. by rewrite <- Hhit. }
  split_and!.
  - split.
    + intros Hr d Hd. destruct (Hall d Hd) as (j & Hj & <-).
      subst res.
      destruct (Z.eqb_spec (pl_preferred_dom l') (NO_DOM_FOUND cfg)) as [He|Hne];
        simpl in Hr; [|done].
      destruct Hfirst as [[_ Hmiss]|(j' & Hj' & _ & _ & Hf)].
      * rewrite <- Hhit. by apply Hmiss.
      * pose proof (scan_dom_range cursor j' ltac:(lia)). lia.
    + intros Hmiss. destruct (decide (res = NO_DOM_FOUND cfg)) as [|Hne]; [done|].
      destruct (Hres Hne) as (j & Hj & Hhj & _).
      rewrite Hmiss in Hhj; [done|]. apply scan_dom_range. lia.
  - intros Hne. destruct (Hres Hne) as (j & Hj & Hhj & ->).
    split; [apply scan_dom_range; lia|done].
  - intros Hne Hmp. subst res. rewrite (Hzero (Hnone Hmp)) in *.
    rewrite Z.eqb_refl in *. simpl in *.
    destruct Hfirst as [[? _]|(j & Hj & Hhj & Hmiss & Hf)]; [done|].
    exists j. split_and!; try done.
    intros j' Hj'. rewrite <- Hhit. by apply Hmiss.
  - unfold pcpu_ctx_read. rewrite Hpc, Hpcpu. by rewrite lookup_insert_eq.
  - by rewrite Hlb, Hl1.
Qed.

(** X9.  [task_pick_domain] on a CPU with a valid id, when the domain ids are
    below [NO_DOM_FOUND]: the result is [NO_DOM_FOUND] exactly when no domain
    intersects the affinity; otherwise it is a domain that does.  For a task
    without a memory policy it is the first such domain after the CPU's
    round-robin cursor.  The cursor is advanced by one and the domains are
    left alone. *)
Theorem task_pick_domain_result p mask (st : state) :
  0 < nr_doms cfg <= BPF_MAX_LOOPS ->
  nr_doms cfg <= NO_DOM_FOUND cfg ->
  0 <= bpf_get_smp_processor_id kops (kern st) < MAX_CPUS cfg ->
  let cpu := bpf_get_smp_processor_id kops (kern st) in
  let cursor := dom_rr_cur (pcpu_ctx_read cpu st) in
  let r := task_pick_domain kops eops cfg p mask st in
  (r.1 = NO_DOM_FOUND cfg <->
   forall d, 0 <= d < nr_doms cfg -> cpumask_intersects_domain mask d st = false)
  /\ (r.1 <> NO_DOM_FOUND cfg ->
      0 <= r.1 < nr_doms cfg /\ cpumask_intersects_domain mask r.1 st = true)
  /\ (r.1 <> NO_DOM_FOUND cfg -> p_mempolicy p = None ->
      exists j, (j < Z.to_nat (nr_doms cfg))%nat
        /\ r.1 = scan_dom cfg cursor j
        /\ forall j', (j' < j)%nat ->
             cpumask_intersects_domain mask (scan_dom cfg cursor j') st = false)
  /\ dom_rr_cur (pcpu_ctx_read cpu r.2) = u32 (cursor + 1)
  /\ lb_domains r.2 = lb_domains st.
Proof. apply task_pick_domain_spec. Qed.

(** ** node_dom_mask and the preferred domains *)

Lemma bpf_iter_num_seqZ (n : Z) :
  0 <= n <= BPF_MAX_LOOPS -> bpf_iter_num 0 (s32 n) = seqZ 0 n.
Proof.
  intros Hn. unfold BPF_MAX_LOOPS in Hn. rewrite s32_small by lia.
  unfold bpf_iter_num, BPF_MAX_LOOPS.
  destruct (Z.leb_spec 0 n); [|lia].
  destruct (Z.leb_spec (n - 0) (8 * 1024 * 1024)); [|lia].
  simpl. by rewrite Z.sub_0_r.
Qed.

Lemma existsb_seqZ_point (h : Z -> bool) (x n : Z) :
  existsb (fun i => h i && (x =? i)) (seqZ 0 n) = (0 <=? x) && (x <? n) && h x.
Proof.
  apply eq_true_iff_eq. rewrite existsb_exists, !andb_true_iff.
  rewrite Z.leb_le, Z.ltb_lt. split.
  - intros (i & Hi & Hh). apply andb_true_iff in Hh as [Hh Hx].
    apply Z.eqb_eq in Hx as ->. apply list_elem_of_In, elem_of_seqZ in Hi.
    split; [lia|done].
  - intros [Hx Hh]. exists x. split.
    + apply list_elem_of_In, elem_of_seqZ. lia.
    + by rewrite Hh, Z.eqb_refl.
Qed.

(** Bit [d] of [node_dom_mask(node_id)], for at most 64 domains: domain [d]
    exists and lies on the node. *)
Lemma node_dom_mask_testbit node_id d :
  0 <= nr_doms cfg <= 64 -> 0 <= d ->
  Z.testbit (node_dom_mask eops cfg node_id) d
  = (d <? nr_doms cfg) && (dom_node_id eops d =? node_id).
Proof.
  intros HN Hd. unfold node_dom_mask.
  rewrite bpf_iter_num_seqZ by (unfold BPF_MAX_LOOPS; lia).
  assert (forall doms acc,
            Forall (fun i => 0 <= i < 64) doms ->
            Z.testbit
              (fold_left
                 (fun mask dom_id =>
                    if dom_node_id eops dom_id =? node_id
                    then Z.lor mask (u64 (Z.shiftl 1 dom_id)) else mask) doms acc) d
            = Z.testbit acc d
              || existsb (fun i => (dom_node_id eops i =? node_id) && (d =? i)) doms)
    as Hfold.
  { induction doms as [|i doms IH]; intros acc Hdoms; simpl;
      [by rewrite orb_false_r|].
    apply Forall_cons in Hdoms as [Hi Hdoms]. rewrite IH by done.
    destruct (dom_node_id eops i =? node_id); simpl; [|done].
    rewrite Z.lor_spec, bit_of_dom by lia. rewrite (Z.eqb_sym i d).
    destruct (Z.eqb_spec d i) as [->|]; simpl; [|by rewrite orb_false_r].
    destruct (Z.ltb_spec i 64); [|lia]. by rewrite <- orb_assoc. }
  rewrite Hfold.
  - rewrite Z.bits_0. simpl. rewrite existsb_seqZ_point.
    destruct (Z.leb_spec 0 d); [|lia]. simpl. done.
  - apply Forall_forall. intros i Hi. apply elem_of_seqZ in Hi. lia.
Qed.

(** The loop over the nodes of the policy: the bits of the domains of the
    nodes named in [val] are added. *)
Lemma preferred_nodes_fold p val d nodes : forall (st : state) taskc,
  0 <= nr_doms cfg <= 64 -> 0 <= d ->
  task_ctxs st !! tptr p = Some taskc ->
  exists taskc',
    task_ctxs
      (fold_left
         (fun st node_id =>
            if flag_set (u32 val) (int_shl_1 node_id) then
              taskc_update p
                (fun t => set_preferred_dom_mask
                            (Z.lor (preferred_dom_mask t)
                               (node_dom_mask eops cfg node_id)) t) st
            else st) nodes st) !! tptr p = Some taskc'
    /\ Z.testbit (preferred_dom_mask taskc') d
       = Z.testbit (preferred_dom_mask taskc) d
         || ((d <? nr_doms cfg)
             && existsb (fun i => flag_set (u32 val) (int_shl_1 i)
                                  && (dom_node_id eops d =? i)) nodes).
Proof.
  induction nodes as [|node nodes IH]; intros st taskc HN Hd Htaskc; simpl.
  - exists taskc. split; [done|]. by rewrite andb_false_r, orb_false_r.
  - destruct (flag_set (u32 val) (int_shl_1 node)) eqn:Hflag; simpl.
    + match goal with
      | |- context [fold_left _ nodes ?st1] =>
        destruct (IH st1 _ HN Hd
                    ltac:(by rewrite taskc_update_lookup, Htaskc))
          as (taskc' & Hc' & Hbit)
      end.
      exists taskc'. split; [done|]. rewrite Hbit. simpl.
      rewrite Z.lor_spec, node_dom_mask_testbit by done.
      destruct (d <? nr_doms cfg); simpl; [|by rewrite !orb_false_r].
      by rewrite orb_assoc.
    + destruct (IH st _ HN Hd Htaskc) as (taskc' & Hc' & Hbit).
      exists taskc'. by split.
Qed.

(** Within the range of the [int] shift, [val & 1 << n] tests bit [n]. *)
Lemma int_shl_1_flag (v n : Z) :
  0 <= n < 32 -> flag_set v (int_shl_1 n) = Z.testbit v n.
Proof.
  intros Hn. unfold flag_set, int_shl_1, u32.
  rewrite (Z.mod_small n 32) by lia. rewrite Z.shiftl_1_l.
  assert (0 < 2 ^ n < 2 ^ 32) as Hpow.
  { split; [apply Z.pow_pos_nonneg; lia|apply Z.pow_lt_mono_r; lia]. }
  rewrite (Z.mod_small (2 ^ n)) by lia.
  assert (Z.land v (2 ^ n) = if Z.testbit v n then 2 ^ n else 0) as ->.
  { apply Z.bits_inj'. intros k Hk. rewrite Z.land_spec, Z.pow2_bits_eqb by lia.
    destruct (Z.eqb_spec n k) as [->|Hne].
    - destruct (Z.testbit v k); simpl;
        [by rewrite Z.pow2_bits_eqb, Z.eqb_refl by lia|by rewrite Z.bits_0].
    - rewrite andb_false_r. destruct (Z.testbit v n);
        [|by rewrite Z.bits_0].
      rewrite Z.pow2_bits_eqb by lia. symmetry. by apply Z.eqb_neq. }
  destruct (Z.testbit v n); simpl; [|done].
  destruct (Z.eqb_spec (2 ^ n) 0); [lia|done].
Qed.

(** X10.  [task_set_preferred_mempolicy_dom_mask] for a task with a context
    and a cpumask, with at most 64 domains and at most 32 nodes (the range of
    the [int] shift that tests a node): bit [d] of the preferred-domain mask
    is set exactly when the task has a memory policy, the mempolicy affinity
    is configured, the mode of the policy has one of the bits of
    [MPOL_BIND | MPOL_PREFERRED | MPOL_PREFERRED_MANY] set, domain [d] exists
    and lies on a node the policy names: its home node when that is not
    negative, otherwise a node below [nr_nodes] whose bit is set in the low 32
    bits of the first word of the policy's node mask. *)
Theorem preferred_dom_mask_bits p (st : state) taskc m :
  0 <= nr_doms cfg <= 64 ->
  0 <= nr_nodes cfg <= 32 ->
  task_ctxs st !! tptr p = Some taskc ->
  task_masks st !! tptr p = Some (Some m) ->
  exists taskc',
    task_ctxs (task_set_preferred_mempolicy_dom_mask kops eops cfg p st) !! tptr p
    = Some taskc'
    /\ forall d, 0 <= d ->
         Z.testbit (preferred_dom_mask taskc') d
         = match p_mempolicy p with
           | None => false
           | Some mp =>
             policy_applies cfg mp && (d <? nr_doms cfg)
             && policy_node cfg mp (dom_node_id eops d)
           end.
Proof.
  intros HN Hnodes Htaskc Hmask.
  unfold task_set_preferred_mempolicy_dom_mask, lookup_task_bpfmask.
  set (st0 := taskc_update p (set_preferred_dom_mask 0) st).
  assert (task_ctxs st0 !! tptr p = Some (set_preferred_dom_mask 0 taskc)) as H0.
  { subst st0. by rewrite taskc_update_lookup, Htaskc. }
  assert (task_masks st0 !! tptr p = Some (Some m)) as -> by done.
  destruct (p_mempolicy p) as [mp|].
  2:{ eexists. split; [exact H0|]. intros d Hd. simpl. apply Z.bits_0. }
  unfold policy_applies, policy_node.
  destruct (mempolicy_affinity cfg); simpl.
  2:{ eexists. split; [exact H0|]. intros d Hd. simpl. apply Z.bits_0. }
  destruct (flag_set (mp_mode mp) _); simpl.
  2:{ eexists. split; [exact H0|]. intros d Hd. simpl. apply Z.bits_0. }
  destruct (0 <=? s32 (mp_home_node mp)).
  { eexists. split; [by rewrite taskc_update_lookup, H0|].
    intros d Hd. simpl. by rewrite node_dom_mask_testbit. }
  destruct (mp_nodes mp) as [val|].
  2:{ eexists. split; [exact H0|]. intros d Hd. simpl.
      rewrite Z.bits_0. by rewrite andb_false_r. }
  rewrite bpf_iter_num_seqZ by (unfold BPF_MAX_LOOPS; lia).
  destruct (preferred_nodes_fold p val 0 (seqZ 0 (nr_nodes cfg)) st0 _ HN
              ltac:(lia) H0) as (taskc' & Hc' & _).
  exists taskc'. split; [done|]. intros d Hd.
  destruct (preferred_nodes_fold p val d (seqZ 0 (nr_nodes cfg)) st0 _ HN Hd H0)
    as (taskc'' & Hc'' & Hbit).
  rewrite Hc' in Hc''. injection Hc'' as <-. rewrite Hbit. simpl.
  rewrite Z.bits_0. simpl. rewrite existsb_seqZ_point.
  destruct (Z.leb_spec 0 (dom_node_id eops d)); simpl; [|done].
  destruct (Z.ltb_spec (dom_node_id eops d) (nr_nodes cfg)); simpl; [|done].
  by rewrite int_shl_1_flag by lia.
Qed.

(** ** rusty_dispatch: one task at most *)

Lemma moved_from_app evs1 evs2 :
  moved_from (evs1 ++ evs2) = moved_from evs1 ++ moved_from evs2.
Proof.
  induction evs1 as [|e evs1 IH]; [done|].
  destruct e as [| | | | |dsq []| |]; simpl; by rewrite ?IH.
Qed.

(** A steal scan ends at its first successful move, which it counts. *)
Lemma steal_same_node_move n cpu curr_dom my_node : forall st : state,
  let r := steal_same_node kops eops cfg n cpu curr_dom my_node st in
  exists evs,
    trace r.2 = trace st ++ evs
    /\ if r.1
       then exists pre dsq,
              evs = pre ++ [ev_dsq_move_to_local dsq true]
              /\ moved_from pre = [] /\ dsq <> curr_dom
              /\ dom_node_id eops dsq = my_node
              /\ counted_once RUSTY_STAT_GREEDY_LOCAL st r.2
       else moved_from evs = [] /\ stats r.2 = stats st.
Proof.
  induction n as [|n IH]; intros st; simpl.
  - exists []. by rewrite app_nil_r.
  - set (dom := dom_rr_cur (pcpu_ctx_read cpu st) mod nr_doms cfg).
    set (st1 := set_pcpu_ctx _ st).
    destruct (Z.eqb_spec dom curr_dom) as [Hcur|Hcur]; simpl; [apply (IH st1)|].
    destruct (Z.eqb_spec (dom_node_id eops dom) my_node) as [Hnode|Hnode];
      simpl; [|apply (IH st1)].
    unfold dsq_move_to_local.
    destruct (scx_bpf_dsq_move_to_local kops dom (kern st1)) as [moved k].
    destruct moved; simpl.
    + exists [ev_dsq_move_to_local dom true]. split; [done|].
      exists [], dom. split_and!; try done.
    + match goal with
      | |- context [steal_same_node kops eops cfg n cpu curr_dom my_node ?st2] =>
        destruct (IH st2) as (evs & Htr & Hres);
        destruct (steal_same_node kops eops cfg n cpu curr_dom my_node st2)
          as [stolen st3]
      end.
      simpl in *. exists (ev_dsq_move_to_local dom false :: evs).
      split; [by rewrite Htr, <- app_assoc|].
      destruct stolen; [|done].
      destruct Hres as (pre & dsq & -> & Hpre & ? & ? & ?).
      exists (ev_dsq_move_to_local dom false :: pre), dsq. by split_and!.
Qed.

Lemma steal_cross_node_move n cpu curr_dom my_node : forall st : state,
  let r := steal_cross_node kops eops cfg n cpu curr_dom my_node st in
  exists evs,
    trace r.2 = trace st ++ evs
    /\ if r.1
       then exists pre dsq,
              evs = pre ++ [ev_dsq_move_to_local dsq true]
              /\ moved_from pre = [] /\ dsq <> curr_dom
              /\ dom_node_id eops dsq <> my_node
              /\ counted_once RUSTY_STAT_GREEDY_XNUMA st r.2
       else moved_from evs = [] /\ stats r.2 = stats st.
Proof.
  induction n as [|n IH]; intros st; simpl.
  - exists []. by rewrite app_nil_r.
  - set (dom := dom_rr_cur (pcpu_ctx_read cpu st) mod nr_doms cfg).
    set (st1 := set_pcpu_ctx _ st).
    destruct (Z.eqb_spec (dom_node_id eops dom) my_node) as [Hnode|Hnode];
      simpl; [apply (IH st1)|].
    destruct (Z.eqb_spec dom curr_dom) as [Hcur|Hcur]; simpl; [apply (IH st1)|].
    set (queued := scx_bpf_dsq_nr_queued kops dom (kern st)).
    destruct (greedy_threshold_x_numa cfg <=? u32 queued).
    { match goal with
      | |- context [steal_cross_node kops eops cfg n cpu curr_dom my_node ?st2] =>
        destruct (IH st2) as (evs & Htr & Hres);
        destruct (steal_cross_node kops eops cfg n cpu curr_dom my_node st2)
          as [stolen st3]
      end.
      simpl in *. exists (ev_dsq_nr_queued dom queued :: evs).
      split; [by rewrite Htr, <- app_assoc|].
      destruct stolen; [|done].
      destruct Hres as (pre & dsq & -> & Hpre & ? & ? & ?).
      exists (ev_dsq_nr_queued dom queued :: pre), dsq. by split_and!. }
    unfold dsq_move_to_local. simpl.
    destruct (scx_bpf_dsq_move_to_local kops dom (kern st)) as [moved k].
    destruct moved; simpl.
    + exists [ev_dsq_nr_queued dom queued; ev_dsq_move_to_local dom true].
      split; [by rewrite <- app_assoc|].
      exists [ev_dsq_nr_queued dom queued], dom. split_and!; try done.
    + match goal with
      | |- context [steal_cross_node kops eops cfg n cpu curr_dom my_node ?st2] =>
        destruct (IH st2) as (evs & Htr & Hres);
        destruct (steal_cross_node kops eops cfg n cpu curr_dom my_node st2)
          as [stolen st3]
      end.
      simpl in *.
      exists (ev_dsq_nr_queued dom queued :: ev_dsq_move_to_local dom false :: evs).
      split; [by rewrite Htr, <- !app_assoc|].
      destruct stolen; [|done].
      destruct Hres as (pre & dsq & -> & Hpre & ? & ? & ?).
      exists (ev_dsq_nr_queued dom queued :: ev_dsq_move_to_local dom false :: pre),
        dsq.
      by split_and!.
Qed.

(** X11.  A dispatch moves at most one task to the local queue.  When it
    moves none, no statistic changes.  When it moves one, the move is the last
    kernel call of the dispatch and exactly one statistic is counted once:
    the dispatch counter for the CPU's own domain, the local-steal counter
    for another domain of the same node, the cross-node-steal counter for a
    domain of another node. *)
Theorem rusty_dispatch_one_task cpu (st : state) :
  let curr_dom := cpu_to_dom_id cfg cpu in
  let my_node := dom_node_id eops curr_dom in
  let st' := rusty_dispatch kops eops cfg cpu st in
  exists evs,
    trace st' = trace st ++ evs
    /\ ((moved_from evs = [] /\ stats st' = stats st)
        \/ exists pre dsq,
             evs = pre ++ [ev_dsq_move_to_local dsq true]
             /\ moved_from pre = []
             /\ counted_once
                  (if dsq =? curr_dom then RUSTY_STAT_DSQ_DISPATCH
                   else if dom_node_id eops dsq =? my_node
                        then RUSTY_STAT_GREEDY_LOCAL
                        else RUSTY_STAT_GREEDY_XNUMA) st st').
Proof.
  intros curr_dom my_node st'. subst st'. unfold rusty_dispatch.
  fold curr_dom. fold my_node.
  destruct (is_offline_cpu cfg cpu).
  { exists []. rewrite app_nil_r. split; [done|by left]. }
  unfold dsq_move_to_local.
  destruct (scx_bpf_dsq_move_to_local kops curr_dom (kern st)) as [moved k].
  destruct moved; simpl.
  { exists [ev_dsq_move_to_local curr_dom true]. split; [done|]. right.
    exists [], curr_dom. rewrite Z.eqb_refl. by split_and!. }
  set (e0 := ev_dsq_move_to_local curr_dom false).
  destruct (greedy_threshold cfg =? 0).
  { exists [e0]. split; [done|by left]. }
  unfold lookup_pcpu_ctx.
  destruct ((0 <=? cpu) && (cpu <? MAX_CPUS cfg)); simpl.
  2:{ exists [e0; ev_error]. split; [by rewrite <- app_assoc|by left]. }
  match goal with
  | |- context [steal_same_node kops eops cfg ?n cpu curr_dom my_node ?st1] =>
    destruct (steal_same_node_move n cpu curr_dom my_node st1)
      as (same & Htr & Hres);
    destruct (steal_same_node kops eops cfg n cpu curr_dom my_node st1)
      as [stolen st2]
  end.
  simpl in *. destruct stolen.
  { destruct Hres as (pre & dsq & -> & Hpre & Hne & Hnode & Hcount).
    exists (e0 :: pre ++ [ev_dsq_move_to_local dsq true]).
    split; [by rewrite Htr, <- app_assoc|]. right.
    exists (e0 :: pre), dsq. split_and!; try done.
    apply Z.eqb_neq in Hne. apply Z.eqb_eq in Hnode. by rewrite Hne, Hnode. }
  destruct Hres as [Hsame Hstats].
  destruct ((greedy_threshold_x_numa cfg =? 0) || (nr_nodes cfg =? 1)).
  { exists (e0 :: same). split; [by rewrite Htr, <- app_assoc|]. by left. }
  match goal with
  | |- context [steal_cross_node kops eops cfg ?n cpu curr_dom my_node st2] =>
    destruct (steal_cross_node_move n cpu curr_dom my_node st2)
      as (cross & Htr2 & Hres2);
    destruct (steal_cross_node kops eops cfg n cpu curr_dom my_node st2)
      as [stolen st3]
  end.
  simpl in *. destruct stolen.
  - destruct Hres2 as (pre & dsq & -> & Hpre & Hne & Hnode & Hcount).
    exists (e0 :: same ++ pre ++ [ev_dsq_move_to_local dsq true]).
    split; [by rewrite Htr2, Htr, <- !app_assoc|]. right.
    exists (e0 :: same ++ pre), dsq. split_and!.
    + simpl. by rewrite <- app_assoc.
    + simpl. by rewrite moved_from_app, Hsame, Hpre.
    + apply Z.eqb_neq in Hne. apply Z.eqb_neq in Hnode. rewrite Hne, Hnode.
      intros i. rewrite (Hcount i). by rewrite Hstats.
  - destruct Hres2 as [Hcross Hstats2].
    exists (e0 :: same ++ cross).
    split; [by rewrite Htr2, Htr, <- !app_assoc|]. left.
    split; [simpl; by rewrite moved_from_app, Hsame, Hcross|].
    by rewrite Hstats2, Hstats.
Qed.

(** ** rusty_enqueue: one insertion *)

(** [dom_queue:] in either mode: one insertion of the task, a FIFO one into
    the queue named by [target_dom] or one ordered by the fairness engine. *)
Lemma enqueue_dom_queue_once p enq_flags cpu (st : state) taskc :
  task_ctxs st !! tptr p = Some taskc ->
  let r := enqueue_dom_queue kops eops cfg p enq_flags cpu st in
  tptr r.1 = tptr p
  /\ (exists taskc', task_ctxs r.2 !! tptr p = Some taskc'
        /\ dispatch_local taskc' = dispatch_local taskc)
  /\ exists evs,
       trace r.2 = trace st ++ evs
       /\ inserts evs
          = [if fifo_sched cfg
             then ev_dsq_insert (tptr p) (target_dom taskc) (slice_ns st) enq_flags
             else ev_place_task_dl (tptr p) enq_flags].
Proof.
  intros Htaskc. unfold enqueue_dom_queue. rewrite Htaskc.
  assert (exists p1 taskc1 (st1 : state),
            (if fifo_sched cfg
             then (p, taskc,
                   dsq_insert kops p (target_dom taskc) (slice_ns st) enq_flags st)
             else
               let '(u, k) := place_task_dl eops p taskc enq_flags (slice_ns st)
                                (vt st) (kern st) in
               vtime_commit p taskc u
                 (emit (ev_place_task_dl (tptr p) enq_flags) (set_kern k st)))
            = (p1, taskc1, st1)
            /\ tptr p1 = tptr p
            /\ task_ctxs st1 !! tptr p = Some taskc1
            /\ dispatch_local taskc1 = dispatch_local taskc
            /\ trace st1
               = trace st
                 ++ [if fifo_sched cfg
                     then ev_dsq_insert (tptr p) (target_dom taskc) (slice_ns st)
                            enq_flags
                     else ev_place_task_dl (tptr p) enq_flags])
    as (p1 & taskc1 & st1 & -> & Hp1 & Hc1 & Hl1 & Ht1).
  { destruct (fifo_sched cfg).
    - eexists _, _, _. split; [reflexivity|]. by split_and!.
    - destruct (place_task_dl eops p taskc enq_flags (slice_ns st) (vt st) (kern st))
        as [u k].
      unfold vtime_commit. eexists _, _, _. split; [reflexivity|].
      simpl. rewrite lookup_insert_eq. by split_and!. }
  set (e := if fifo_sched cfg then _ else _) in *.
  assert (inserts [e] = [e]) as He by (subst e; by destruct (fifo_sched cfg)).
  destruct (all_cpus taskc1).
  2:{ simpl. split_and!; [done|by eauto|]. exists [e]. by split. }
  assert (exists cpu' (st2 : state),
            match kick_greedy_cpumask st1 with
            | Some kgm =>
              let '(cpu, st) :=
                any_and_distribute kops kgm
                  (scx_bpf_get_idle_cpumask kops (kern st1)) st1 in
              (if nr_cpu_ids cfg <=? u32 cpu then - EBUSY else cpu, st)
            | None => (cpu, st1)
            end = (cpu', st2)
            /\ task_ctxs st2 = task_ctxs st1 /\ trace st2 = trace st1)
    as (cpu' & st2 & -> & Hc2 & Ht2).
  { destruct (kick_greedy_cpumask st1) as [kgm|]; [|by eexists _, _].
    unfold any_and_distribute.
    destruct (bpf_cpumask_any_and_distribute kops kgm _ (kern st1)) as [c k].
    by eexists _, _. }
  destruct (0 <=? cpu'); simpl.
  - rewrite Hc2, Ht2, Ht1. split_and!; [done|by eauto|].
    exists ([e] ++ [ev_kick_cpu cpu' SCX_KICK_IDLE]).
    split; [by rewrite <- app_assoc|]. by rewrite inserts_app, He.
  - rewrite Hc2, Ht2, Ht1. split_and!; [done|by eauto|]. exists [e]. by split.
Qed.

(** X12.  An enqueue of an admitted task that has a domain makes exactly one
    insertion, in either mode: of this task, with the flags of the call, and,
    when it is a FIFO insertion, with the current slice.  Afterwards the task
    is no longer flagged for local dispatch. *)
Theorem rusty_enqueue_once p enq_flags (st : state) taskc p_cpumask domc_ :
  task_ctxs st !! tptr p = Some taskc ->
  task_masks st !! tptr p = Some (Some p_cpumask) ->
  domc taskc = Some domc_ ->
  let r := rusty_enqueue kops eops cfg p enq_flags st in
  tptr r.1 = tptr p
  /\ exists evs e taskc',
       trace r.2 = trace st ++ evs
       /\ inserts evs = [e]
       /\ (e = ev_place_task_dl (tptr p) enq_flags /\ fifo_sched cfg = false
           \/ exists dsq, e = ev_dsq_insert (tptr p) dsq (slice_ns st) enq_flags)
       /\ task_ctxs r.2 !! tptr p = Some taskc'
       /\ dispatch_local taskc' = false.
Proof.
  intros Htaskc Hmask Hdomc r. subst r. unfold rusty_enqueue.
  destruct (lookup_task_ctx_mask_spec p st) as (st0 & -> & _ & Hst0).
  rewrite Htaskc, Hmask in *. simpl in Hst0 |- *.
  rewrite (Hst0 ltac:(done) ltac:(done)), Hdomc. clear Hst0 st0.
  set (cur := domc_id_read (Some domc_) st) in *.
  assert (forall dsq,
            (if fifo_sched cfg
             then ev_dsq_insert (tptr p) dsq (slice_ns st) enq_flags
             else ev_place_task_dl (tptr p) enq_flags)
            = ev_place_task_dl (tptr p) enq_flags /\ fifo_sched cfg = false
            \/ exists dsq',
                 (if fifo_sched cfg
                  then ev_dsq_insert (tptr p) dsq (slice_ns st) enq_flags
                  else ev_place_task_dl (tptr p) enq_flags)
                 = ev_dsq_insert (tptr p) dsq' (slice_ns st) enq_flags) as Hkind.
  { intros dsq. destruct (fifo_sched cfg); [right; by eexists|by left]. }
  assert (exists ok p1 (st1 : state),
            (if negb (cur =? target_dom taskc)
             then task_set_domain kops eops cfg p cur false st
             else (false, p, st)) = (ok, p1, st1)
            /\ quiet st st1 /\ tptr p1 = tptr p
            /\ is_Some (task_ctxs st1 !! tptr p)
            /\ (ok = false -> task_ctxs st1 = task_ctxs st))
    as (ok & p1 & st1 & -> & Hq & Hp1 & Hsome & Hfail).
  { destruct (negb (cur =? target_dom taskc)).
    - destruct (task_set_domain_quiet p cur false st) as (? & ? & Hs & ?).
      destruct (task_set_domain kops eops cfg p cur false st) as [[ok p1] st1].
      exists ok, p1, st1. simpl in *. split_and!; try done. apply Hs. eauto.
    - exists false, p, st. split_and!; try done; try apply quiet_refl; eauto. }
  destruct Hq as [Hslice (evs1 & Ht1 & Hi1)].
  destruct ok.
  - destruct Hsome as [taskc1 Htaskc1].
    set (st2 := taskc_update p1 _ _).
    destruct (kick_domestic_quiet p1 st2) as ([Hs3 (evs3 & Ht3 & Hi3)] & Hc3).
    destruct (kick_domestic kops cfg p1 st2) as [cpu st3]. simpl in *.
    assert (task_ctxs st3 !! tptr p1 = Some (set_dispatch_local false taskc1))
      as Htaskc3.
    { rewrite Hc3. subst st2. unfold taskc_update. simpl.
      by rewrite lookup_alter_eq, Hp1, Htaskc1. }
    destruct (enqueue_dom_queue_once p1 enq_flags cpu st3 _ Htaskc3)
      as (Hp4 & (taskc4 & Hc4 & Hl4) & evs4 & Ht4 & Hi4).
    split; [by rewrite Hp4|].
    exists (evs1 ++ evs3 ++ evs4). eexists. exists taskc4.
    split_and!.
    + rewrite Ht4, Ht3. subst st2. simpl. rewrite Ht1. by rewrite <-!app_assoc.
    + rewrite !inserts_app, Hi1, Hi3, Hi4. simpl. reflexivity.
    + rewrite Hp1, Hs3. subst st2. simpl. rewrite Hslice. apply Hkind.
    + by rewrite <- Hp1.
    + by rewrite Hl4.
  - rewrite Hp1, (Hfail eq_refl), Htaskc. simpl.
    destruct (dispatch_local taskc) eqn:Hlocal.
    + simpl. split; [done|].
      exists (evs1 ++ [ev_dsq_insert (tptr p1) SCX_DSQ_LOCAL (slice_ns st1) enq_flags]).
      eexists. exists (set_dispatch_local false taskc).
      split_and!.
      * by rewrite Ht1, <-app_assoc.
      * rewrite inserts_app, Hi1. simpl. reflexivity.
      * right. exists SCX_DSQ_LOCAL. by rewrite Hp1, Hslice.
      * by rewrite Hp1, lookup_alter_eq, (Hfail eq_refl), Htaskc.
      * done.
    + destruct (match task_masks st1 !! tptr p with
                | Some (Some m) => _ | _ => false end).
      * destruct (kick_domestic_quiet p1 st1) as ([Hs3 (evs3 & Ht3 & Hi3)] & Hc3).
        destruct (kick_domestic kops cfg p1 st1) as [cpu st3]. simpl in *.
        assert (task_ctxs (stat_add RUSTY_STAT_REPATRIATE 1 st3) !! tptr p1
                = Some taskc) as Htaskc3
          by (simpl; by rewrite Hc3, Hp1, (Hfail eq_refl)).
        destruct (enqueue_dom_queue_once p1 enq_flags cpu _ _ Htaskc3)
          as (Hp4 & (taskc4 & Hc4 & Hl4) & evs4 & Ht4 & Hi4).
        split; [by rewrite Hp4|].
        exists (evs1 ++ evs3 ++ evs4). eexists. exists taskc4.
        split_and!.
        -- rewrite Ht4. simpl. rewrite Ht3, Ht1. by rewrite <-!app_assoc.
        -- rewrite !inserts_app, Hi1, Hi3, Hi4. simpl. reflexivity.
        -- simpl. rewrite Hp1, Hs3, Hslice. apply Hkind.
        -- by rewrite <- Hp1.
        -- by rewrite Hl4.
      * assert (task_ctxs st1 !! tptr p1 = Some taskc) as Htaskc3
          by (by rewrite Hp1, (Hfail eq_refl)).
        destruct (enqueue_dom_queue_once p1 enq_flags (-1) _ _ Htaskc3)
          as (Hp4 & (taskc4 & Hc4 & Hl4) & evs4 & Ht4 & Hi4).
        split; [by rewrite Hp4|].
        exists (evs1 ++ evs4). eexists. exists taskc4.
        split_and!.
        -- rewrite Ht4, Ht1. by rewrite <-!app_assoc.
        -- rewrite !inserts_app, Hi1, Hi4. simpl. reflexivity.
        -- rewrite Hp1, Hslice. apply Hkind.
        -- by rewrite <- Hp1.
        -- by rewrite Hl4.
Qed.


(** X18.  An enqueue that cannot go through: for a task without a context,
    without a cpumask or without a domain, [rusty_enqueue] inserts the task
    nowhere and changes no scheduling data; a missing context or cpumask is
    reported as an error, a missing domain is not. *)
Theorem rusty_enqueue_dropped p enq_flags (st : state) :
  task_ctxs st !! tptr p = None
  \/ mjoin (task_masks st !! tptr p) = None
  \/ (exists taskc, task_ctxs st !! tptr p = Some taskc /\ domc taskc = None) ->
  let r := rusty_enqueue kops eops cfg p enq_flags st in
  r.1 = p
  /\ same_sched st r.2
  /\ exists evs,
       trace r.2 = trace st ++ evs
       /\ inserts evs = []
       /\ (is_Some (task_ctxs st !! tptr p) ->
           is_Some (mjoin (task_masks st !! tptr p)) -> evs = [])
       /\ (task_ctxs st !! tptr p = None
           \/ mjoin (task_masks st !! tptr p) = None -> last evs = Some ev_error).
Proof.
  intros Hcase r. subst r. unfold rusty_enqueue.
  unfold lookup_task_ctx_mask, lookup_task_ctx, try_lookup_task_ctx,
    lookup_task_bpfmask.
  destruct (task_ctxs st !! tptr p) as [taskc|] eqn:Htaskc; simpl;
    destruct (task_masks st !! tptr p) as [[m|]|] eqn:Hmask; simpl.
  1:{ destruct Hcase as [?|[?|(taskc' & [= <-] & Hdomc)]]; try done.
      rewrite Hdomc. split_and!; try done. exists [].
      rewrite app_nil_r. split_and!; try done. by intros [?|?]. }
  all: split; [done|]; split; [done|]; eexists;
    (split; [simpl; rewrite <- ?app_assoc; reflexivity|]); simpl;
    split_and!; try done; try (by intros _ []); by intros [].
Qed.


(** ** rusty_running: one recording per generation *)

(** After a run-start the task carries the generation of its domain's ring,
    as the [u32] local [dap_gen] holds it: its low 32 bits. *)
Lemma rusty_running_marks p (st : state) taskc domc_ d :
  0 < MAX_DOM_ACTIVE_TPTRS cfg ->
  task_ctxs st !! tptr p = Some taskc ->
  domc taskc = Some domc_ ->
  dom_ctxs st !! domc_ = Some d ->
  let r := rusty_running kops eops cfg p st in
  tptr r.1 = tptr p
  /\ exists taskc1 d1,
       task_ctxs r.2 !! tptr p = Some taskc1
       /\ domc taskc1 = Some domc_
       /\ dom_ctxs r.2 !! domc_ = Some d1
       /\ gen (active_tasks d1) = gen (active_tasks d)
       /\ dom_active_tasks_gen taskc1 = u32 (gen (active_tasks d)).
Proof.
  intros HM Htaskc Hdomc Hd. unfold rusty_running, lookup_task_ctx,
    try_lookup_task_ctx.
  rewrite Htaskc, Hdomc, Hd. unfold running_record_active.
  destruct (Z.eqb_spec (dom_active_tasks_gen taskc) (u32 (gen (active_tasks d))))
    as [Hgen|Hgen]; simpl.
  - destruct (fifo_sched cfg); [split; [done|]; by exists taskc, d|].
    rewrite Htaskc. simpl. split; [done|].
    eexists _, d. rewrite lookup_alter_eq, lookup_insert_eq.
    simpl. by split_and!.
  - pose proof (active_tasks_idx_bound (write_idx (active_tasks d)) HM).
    destruct (Z.leb_spec (MAX_DOM_ACTIVE_TPTRS cfg)
                (active_tasks_idx cfg (write_idx (active_tasks d)))); [lia|].
    destruct (fifo_sched cfg); simpl.
    + split; [done|]. eexists _, _. rewrite lookup_alter_eq, Htaskc. simpl.
      rewrite lookup_insert_eq. by split_and!.
    + rewrite lookup_alter_eq, Htaskc. simpl. split; [done|].
      eexists _, _. rewrite lookup_alter_eq, !lookup_insert_eq. simpl.
      by split_and!.
Qed.

(** A run-start of a task that carries the low 32 bits of the generation of
    the ring leaves the domain contexts as they are. *)
Lemma rusty_running_same_gen p (st : state) taskc domc_ d :
  task_ctxs st !! tptr p = Some taskc ->
  domc taskc = Some domc_ ->
  dom_ctxs st !! domc_ = Some d ->
  dom_active_tasks_gen taskc = u32 (gen (active_tasks d)) ->
  dom_ctxs (rusty_running kops eops cfg p st).2 = dom_ctxs st
  /\ trace (rusty_running kops eops cfg p st).2 = trace st.
Proof.
  intros Htaskc Hdomc Hd Hgen. unfold rusty_running, lookup_task_ctx,
    try_lookup_task_ctx.
  rewrite Htaskc, Hdomc, Hd. unfold running_record_active.
  apply Z.eqb_eq in Hgen. rewrite Hgen. simpl.
  destruct (fifo_sched cfg); [done|]. by rewrite Htaskc.
Qed.

(** X13.  A task is recorded in the ring of its domain once per generation.
    The generation is compared and kept through the [u32] local [dap_gen],
    that is by its low 32 bits: after a run-start the task carries the low 32
    bits of the generation of the ring, and a second run-start changes no
    domain context and makes no kernel call; a run-start of a task that
    already carries them changes no domain context either. *)
Theorem rusty_running_once_per_generation p (st : state) taskc domc_ d :
  0 < MAX_DOM_ACTIVE_TPTRS cfg ->
  task_ctxs st !! tptr p = Some taskc ->
  domc taskc = Some domc_ ->
  dom_ctxs st !! domc_ = Some d ->
  let r1 := rusty_running kops eops cfg p st in
  let r2 := rusty_running kops eops cfg r1.1 r1.2 in
  (exists taskc1,
     task_ctxs r1.2 !! tptr p = Some taskc1
     /\ dom_active_tasks_gen taskc1 = u32 (gen (active_tasks d)))
  /\ dom_ctxs r2.2 = dom_ctxs r1.2
  /\ trace r2.2 = trace r1.2
  /\ (dom_active_tasks_gen taskc = u32 (gen (active_tasks d)) ->
      dom_ctxs r1.2 = dom_ctxs st).
Proof.
  intros HM Htaskc Hdomc Hd r1 r2.
  destruct (rusty_running_marks p st taskc domc_ d HM Htaskc Hdomc Hd)
    as (Hp & taskc1 & d1 & Hc1 & Hdomc1 & Hd1 & Hg1 & Hgen1).
  fold r1 in Hp, Hc1, Hd1. rewrite <- Hp in Hc1.
  destruct (rusty_running_same_gen r1.1 r1.2 taskc1 domc_ d1 Hc1 Hdomc1 Hd1
              ltac:(congruence)) as [Hdom2 Htr2].
  split_and!; try done.
  - exists taskc1. by rewrite <- Hp.
  - intros Hgen. by apply (rusty_running_same_gen p st taskc domc_ d).
Qed.


(** ** rusty_select_cpu: the idle CPUs claimed *)

Lemma claimed_app evs1 evs2 : claimed (evs1 ++ evs2) = claimed evs1 ++ claimed evs2.
Proof.
  induction evs1 as [|e evs1 IH]; [done|].
  destruct e as [| | | | | |cpu []|m f ret]; simpl; rewrite ?IH; try done.
  by destruct (0 <=? ret).
Qed.

Lemma search_step_refl (st : state) : search_step None st st.
Proof.
  unfold search_step. split_and!; try done. exists []. by rewrite app_nil_r.
Qed.

Lemma search_step_trans c (st1 st2 st3 : state) :
  search_step None st1 st2 -> search_step c st2 st3 -> search_step c st1 st3.
Proof.
  intros (Hc1 & Hm1 & _ & evs1 & Ht1 & Hcl1) (Hc2 & Hm2 & Hpos & evs2 & Ht2 & Hcl2).
  unfold search_step. split_and!; [congruence|congruence|done|].
  exists (evs1 ++ evs2).
  split; [by rewrite Ht2, Ht1, app_assoc|]. by rewrite claimed_app, Hcl1, Hcl2.
Qed.

Lemma search_step_same c (st1 st2 st3 : state) :
  search_step c st1 st2 ->
  task_ctxs st3 = task_ctxs st2 -> task_masks st3 = task_masks st2 ->
  trace st3 = trace st2 ->
  search_step c st1 st3.
Proof.
  intros (Hc1 & Hm1 & Hpos & evs1 & Ht1 & Hcl1) Hc Hm Ht.
  unfold search_step. split_and!; [congruence|congruence|done|]. exists evs1.
  split; [congruence|done].
Qed.

Lemma search_step_error c (st1 st2 : state) :
  search_step c st1 st2 -> search_step c st1 (error kops st2).
Proof.
  intros (Hc1 & Hm1 & Hpos & evs1 & Ht1 & Hcl1).
  unfold search_step. split_and!; try done. exists (evs1 ++ [ev_error]). simpl.
  split; [by rewrite Ht1, app_assoc|].
  rewrite claimed_app, Hcl1. simpl. by rewrite app_nil_r.
Qed.

Lemma test_and_clear_cpu_idle_step cpu (st : state) :
  0 <= cpu ->
  let r := test_and_clear_cpu_idle kops cpu st in
  search_step (if r.1 then Some cpu else None) st r.2.
Proof.
  intros Hcpu. unfold test_and_clear_cpu_idle.
  destruct (scx_bpf_test_and_clear_cpu_idle kops cpu (kern st)) as [was_idle k].
  simpl. unfold search_step. split_and!; try done.
  - intros c Hc. destruct was_idle; [|done]. by injection Hc as <-.
  - eexists. split; [reflexivity|]. by destruct was_idle.
Qed.

Lemma pick_idle_cpu_step mask flags (st : state) :
  let r := pick_idle_cpu kops mask flags st in
  search_step (if 0 <=? r.1 then Some r.1 else None) st r.2.
Proof.
  unfold pick_idle_cpu.
  destruct (scx_bpf_pick_idle_cpu kops mask flags (kern st)) as [cpu k].
  simpl. unfold search_step. split_and!; try done.
  - intros c Hc. destruct (Z.leb_spec 0 cpu); [|done]. by injection Hc as <-.
  - eexists. split; [reflexivity|]. simpl. by destruct (0 <=? cpu).
Qed.

Lemma or_else_step (st : state) a b :
  search_step (pick_cpu a.1) st a.2 ->
  (forall st1 : state, search_step (pick_cpu (b st1).1) st1 (b st1).2) ->
  search_step (pick_cpu (or_else a b).1) st (or_else a b).2.
Proof.
  intros Ha Hb. destruct a as [[c| |] st1]; simpl in *; try done.
  eapply search_step_trans; [exact Ha|apply Hb].
Qed.

Lemma select_cpu_prev_step prev_cpu prev_domestic (st : state) :
  let r := select_cpu_prev kops prev_cpu prev_domestic st in
  search_step (pick_cpu r.1) st r.2.
Proof.
  unfold select_cpu_prev.
  assert (forall (m : cpumask) stat,
            bpf_cpumask_test_cpu prev_cpu m = true ->
            let r := (let '(was_idle, st0) := test_and_clear_cpu_idle kops prev_cpu st in
                      if was_idle then (Direct prev_cpu, stat_add stat 1 st0)
                      else (Next, st0)) in
            search_step (pick_cpu r.1) st r.2) as Hclaim.
  { intros m stat Hbit.
    assert (0 <= prev_cpu) as Hpos.
    { destruct (Z.leb_spec 0 prev_cpu); [done|].
      unfold bpf_cpumask_test_cpu in Hbit. by rewrite Z.testbit_neg_r in Hbit by lia. }
    pose proof (test_and_clear_cpu_idle_step prev_cpu st Hpos) as Hstep.
    destruct (test_and_clear_cpu_idle kops prev_cpu st) as [[] st0]; simpl in *;
      [|done].
    by eapply search_step_same. }
  destruct prev_domestic.
  - destruct (bpf_cpumask_test_cpu prev_cpu
                (scx_bpf_get_idle_smtmask kops (kern st))) eqn:Hbit;
      [by eapply Hclaim|apply search_step_refl].
  - destruct (direct_greedy_cpumask st) as [dgm|]; [|apply search_step_refl].
    destruct (bpf_cpumask_test_cpu prev_cpu dgm) eqn:Hbit1; simpl;
      [|apply search_step_refl].
    destruct (bpf_cpumask_test_cpu prev_cpu
                (scx_bpf_get_idle_smtmask kops (kern st))) eqn:Hbit;
      [by eapply Hclaim|apply search_step_refl].
Qed.

Lemma select_cpu_domestic_step p_cpumask prev_cpu has_idle_cores (st : state) :
  let prev_domestic := bpf_cpumask_test_cpu prev_cpu p_cpumask in
  let r := select_cpu_domestic kops p_cpumask prev_cpu prev_domestic
             has_idle_cores st in
  search_step (pick_cpu r.1) st r.2.
Proof.
  intros prev_domestic. unfold select_cpu_domestic.
  assert (exists core (st1 : state),
            (if has_idle_cores
             then pick_idle_cpu kops p_cpumask SCX_PICK_IDLE_CORE st
             else (-1, st)) = (core, st1)
            /\ search_step (if has_idle_cores && (0 <=? core) then Some core else None)
                 st st1) as (core & st1 & -> & H1).
  { destruct has_idle_cores.
    - pose proof (pick_idle_cpu_step p_cpumask SCX_PICK_IDLE_CORE st) as H.
      destruct (pick_idle_cpu kops p_cpumask SCX_PICK_IDLE_CORE st) as [c s].
      by exists c, s.
    - exists (-1), st. split; [done|apply search_step_refl]. }
  destruct (has_idle_cores && (0 <=? core)); simpl.
  { by eapply search_step_same. }
  assert (exists was_idle (st2 : state),
            (if prev_domestic then test_and_clear_cpu_idle kops prev_cpu st1
             else (false, st1)) = (was_idle, st2)
            /\ search_step (if was_idle then Some prev_cpu else None) st1 st2)
    as (was_idle & st2 & -> & H2).
  { destruct prev_domestic eqn:Hbit.
    - assert (0 <= prev_cpu) as Hpos.
      { destruct (Z.leb_spec 0 prev_cpu); [done|]. subst prev_domestic.
        unfold bpf_cpumask_test_cpu in Hbit.
        by rewrite Z.testbit_neg_r in Hbit by lia. }
      pose proof (test_and_clear_cpu_idle_step prev_cpu st1 Hpos) as H.
      destruct (test_and_clear_cpu_idle kops prev_cpu st1) as [w s].
      by exists w, s.
    - exists false, st1. split; [done|apply search_step_refl]. }
  destruct was_idle; simpl.
  { eapply search_step_trans; [exact H1|]. by eapply search_step_same. }
  pose proof (pick_idle_cpu_step p_cpumask 0 st2) as H3.
  destruct (pick_idle_cpu kops p_cpumask 0 st2) as [cpu st3]. simpl in *.
  eapply search_step_trans; [exact H1|].
  eapply search_step_trans; [exact H2|].
  destruct (0 <=? cpu); simpl; [by eapply search_step_same|done].
Qed.

Lemma greedy_pick_step mask flags stat (st : state) :
  let r := greedy_pick kops mask flags stat st in
  search_step (pick_cpu r.1) st r.2.
Proof.
  unfold greedy_pick. destruct mask as [m|]; [|apply search_step_refl].
  pose proof (pick_idle_cpu_step m flags st) as H.
  destruct (pick_idle_cpu kops m flags st) as [cpu st1]. simpl in *.
  destruct (0 <=? cpu); simpl; [by eapply search_step_same|done].
Qed.

Lemma select_cpu_greedy_step taskc prev_cpu has_idle_cores (st : state) :
  let r := select_cpu_greedy kops cfg taskc prev_cpu has_idle_cores st in
  search_step (pick_cpu r.1) st r.2.
Proof.
  unfold select_cpu_greedy.
  destruct (direct_greedy_cpumask st) as [dgm|]; [|apply search_step_refl].
  destruct (all_cpus taskc && negb (bpf_cpumask_empty dgm));
    [|apply search_step_refl].
  assert (exists found domc (st1 : state),
            (if is_offline_cpu cfg prev_cpu then (true, None, st)
             else
               let '(domc, st) := lookup_dom_ctx kops (cpu_to_dom_id cfg prev_cpu) st in
               (if domc is Some _ then true else false, domc, st))
            = (found, domc, st1)
            /\ search_step None st st1) as (found & domc & st1 & -> & H1).
  { destruct (is_offline_cpu cfg prev_cpu).
    - eexists _, _, _. split; [done|apply search_step_refl].
    - unfold lookup_dom_ctx. destruct (try_lookup_dom_ctx _ st).
      + eexists _, _, _. split; [done|apply search_step_refl].
      + eexists _, _, _. split; [done|]. apply search_step_error,
          search_step_refl. }
  destruct found; [|exact H1].
  change (negb true) with false. cbv beta iota.
  destruct (lb_domain_get (domc_id_read domc st1) st1) as [lbd|];
    [|by apply search_step_error].
  match goal with
  | |- context [if negb (direct_greedy_numa cfg) && ?b then ?x else ?y] =>
    assert (exists tmp (st2 : state),
              (if negb (direct_greedy_numa cfg) && b then x else y) = (tmp, st2)
              /\ search_step None st st2) as (tmp & st2 & -> & H2)
  end.
  { destruct (negb (direct_greedy_numa cfg) && _);
      [|by eexists _, _].
    destruct (lbd_node_cpumask lbd) as [node_mask|].
    2:{ eexists _, _. split; [done|]. by apply search_step_error. }
    unfold scx_percpu_bpfmask.
    destruct (percpu_bpfmask st1 !! _) as [[m|]|].
    - eexists _, _. split; [done|]. by eapply search_step_same.
    - eexists _, _. split; [done|]. by do 2 apply search_step_error.
    - eexists _, _. split; [done|]. by do 2 apply search_step_error. }
  destruct tmp as [tmp|]; [|done].
  eapply search_step_trans; [exact H2|].
  apply or_else_step.
  - destruct has_idle_cores; [|apply search_step_refl].
    apply or_else_step; [apply greedy_pick_step|].
    intros st3. apply greedy_pick_step.
  - intros st3. apply or_else_step; [apply greedy_pick_step|].
    intros st4. apply greedy_pick_step.
Qed.

(** A sync wakeup claims at most the previous CPU, which it then returns. *)
Lemma try_sync_wakeup_step p taskc prev_cpu (st : state) :
  let r := try_sync_wakeup kops cfg p taskc prev_cpu st in
  search_step None st r.2
  \/ (search_step (Some r.1) st r.2).
Proof.
  unfold try_sync_wakeup, lookup_pcpu_ctx.
  destruct ((0 <=? _) && (_ <? MAX_CPUS cfg)); simpl;
    [|left; apply search_step_error, search_step_refl].
  destruct (lb_domain_get _ st) as [lbd|]; [|left; apply search_step_refl].
  destruct (lbd_cpumask lbd) as [d_cpumask|];
    [|left; apply search_step_error, search_step_refl].
  assert (exists prev_idle (st1 : state),
            (if bpf_cpumask_test_cpu prev_cpu d_cpumask
             then test_and_clear_cpu_idle kops prev_cpu st else (false, st))
            = (prev_idle, st1)
            /\ search_step (if prev_idle then Some prev_cpu else None) st st1)
    as (prev_idle & st1 & -> & H1).
  { destruct (bpf_cpumask_test_cpu prev_cpu d_cpumask) eqn:Hbit.
    - assert (0 <= prev_cpu) as Hpos.
      { destruct (Z.leb_spec 0 prev_cpu); [done|].
        unfold bpf_cpumask_test_cpu in Hbit.
        by rewrite Z.testbit_neg_r in Hbit by lia. }
      pose proof (test_and_clear_cpu_idle_step prev_cpu st Hpos) as H.
      destruct (test_and_clear_cpu_idle kops prev_cpu st) as [w s].
      by exists w, s.
    - exists false, st. split; [done|apply search_step_refl]. }
  destruct prev_idle; simpl.
  { right. by eapply search_step_same. }
  left.
  destruct (_ && _ && _ && _); [|done].
  unfold dsq_nr_queued. simpl.
  assert (search_step None st
            (emit (ev_dsq_nr_queued
                     (Z.lor SCX_DSQ_LOCAL_ON (bpf_get_smp_processor_id kops (kern st)))
                     (scx_bpf_dsq_nr_queued kops
                        (Z.lor SCX_DSQ_LOCAL_ON
                           (bpf_get_smp_processor_id kops (kern st))) (kern st1)))
               st1)) as H2.
  { destruct H1 as (Hc1 & Hm1 & Hpos & evs1 & Ht1 & Hcl1).
    unfold search_step. split_and!; try done. eexists (evs1 ++ [_]). simpl.
    split; [by rewrite Ht1, app_assoc|].
    rewrite claimed_app, Hcl1. done. }
  destruct (_ =? 0); simpl; [by eapply search_step_same|done].
Qed.

Lemma select_cpu_direct_claims p cpu c (st0 st2 : state) :
  search_step c st0 st2 -> c = None \/ c = Some cpu ->
  claims_selected p st0 (select_cpu_direct p cpu st2).
Proof.
  intros (Hc & Hm & Hpos & evs & Ht & Hcl) Hor. unfold select_cpu_direct.
  split.
  - eapply task_frame_trans; [by apply task_frame_maps|apply task_frame_update].
  - exists evs. split; [done|]. simpl.
    destruct Hor as [->| ->]; [by left|]. right. split_and!; [done|by apply Hpos|].
    intros taskc'. rewrite lookup_alter_eq.
    destruct (task_ctxs st2 !! tptr p); simpl; [|done]. by intros [= <-].
Qed.

Lemma select_cpu_none_claims p x (st0 st2 : state) :
  search_step None st0 st2 -> claims_selected p st0 (x, st2).
Proof.
  intros (Hc & Hm & Hpos & evs & Ht & Hcl). split.
  - by apply task_frame_maps.
  - exists evs. split; [done|by left].
Qed.

Lemma lookup_task_ctx_mask_step p (st : state) :
  search_step None st (lookup_task_ctx_mask kops p st).2.
Proof.
  unfold lookup_task_ctx_mask, lookup_task_ctx, try_lookup_task_ctx,
    lookup_task_bpfmask.
  destruct (task_ctxs st !! tptr p); simpl;
    destruct (task_masks st !! tptr p) as [[|]|]; simpl;
    repeat first [apply search_step_refl | apply search_step_error].
Qed.

(** [rusty_select_cpu] wastes no idle CPU. *)
Lemma rusty_select_cpu_selected p prev_cpu wake_flags (st : state) :
  claims_selected p st (rusty_select_cpu kops cfg p prev_cpu wake_flags st).
Proof.
  unfold rusty_select_cpu.
  destruct (refresh_tune_params_frame st) as (Hc & Hm & _ & _ & Ht).
  set (st0 := refresh_tune_params cfg st) in *.
  assert (search_step None st st0) as H0.
  { unfold search_step. split_and!; try done. exists []. by rewrite app_nil_r. }
  pose proof (lookup_task_ctx_mask_step p st0) as H1.
  destruct (lookup_task_ctx_mask_spec p st0) as (st1 & Hlk & _ & _).
  rewrite Hlk in *. simpl in H1.
  pose proof (search_step_trans _ _ _ _ H0 H1) as H01. clear H0 H1 Hlk.
  destruct (task_ctxs st0 !! tptr p) as [taskc|];
    [|by apply select_cpu_none_claims].
  destruct (mjoin (task_masks st0 !! tptr p)) as [p_cpumask|];
    [|by apply select_cpu_none_claims].
  destruct (nr_cpus_allowed p =? 1).
  { eapply (select_cpu_direct_claims p prev_cpu None); [|by left].
    destruct (_ && _); by eapply search_step_same. }
  assert (exists sync (st2 : state),
            (if flag_set wake_flags SCX_WAKE_SYNC
             then try_sync_wakeup kops cfg p taskc prev_cpu st1 else (-1, st1))
            = (sync, st2)
            /\ (search_step None st st2
                \/ (flag_set wake_flags SCX_WAKE_SYNC = true
                    /\ search_step (Some sync) st st2)))
    as (sync & st2 & -> & H2).
  { destruct (flag_set wake_flags SCX_WAKE_SYNC).
    - pose proof (try_sync_wakeup_step p taskc prev_cpu st1) as H.
      destruct (try_sync_wakeup kops cfg p taskc prev_cpu st1) as [s st2].
      exists s, st2. split; [done|]. simpl in H.
      destruct H as [H|H]; [left|right; split; [done|]];
        by eapply search_step_trans.
    - exists (-1), st1. split; [done|by left]. }
  destruct (flag_set wake_flags SCX_WAKE_SYNC && (0 <=? sync)) eqn:Hsync.
  { destruct H2 as [H2|[_ H2]].
    - eapply (select_cpu_direct_claims p sync None); [done|by left].
    - eapply (select_cpu_direct_claims p sync (Some sync)); [done|by right]. }
  assert (search_step None st st2) as H2'.
  { destruct H2 as [H2|[Hflag H2]]; [done|].
    destruct H2 as (? & ? & Hpos & evs & Htr & Hcl).
    specialize (Hpos sync eq_refl). rewrite Hflag in Hsync. simpl in Hsync.
    lia. }
  clear H2 Hsync.
  set (has_idle_cores := negb _).
  set (prev_domestic := bpf_cpumask_test_cpu prev_cpu p_cpumask).
  match goal with
  | |- context [or_else ?a ?b] =>
    assert (search_step (pick_cpu (or_else a b).1) st2 (or_else a b).2) as H3;
    [|destruct (or_else a b) as [pk st3]]
  end.
  { apply or_else_step; [apply select_cpu_prev_step|].
    intros st3. apply or_else_step; [apply select_cpu_domestic_step|].
    intros st4. apply select_cpu_greedy_step. }
  simpl in H3.
  pose proof (search_step_trans _ _ _ _ H2' H3) as H23.
  destruct pk as [cpu| |]; simpl in H23.
  - eapply (select_cpu_direct_claims p cpu (Some cpu)); [done|by right].
  - by apply select_cpu_none_claims.
  - unfold select_cpu_queue. destruct prev_domestic;
      [by apply select_cpu_none_claims|].
    unfold any_distribute.
    destruct (bpf_cpumask_any_distribute kops p_cpumask (kern st3)) as [cpu k].
    apply select_cpu_none_claims. by eapply search_step_same.
Qed.

(** X14.  [rusty_select_cpu] wastes no idle CPU: whatever the kernel answers,
    the selection either claims no idle CPU at all, or claims exactly one,
    which has a valid id, returns it, and flags the task for local dispatch;
    the search stops at the first successful claim. *)
Theorem rusty_select_cpu_claims p prev_cpu wake_flags (st : state) :
  let r := rusty_select_cpu kops cfg p prev_cpu wake_flags st in
  exists evs,
    trace r.2 = trace st ++ evs
    /\ (claimed evs = []
        \/ (claimed evs = [r.1] /\ 0 <= r.1
            /\ forall taskc', task_ctxs r.2 !! tptr p = Some taskc' ->
                              dispatch_local taskc' = true)).
Proof.
  intros r. by destruct (rusty_select_cpu_selected p prev_cpu wake_flags st).
Qed.

(** ** The hooks keep the set of admitted tasks *)

Lemma same_tasks_refl (st : state) : same_tasks st st.
Proof. by intros q. Qed.

Lemma same_tasks_trans (st1 st2 st3 : state) :
  same_tasks st1 st2 -> same_tasks st2 st3 -> same_tasks st1 st3.
Proof.
  intros H1 H2 q. destruct (H1 q) as [Hc1 Hm1]. destruct (H2 q) as [Hc2 Hm2].
  split; [by rewrite Hc2|by rewrite Hm2].
Qed.

Lemma same_tasks_maps (st st' : state) :
  task_ctxs st' = task_ctxs st -> task_masks st' = task_masks st ->
  same_tasks st st'.
Proof. intros Hc Hm q. unfold has_ctx, has_mask. by rewrite Hc, Hm. Qed.

Lemma task_frame_same_tasks p (st st' : state) :
  task_frame p st st' -> same_tasks st st'.
Proof.
  intros (Hc & Hm & Ho) q. destruct (decide (q = tptr p)) as [->|Hq]; [done|].
  destruct (Ho q Hq) as [Hcq Hmq]. unfold has_ctx, has_mask. by rewrite Hcq, Hmq.
Qed.

Lemma enqueue_dom_queue_frame p enq_flags cpu (st : state) :
  let r := enqueue_dom_queue kops eops cfg p enq_flags cpu st in
  task_frame p st r.2.
Proof.
  unfold enqueue_dom_queue.
  destruct (task_ctxs st !! tptr p) as [taskc|] eqn:Htaskc;
    [|apply task_frame_refl].
  assert (exists p1 taskc1 (st1 : state),
            (if fifo_sched cfg
             then (p, taskc,
                   dsq_insert kops p (target_dom taskc) (slice_ns st) enq_flags st)
             else
               let '(u, k) := place_task_dl eops p taskc enq_flags (slice_ns st)
                                (vt st) (kern st) in
               vtime_commit p taskc u
                 (emit (ev_place_task_dl (tptr p) enq_flags) (set_kern k st)))
            = (p1, taskc1, st1)
            /\ task_frame p st st1) as (p1 & taskc1 & st1 & -> & H1).
  { destruct (fifo_sched cfg).
    - eexists _, _, _. split; [reflexivity|]. by apply task_frame_maps.
    - destruct (place_task_dl eops p taskc enq_flags (slice_ns st) (vt st) (kern st))
        as [u k].
      unfold vtime_commit. eexists _, _, _. split; [reflexivity|].
      eapply task_frame_trans; [|apply task_frame_write].
      + by apply task_frame_maps.
      + unfold has_ctx. simpl. by rewrite Htaskc. }
  destruct (all_cpus taskc1); [|done].
  match goal with
  | |- context [match kick_greedy_cpumask st1 with Some _ => _ | None => ?y end] =>
    assert (exists cpu' (st2 : state),
              match kick_greedy_cpumask st1 with
              | Some kgm =>
                let '(cpu, st) :=
                  any_and_distribute kops kgm
                    (scx_bpf_get_idle_cpumask kops (kern st1)) st1 in
                (if nr_cpu_ids cfg <=? u32 cpu then - EBUSY else cpu, st)
              | None => y
              end = (cpu', st2)
              /\ task_ctxs st2 = task_ctxs st1 /\ task_masks st2 = task_masks st1)
      as (cpu' & st2 & -> & Hc2 & Hm2)
  end.
  { destruct (kick_greedy_cpumask st1) as [kgm|]; [|by eexists _, _].
    unfold any_and_distribute.
    destruct (bpf_cpumask_any_and_distribute kops kgm _ (kern st1)) as [c k].
    by eexists _, _. }
  eapply task_frame_trans; [exact H1|].
  destruct (0 <=? cpu'); by apply task_frame_maps.
Qed.

Lemma kick_domestic_maps p (st : state) :
  task_ctxs (kick_domestic kops cfg p st).2 = task_ctxs st
  /\ task_masks (kick_domestic kops cfg p st).2 = task_masks st.
Proof.
  unfold kick_domestic. destruct (task_masks st !! tptr p) as [[m|]|]; try done.
  unfold any_distribute.
  destruct (bpf_cpumask_any_distribute kops m (kern st)) as [cpu k]. simpl.
  by destruct (u32 cpu <? nr_cpu_ids cfg).
Qed.

Lemma task_frame_tptr p p' (st st' : state) :
  tptr p' = tptr p -> task_frame p' st st' -> task_frame p st st'.
Proof. unfold task_frame. by intros ->. Qed.

Lemma rusty_enqueue_frame p enq_flags (st : state) :
  task_frame p st (rusty_enqueue kops eops cfg p enq_flags st).2.
Proof.
  unfold rusty_enqueue.
  destruct (lookup_task_ctx_mask_spec p st) as (st0 & -> & Hsame & _).
  pose proof (task_frame_same p _ _ Hsame) as H0.
  destruct (task_ctxs st !! tptr p) as [taskc|]; [|done].
  destruct (mjoin (task_masks st !! tptr p)) as [m|]; [|done].
  destruct (domc taskc) as [domc_|]; [|done].
  set (cur := domc_id_read (Some domc_) st0).
  assert (exists ok p1 (st1 : state),
            (if negb (cur =? target_dom taskc)
             then task_set_domain kops eops cfg p cur false st0
             else (false, p, st0)) = (ok, p1, st1)
            /\ tptr p1 = tptr p /\ task_frame p st st1)
    as (ok & p1 & st1 & -> & Hp1 & H1).
  { destruct (negb (cur =? target_dom taskc)).
    - pose proof (task_set_domain_frame p cur false st0) as Hf.
      destruct (task_set_domain_kept p cur false st0) as [Hp _].
      destruct (task_set_domain kops eops cfg p cur false st0) as [[ok p1] st1].
      exists ok, p1, st1. simpl in *. split_and!; try done.
      by eapply task_frame_trans.
    - by exists false, p, st0. }
  destruct ok.
  - set (st2 := taskc_update p1 _ _).
    assert (task_frame p st st2) as H2.
    { eapply task_frame_trans; [exact H1|].
      apply (task_frame_tptr p p1); [done|].
      eapply task_frame_trans; [|apply task_frame_update].
      by apply task_frame_maps. }
    destruct (kick_domestic_maps p1 st2) as [Hc3 Hm3].
    destruct (kick_domestic kops cfg p1 st2) as [cpu st3]. simpl in *.
    eapply task_frame_trans; [exact H2|].
    eapply task_frame_trans; [by apply (task_frame_maps p st2 st3)|].
    apply (task_frame_tptr p p1); [done|]. apply enqueue_dom_queue_frame.
  - destruct (task_ctxs st1 !! tptr p1) as [taskc1|]; [|done].
    destruct (dispatch_local taskc1).
    + simpl. eapply task_frame_trans; [exact H1|].
      apply (task_frame_tptr p p1); [done|].
      eapply task_frame_trans; [apply task_frame_update|].
      by apply task_frame_maps.
    + match goal with
      | |- context [if ?foreign then _ else (-1, st1)] =>
        assert (exists cpu (st2 : state),
                  (if foreign
                   then let '(cpu, st) := kick_domestic kops cfg p1 st1 in
                        (cpu, stat_add RUSTY_STAT_REPATRIATE 1 st)
                   else (-1, st1)) = (cpu, st2)
                  /\ task_ctxs st2 = task_ctxs st1
                  /\ task_masks st2 = task_masks st1)
          as (cpu & st2 & -> & Hc2 & Hm2);
        [destruct foreign; [|by eexists _, _];
         destruct (kick_domestic_maps p1 st1) as [? ?];
         destruct (kick_domestic kops cfg p1 st1) as [c s]; by eexists _, _|]
      end.
      eapply task_frame_trans; [exact H1|].
      eapply task_frame_trans; [by apply (task_frame_maps p st1 st2)|].
      apply (task_frame_tptr p p1); [done|]. apply enqueue_dom_queue_frame.
Qed.

Lemma same_tasks_update q f (st : state) :
  same_tasks st (set_task_ctxs (alter f q (task_ctxs st)) st).
Proof.
  intros q'. unfold has_ctx, has_mask. simpl. split; [|done].
  destruct (decide (q' = q)) as [->|Hq].
  - by rewrite lookup_alter_eq, fmap_is_Some.
  - by rewrite lookup_alter_ne.
Qed.

Lemma rusty_runnable_tasks p enq_flags (st : state) :
  same_tasks st (rusty_runnable kops eops cfg p enq_flags st).
Proof.
  unfold rusty_runnable, lookup_task_ctx, try_lookup_task_ctx.
  destruct (task_ctxs st !! tptr p) as [taskc|] eqn:Htaskc;
    [|by apply same_tasks_maps].
  set (st1 := set_acct _ _).
  assert (same_tasks st st1) as H1.
  { apply (task_frame_same_tasks p).
    eapply task_frame_trans; [apply task_frame_write|by apply task_frame_maps].
    unfold has_ctx. by rewrite Htaskc. }
  destruct (fifo_sched cfg); [done|].
  set (st2 := taskc_update p _ st1).
  assert (same_tasks st st2) as H2.
  { eapply same_tasks_trans; [exact H1|].
    apply (task_frame_same_tasks p), task_frame_update. }
  destruct (task_ctxs st2 !! tptr (bpf_get_current_task_btf kops (kern st2)));
    [|exact H2].
  eapply same_tasks_trans; [exact H2|]. apply same_tasks_update.
Qed.

Lemma rusty_running_frame p (st : state) :
  task_frame p st (rusty_running kops eops cfg p st).2.
Proof.
  unfold rusty_running, lookup_task_ctx, try_lookup_task_ctx.
  destruct (task_ctxs st !! tptr p) as [taskc|] eqn:Htaskc;
    [|by apply task_frame_maps].
  destruct (domc taskc) as [domc_|]; [|by apply task_frame_maps].
  destruct (dom_ctxs st !! domc_) as [d|]; [|apply task_frame_refl].
  assert (task_frame p st (running_record_active kops eops cfg p taskc domc_ d st).2)
    as H1.
  { unfold running_record_active. destruct (negb _); [|apply task_frame_refl].
    simpl. destruct (MAX_DOM_ACTIVE_TPTRS cfg <=? _); simpl;
      [by apply task_frame_maps|].
    eapply task_frame_trans; [|apply task_frame_update].
    by apply task_frame_maps. }
  destruct (running_record_active kops eops cfg p taskc domc_ d st) as [oob st1].
  simpl in H1. destruct oob; [done|].
  destruct (fifo_sched cfg); [done|].
  destruct (task_ctxs st1 !! tptr p) as [taskc1|] eqn:Htaskc1; [|done].
  unfold vtime_commit. simpl.
  eapply task_frame_trans; [exact H1|].
  match goal with
  | |- task_frame p st1 (taskc_update ?p' ?f ?s) =>
    apply (task_frame_trans p st1 s); [|apply (task_frame_update p' f s)]
  end.
  eapply task_frame_trans; [|apply task_frame_write].
  - by apply task_frame_maps.
  - unfold has_ctx. simpl. by rewrite Htaskc1.
Qed.

Lemma rusty_stopping_frame p runnable_ (st : state) :
  task_frame p st (rusty_stopping kops eops cfg p runnable_ st).2.
Proof.
  unfold rusty_stopping. destruct (fifo_sched cfg); [apply task_frame_refl|].
  unfold lookup_task_ctx, try_lookup_task_ctx.
  destruct (task_ctxs st !! tptr p) as [taskc|] eqn:Htaskc;
    [|by apply task_frame_maps].
  destruct (domc taskc) as [domc_|]; [|apply task_frame_refl].
  unfold vtime_commit. simpl.
  eapply task_frame_trans; [|apply task_frame_write].
  - by apply task_frame_maps.
  - unfold has_ctx. simpl. by rewrite Htaskc.
Qed.

Lemma rusty_quiescent_frame p deq_flags (st : state) :
  task_frame p st (rusty_quiescent kops eops cfg p deq_flags st).
Proof.
  unfold rusty_quiescent, lookup_task_ctx, try_lookup_task_ctx.
  destruct (task_ctxs st !! tptr p) as [taskc|] eqn:Htaskc;
    [|by apply task_frame_maps].
  destruct (domc taskc) as [domc_|]; [|apply task_frame_refl].
  set (st1 := set_acct _ _).
  assert (task_frame p st st1) as H1.
  { eapply task_frame_trans; [apply task_frame_write|by apply task_frame_maps].
    unfold has_ctx. by rewrite Htaskc. }
  destruct (fifo_sched cfg); [done|].
  eapply task_frame_trans; [exact H1|]. apply task_frame_update.
Qed.

Lemma rusty_set_weight_frame p weight_ (st : state) :
  task_frame p st (rusty_set_weight kops p weight_ st).
Proof.
  unfold rusty_set_weight, lookup_task_ctx, try_lookup_task_ctx.
  destruct (task_ctxs st !! tptr p); [apply task_frame_update|].
  by apply task_frame_maps.
Qed.

Lemma rusty_set_cpumask_frame p mask (st : state) :
  task_frame p st (rusty_set_cpumask kops eops cfg p mask st).2.
Proof.
  unfold rusty_set_cpumask, lookup_task_ctx, try_lookup_task_ctx.
  destruct (task_ctxs st !! tptr p); [|by apply task_frame_maps].
  destruct (task_pick_and_set_domain_frame p mask false st) as [Hp H1].
  destruct (task_pick_and_set_domain kops eops cfg p mask false st) as [p1 st1].
  simpl in *. destruct (all_cpumask st1); [|done].
  simpl. eapply task_frame_trans; [exact H1|].
  apply (task_frame_tptr p p1); [done|]. apply task_frame_update.
Qed.

Lemma steal_same_node_maps n cpu curr_dom my_node : forall st : state,
  task_ctxs (steal_same_node kops eops cfg n cpu curr_dom my_node st).2
  = task_ctxs st
  /\ task_masks (steal_same_node kops eops cfg n cpu curr_dom my_node st).2
     = task_masks st.
Proof.
  induction n as [|n IH]; intros st; simpl; [done|].
  destruct (_ || _); [by rewrite !(proj1 (IH _)), !(proj2 (IH _))|].
  unfold dsq_move_to_local. simpl.
  destruct (scx_bpf_dsq_move_to_local kops _ (kern st)) as [moved k].
  destruct moved; [done|]. by rewrite !(proj1 (IH _)), !(proj2 (IH _)).
Qed.

Lemma steal_cross_node_maps n cpu curr_dom my_node : forall st : state,
  task_ctxs (steal_cross_node kops eops cfg n cpu curr_dom my_node st).2
  = task_ctxs st
  /\ task_masks (steal_cross_node kops eops cfg n cpu curr_dom my_node st).2
     = task_masks st.
Proof.
  induction n as [|n IH]; intros st; simpl; [done|].
  destruct (_ || _); [by rewrite !(proj1 (IH _)), !(proj2 (IH _))|].
  destruct (greedy_threshold_x_numa cfg <=? _);
    [by rewrite !(proj1 (IH _)), !(proj2 (IH _))|].
  unfold dsq_move_to_local. simpl.
  destruct (scx_bpf_dsq_move_to_local kops _ (kern st)) as [moved k].
  destruct moved; [done|]. by rewrite !(proj1 (IH _)), !(proj2 (IH _)).
Qed.

Lemma rusty_dispatch_maps cpu (st : state) :
  task_ctxs (rusty_dispatch kops eops cfg cpu st) = task_ctxs st
  /\ task_masks (rusty_dispatch kops eops cfg cpu st) = task_masks st.
Proof.
  unfold rusty_dispatch. destruct (is_offline_cpu cfg cpu); [done|].
  unfold dsq_move_to_local.
  destruct (scx_bpf_dsq_move_to_local kops _ (kern st)) as [moved k].
  destruct moved; [done|]. simpl.
  destruct (greedy_threshold cfg =? 0); [done|].
  unfold lookup_pcpu_ctx. destruct (_ && _); [|done].
  match goal with
  | |- context [steal_same_node kops eops cfg ?n cpu ?c ?m ?st1] =>
    destruct (steal_same_node_maps n cpu c m st1) as [Hc1 Hm1];
    destruct (steal_same_node kops eops cfg n cpu c m st1) as [stolen st2]
  end.
  simpl in *. destruct stolen; [done|].
  destruct (_ || _); [done|].
  match goal with
  | |- context [steal_cross_node kops eops cfg ?n cpu ?c ?m st2] =>
    destruct (steal_cross_node_maps n cpu c m st2) as [-> ->]
  end.
  done.
Qed.

(** X15.  No hook other than the admission and the exit of a task admits or
    drops a task: after CPU selection, enqueue, dispatch, runnable, running,
    stopping, quiescent, a weight change or an affinity change, a task has a
    context, and a working cpumask, exactly when it had one before.  All of
    them but runnable, which also updates the waker, touch the entries of no
    task other than their own. *)
Theorem hooks_keep_task_set :
  (forall p prev_cpu wake_flags (st : state),
     task_frame p st (rusty_select_cpu kops cfg p prev_cpu wake_flags st).2)
  /\ (forall p enq_flags (st : state),
        task_frame p st (rusty_enqueue kops eops cfg p enq_flags st).2)
  /\ (forall cpu (st : state),
        task_ctxs (rusty_dispatch kops eops cfg cpu st) = task_ctxs st
        /\ task_masks (rusty_dispatch kops eops cfg cpu st) = task_masks st)
  /\ (forall p enq_flags (st : state),
        same_tasks st (rusty_runnable kops eops cfg p enq_flags st))
  /\ (forall p (st : state),
        task_frame p st (rusty_running kops eops cfg p st).2)
  /\ (forall p runnable_ (st : state),
        task_frame p st (rusty_stopping kops eops cfg p runnable_ st).2)
  /\ (forall p deq_flags (st : state),
        task_frame p st (rusty_quiescent kops eops cfg p deq_flags st))
  /\ (forall p weight_ (st : state),
        task_frame p st (rusty_set_weight kops p weight_ st))
  /\ (forall p mask (st : state),
        task_frame p st (rusty_set_cpumask kops eops cfg p mask st).2)
  /\ (forall p (st st' : state), task_frame p st st' -> same_tasks st st').
Proof.
  split_and!.
  - intros p prev_cpu wake_flags st.
    by destruct (rusty_select_cpu_selected p prev_cpu wake_flags st).
  - apply rusty_enqueue_frame.
  - apply rusty_dispatch_maps.
  - apply rusty_runnable_tasks.
  - apply rusty_running_frame.
  - apply rusty_stopping_frame.
  - apply rusty_quiescent_frame.
  - apply rusty_set_weight_frame.
  - apply rusty_set_cpumask_frame.
  - apply task_frame_same_tasks.
Qed.

(** ** What domain selection leaves alone *)

Lemma globals_kept_refl (st : state) : globals_kept st st.
Proof. by repeat split. Qed.

Lemma globals_kept_trans (st1 st2 st3 : state) :
  globals_kept st1 st2 -> globals_kept st2 st3 -> globals_kept st1 st3.
Proof.
  intros (? & ? & ? & ? & ? & ? & ? & ?) (? & ? & ? & ? & ? & ? & ? & ?).
  unfold globals_kept. split_and!; congruence.
Qed.

Lemma task_set_domain_globals p new_dom_id init_dsq_vtime (st : state) :
  globals_kept st (task_set_domain kops eops cfg p new_dom_id init_dsq_vtime st).2.
Proof.
  unfold task_set_domain, lookup_task_ctx_mask, lookup_task_ctx,
    try_lookup_task_ctx, lookup_task_bpfmask.
  destruct (task_ctxs st !! tptr p) as [taskc|]; simpl;
    destruct (task_masks st !! tptr p) as [[m|]|]; simpl;
    try (by repeat split).
  unfold lookup_dom_ctx, try_lookup_dom_ctx.
  destruct (dom_ctxs st !! target_dom taskc); [|by repeat split].
  destruct (new_dom_id =? NO_DOM_FOUND cfg); [by repeat split|].
  destruct (dom_ctxs st !! new_dom_id); [|by repeat split].
  destruct (lb_domain_get new_dom_id st) as [lbd|]; [|by repeat split].
  destruct (lbd_cpumask lbd) as [d_cpumask|]; [|by repeat split].
  destruct (bpf_cpumask_intersects d_cpumask (cpus_ptr p)); [|by repeat split].
  unfold vtime_commit. simpl. destruct init_dsq_vtime; by repeat split.
Qed.

Lemma task_set_preferred_mempolicy_dom_mask_globals p (st : state) :
  globals_kept st (task_set_preferred_mempolicy_dom_mask kops eops cfg p st).
Proof.
  unfold task_set_preferred_mempolicy_dom_mask.
  set (st0 := taskc_update p (set_preferred_dom_mask 0) st).
  assert (globals_kept st st0) as H0 by (by repeat split).
  unfold lookup_task_bpfmask.
  assert (forall st1 : state, globals_kept st st1 ->
            globals_kept st
              match p_mempolicy p, @None cpumask with
              | Some _, Some _ => st | _, _ => st1 end) as Hnone
    by (intros st1 ?; by destruct (p_mempolicy p)).
  destruct (task_masks st0 !! tptr p) as [[m|]|];
    [|apply Hnone; by repeat split..].
  destruct (p_mempolicy p) as [mp|]; [|done].
  destruct (negb (mempolicy_affinity cfg)); [done|].
  destruct (negb (flag_set _ _)); [done|].
  destruct (0 <=? s32 (mp_home_node mp)); [by repeat split|].
  destruct (mp_nodes mp) as [val|]; [|done].
  generalize (bpf_iter_num 0 (s32 (nr_nodes cfg))). intros nodes.
  revert H0. generalize st0. clear st0.
  induction nodes as [|node nodes IH]; intros st0 H0; simpl; [done|].
  apply IH. destruct (flag_set (u32 val) (int_shl_1 node)); [|done].
  eapply globals_kept_trans; [exact H0|]. by repeat split.
Qed.

Lemma pick_domain_scan_globals p mask n : forall l (st : state),
  globals_kept st (pick_domain_scan cfg n p mask l st).2.
Proof.
  induction n as [|n IH]; intros l st; simpl; [apply globals_kept_refl|].
  destruct (cpumask_intersects_domain mask _ st); [|apply IH].
  eapply globals_kept_trans; [|apply IH]. by repeat split.
Qed.

Lemma task_pick_domain_globals p mask (st : state) :
  globals_kept st (task_pick_domain kops eops cfg p mask st).2.
Proof.
  unfold task_pick_domain.
  destruct ((_ <? 0) || (MAX_CPUS cfg <=? _)); [apply globals_kept_refl|].
  unfold dom_rr_cur_postinc.
  match goal with
  | |- context [pick_domain_scan cfg ?n p mask ?l ?st1] =>
    pose proof (pick_domain_scan_globals p mask n l st1) as Hscan;
    destruct (pick_domain_scan cfg n p mask l st1) as [l' st']
  end.
  simpl in *.
  eapply globals_kept_trans; [|exact Hscan].
  eapply globals_kept_trans;
    [|apply task_set_preferred_mempolicy_dom_mask_globals].
  by repeat split.
Qed.

Lemma task_pick_and_set_domain_globals p mask init_dsq_vtime (st : state) :
  globals_kept st
    (task_pick_and_set_domain kops eops cfg p mask init_dsq_vtime st).2.
Proof.
  unfold task_pick_and_set_domain.
  assert (exists dom_id st1,
            (if 1 <? nr_doms cfg then task_pick_domain kops eops cfg p mask st
             else (0, st)) = (dom_id, st1) /\ globals_kept st st1)
    as (dom_id & st1 & -> & H1).
  { destruct (1 <? nr_doms cfg).
    - pose proof (task_pick_domain_globals p mask st) as H.
      destruct (task_pick_domain kops eops cfg p mask st) as [d s]. by exists d, s.
    - exists 0, st. split; [done|apply globals_kept_refl]. }
  pose proof (task_set_domain_globals p dom_id init_dsq_vtime st1) as H2.
  destruct (task_set_domain kops eops cfg p dom_id init_dsq_vtime st1)
    as [[ok p'] st2].
  simpl in *.
  eapply globals_kept_trans; [exact H1|].
  eapply globals_kept_trans; [exact H2|].
  destruct ok; [apply globals_kept_refl|by repeat split].
Qed.

Lemma ldiff_subset (a b : Z) :
  Z.ldiff a b = 0 <->
  forall c, 0 <= c -> Z.testbit a c = true -> Z.testbit b c = true.
Proof.
  split.
  - intros H c Hc Ha.
    assert (Z.testbit (Z.ldiff a b) c = false) as Hb by (by rewrite H, Z.bits_0).
    rewrite Z.ldiff_spec, Ha in Hb. simpl in Hb. by apply negb_false_iff in Hb.
  - intros H. apply Z.bits_inj'. intros c Hc. rewrite Z.bits_0, Z.ldiff_spec.
    destruct (Z.testbit a c) eqn:Ha; [|done]. simpl. by rewrite (H c Hc Ha).
Qed.

(** The load accounting through domain selection: [task_pick_domain] leaves
    it alone, [task_set_domain] transfers the load of the task when it moves
    the task and this is not the initial assignment. *)
Lemma task_set_preferred_mempolicy_dom_mask_acct p (st : state) :
  acct (task_set_preferred_mempolicy_dom_mask kops eops cfg p st) = acct st.
Proof.
  unfold task_set_preferred_mempolicy_dom_mask.
  set (st0 := taskc_update p (set_preferred_dom_mask 0) st).
  assert (acct st0 = acct st) as H0 by done.
  unfold lookup_task_bpfmask.
  assert (forall st1 : state, acct st1 = acct st ->
            acct match p_mempolicy p, @None cpumask with
                 | Some _, Some _ => st | _, _ => st1 end = acct st)
    as Hnone by (intros st1 ?; by destruct (p_mempolicy p)).
  destruct (task_masks st0 !! tptr p) as [[m|]|]; [|by apply Hnone..].
  destruct (p_mempolicy p) as [mp|]; [|done].
  destruct (negb (mempolicy_affinity cfg)); [done|].
  destruct (negb (flag_set _ _)); [done|].
  destruct (0 <=? s32 (mp_home_node mp)); [done|].
  destruct (mp_nodes mp) as [val|]; [|done].
  generalize (bpf_iter_num 0 (s32 (nr_nodes cfg))). intros nodes.
  revert H0. generalize st0. clear st0.
  induction nodes as [|node nodes IH]; intros st0 H0; simpl; [done|].
  apply IH. by destruct (flag_set (u32 val) (int_shl_1 node)).
Qed.

Lemma pick_domain_scan_acct p mask n : forall l (st : state),
  acct (pick_domain_scan cfg n p mask l st).2 = acct st.
Proof.
  induction n as [|n IH]; intros l st; simpl; [done|].
  destruct (cpumask_intersects_domain mask _ st); by rewrite IH.
Qed.

Lemma task_pick_domain_acct p mask (st : state) :
  acct (task_pick_domain kops eops cfg p mask st).2 = acct st.
Proof.
  unfold task_pick_domain.
  destruct ((_ <? 0) || (MAX_CPUS cfg <=? _)); [done|].
  unfold dom_rr_cur_postinc.
  match goal with
  | |- context [pick_domain_scan cfg ?n p mask ?l ?st1] =>
    pose proof (pick_domain_scan_acct p mask n l st1) as Hscan;
    destruct (pick_domain_scan cfg n p mask l st1) as [l' st']
  end.
  simpl in *. rewrite Hscan.
  by rewrite task_set_preferred_mempolicy_dom_mask_acct.
Qed.

Lemma task_set_domain_acct p new_dom_id init_dsq_vtime (st : state) :
  let r := task_set_domain kops eops cfg p new_dom_id init_dsq_vtime st in
  acct r.2 = acct st
  \/ (init_dsq_vtime = false
      /\ exists taskc now,
           acct r.2 = dom_xfer_task eops p taskc new_dom_id now (acct st)).
Proof.
  unfold task_set_domain, lookup_task_ctx_mask, lookup_task_ctx,
    try_lookup_task_ctx, lookup_task_bpfmask.
  destruct (task_ctxs st !! tptr p) as [taskc|]; simpl;
    destruct (task_masks st !! tptr p) as [[m|]|]; simpl;
    try (by left).
  unfold lookup_dom_ctx, try_lookup_dom_ctx.
  destruct (dom_ctxs st !! target_dom taskc); [|by left].
  destruct (new_dom_id =? NO_DOM_FOUND cfg); [by left|].
  destruct (dom_ctxs st !! new_dom_id); [|by left].
  destruct (lb_domain_get new_dom_id st) as [lbd|]; [|by left].
  destruct (lbd_cpumask lbd) as [d_cpumask|]; [|by left].
  destruct (bpf_cpumask_intersects d_cpumask (cpus_ptr p)); [|by left].
  unfold vtime_commit. simpl. destruct init_dsq_vtime; [by left|].
  right. split; [done|]. by eexists _, _.
Qed.

Lemma task_pick_and_set_domain_acct p mask init_dsq_vtime (st : state) :
  let r := task_pick_and_set_domain kops eops cfg p mask init_dsq_vtime st in
  acct r.2 = acct st
  \/ (init_dsq_vtime = false
      /\ exists taskc d now,
           acct r.2 = dom_xfer_task eops p taskc d now (acct st)).
Proof.
  unfold task_pick_and_set_domain.
  assert (exists dom_id st1,
            (if 1 <? nr_doms cfg then task_pick_domain kops eops cfg p mask st
             else (0, st)) = (dom_id, st1) /\ acct st1 = acct st)
    as (dom_id & st1 & -> & H1).
  { destruct (1 <? nr_doms cfg).
    - pose proof (task_pick_domain_acct p mask st) as H.
      destruct (task_pick_domain kops eops cfg p mask st) as [d s]. by exists d, s.
    - by exists 0, st. }
  pose proof (task_set_domain_acct p dom_id init_dsq_vtime st1) as H2.
  destruct (task_set_domain kops eops cfg p dom_id init_dsq_vtime st1)
    as [[ok p'] st2].
  simpl in *. rewrite H1 in H2.
  assert (acct (if ok then st2 else error kops st2) = acct st2) as ->
    by (by destruct ok).
  destruct H2 as [?|(? & taskc & now & ?)]; [by left|right].
  split; [done|]. by exists taskc, dom_id, now.
Qed.

(** X16.  An affinity change of an admitted task, when the mask of all CPUs
    is set: afterwards the task is flagged [all_cpus] exactly when every CPU
    of [all_cpumask] is in the new affinity.  The ids and the rings of the
    domain contexts, the masks of the domains, the global greedy masks, the
    slice, the tuning generation and the statistics are as before.  The load
    accounting is not among them: it is as before, or it is the result of the
    one load transfer ([dom_xfer_task]) that [task_set_domain] makes when it
    moves the task. *)
Theorem rusty_set_cpumask_all_cpus p mask (st : state) all :
  has_ctx (tptr p) st ->
  all_cpumask st = Some all ->
  let r := rusty_set_cpumask kops eops cfg p mask st in
  globals_kept st r.2
  /\ (acct r.2 = acct st
      \/ exists taskc d now,
           acct r.2 = dom_xfer_task eops p taskc d now (acct st))
  /\ exists taskc',
       task_ctxs r.2 !! tptr p = Some taskc'
       /\ (all_cpus taskc' = true <->
           forall c, 0 <= c -> Z.testbit all c = true -> Z.testbit mask c = true).
Proof.
  intros Hctx Hall r. subst r.
  unfold rusty_set_cpumask, lookup_task_ctx, try_lookup_task_ctx.
  destruct Hctx as [taskc Htaskc]. rewrite Htaskc.
  destruct (task_pick_and_set_domain_frame p mask false st) as (Hp & Hc & _).
  pose proof (task_pick_and_set_domain_globals p mask false st) as Hg.
  pose proof (task_pick_and_set_domain_acct p mask false st) as Ha.
  destruct (task_pick_and_set_domain kops eops cfg p mask false st) as [p1 st1].
  simpl in *.
  assert (all_cpumask st1 = Some all) as ->
    by (destruct Hg as (_ & _ & -> & _); done).
  simpl. split_and!.
  - eapply globals_kept_trans; [exact Hg|]. by repeat split.
  - destruct Ha as [?|(_ & Hx)]; [by left|by right].
  - destruct (proj2 Hc ltac:(by exists taskc)) as [taskc1 Htaskc1].
    exists (set_all_cpus (bpf_cpumask_subset all mask) taskc1). split.
    + by rewrite Hp, lookup_alter_eq, Htaskc1.
    + simpl. unfold bpf_cpumask_subset. rewrite Z.eqb_eq. apply ldiff_subset.
Qed.

(** ** Admission places the task in a domain of its affinity *)

Lemma taskc_update_field {X : Type} (g : task_ctx -> X) p f (st : state) :
  (forall t, g (f t) = g t) ->
  g <$> task_ctxs (taskc_update p f st) !! tptr p = g <$> task_ctxs st !! tptr p.
Proof.
  intros Hg. rewrite taskc_update_lookup.
  destruct (task_ctxs st !! tptr p); simpl; [by rewrite Hg|done].
Qed.

(** What [task_pick_domain] changes of the task's context are the two domain
    masks only, and with a mask entry it raises no error. *)
Lemma task_set_preferred_mempolicy_dom_mask_fields {X : Type}
    (g : task_ctx -> X) p (st : state) :
  (forall v t, g (set_preferred_dom_mask v t) = g t) ->
  let st' := task_set_preferred_mempolicy_dom_mask kops eops cfg p st in
  g <$> task_ctxs st' !! tptr p = g <$> task_ctxs st !! tptr p
  /\ (has_mask (tptr p) st -> trace st' = trace st).
Proof.
  intros Hg. unfold task_set_preferred_mempolicy_dom_mask.
  set (st0 := taskc_update p (set_preferred_dom_mask 0) st).
  assert (g <$> task_ctxs st0 !! tptr p = g <$> task_ctxs st !! tptr p) as H0
    by (by apply taskc_update_field).
  assert (trace st0 = trace st) as Ht0 by done.
  unfold lookup_task_bpfmask, has_mask.
  assert (task_masks st0 = task_masks st) as -> by done.
  destruct (task_masks st !! tptr p) as [[m|]|].
  2,3: (split; [by destruct (p_mempolicy p)|]; by intros [m Hm]).
  destruct (p_mempolicy p) as [mp|]; [|done].
  destruct (negb (mempolicy_affinity cfg)); [done|].
  destruct (negb (flag_set _ _)); [done|].
  destruct (0 <=? s32 (mp_home_node mp)).
  { split; [|done]. rewrite taskc_update_field by done. exact H0. }
  destruct (mp_nodes mp) as [val|]; [|done].
  generalize (bpf_iter_num 0 (s32 (nr_nodes cfg))). intros nodes.
  revert H0 Ht0. generalize st0. clear st0.
  induction nodes as [|node nodes IH]; intros st0 H0 Ht0; simpl; [done|].
  apply IH; destruct (flag_set (u32 val) (int_shl_1 node)); try done.
  rewrite taskc_update_field by done. exact H0.
Qed.

Lemma pick_domain_scan_fields {X : Type} (g : task_ctx -> X) p mask n :
  forall l (st : state),
  (forall v t, g (set_dom_mask v t) = g t) ->
  let st' := (pick_domain_scan cfg n p mask l st).2 in
  g <$> task_ctxs st' !! tptr p = g <$> task_ctxs st !! tptr p
  /\ trace st' = trace st.
Proof.
  induction n as [|n IH]; intros l st Hg; simpl; [done|].
  destruct (cpumask_intersects_domain mask _ st); [|by apply IH].
  match goal with
  | |- context [pick_domain_scan cfg n p mask ?l1 ?st1] =>
    destruct (IH l1 st1 Hg) as [Hf Ht]
  end.
  simpl in *. rewrite Hf, Ht. split; [|done].
  match goal with
  | |- context [alter ?f (tptr p) (task_ctxs st)] =>
    pose proof (taskc_update_field g p f st) as Hu
  end.
  apply Hu. intros t. apply Hg.
Qed.

Lemma task_pick_domain_fields {X : Type} (g : task_ctx -> X) p mask (st : state) :
  (forall v t, g (set_dom_mask v t) = g t) ->
  (forall v t, g (set_preferred_dom_mask v t) = g t) ->
  let st' := (task_pick_domain kops eops cfg p mask st).2 in
  g <$> task_ctxs st' !! tptr p = g <$> task_ctxs st !! tptr p
  /\ (has_mask (tptr p) st -> trace st' = trace st).
Proof.
  intros Hg1 Hg2. unfold task_pick_domain.
  destruct ((_ <? 0) || (MAX_CPUS cfg <=? _)); [done|].
  unfold dom_rr_cur_postinc.
  match goal with
  | |- context [pick_domain_scan cfg ?n p mask ?l ?st1] =>
    destruct (pick_domain_scan_fields g p mask n l st1 Hg1) as [Hf Ht];
    destruct (pick_domain_scan cfg n p mask l st1) as [l' st']
  end.
  simpl in *. rewrite Hf, Ht.
  match goal with
  | |- context [task_set_preferred_mempolicy_dom_mask kops eops cfg p ?st1] =>
    destruct (task_set_preferred_mempolicy_dom_mask_fields g p st1 Hg2)
      as [Hf2 Ht2]
  end.
  simpl in *. rewrite Hf2. split.
  - match goal with
    | |- context [alter ?f (tptr p) (task_ctxs st)] =>
      apply (taskc_update_field g p f st)
    end.
    intros t. apply Hg1.
  - intros Hm. by rewrite Ht2.
Qed.

(** X17.  Admission places the task in a domain of its affinity.  With more
    than one domain, a valid CPU id, every domain registered, and the three
    allocations succeeding: when some domain intersects [p->cpus_ptr],
    [rusty_init_task] returns 0 without raising an error, and the task ends up
    assigned to a domain [d] whose CPUs intersect its affinity, with the
    domain's mask narrowed by the affinity as its working cpumask. *)
Theorem rusty_init_task_places p (st : state) k1 k2 k3 :
  1 < nr_doms cfg <= BPF_MAX_LOOPS ->
  nr_doms cfg <= NO_DOM_FOUND cfg ->
  (forall k, 0 <= bpf_get_smp_processor_id kops k < MAX_CPUS cfg) ->
  sdt_task_alloc kops p (kern st) = (true, k1) ->
  task_masks_update_elem kops p k1 = (0, k2) ->
  create_save_cpumask kops k2 = (0, k3) ->
  (forall d, 0 <= d < nr_doms cfg -> is_Some (dom_ctxs st !! d)) ->
  (exists d, 0 <= d < nr_doms cfg
             /\ cpumask_intersects_domain (cpus_ptr p) d st = true) ->
  let r := rusty_init_task kops eops cfg p st in
  r.1.1 = 0
  /\ exists taskc' d lbd dmask,
       0 <= d < nr_doms cfg
       /\ lb_domains st !! d = Some lbd /\ lbd_cpumask lbd = Some dmask
       /\ task_ctxs r.2 !! tptr p = Some taskc'
       /\ target_dom taskc' = d /\ domc taskc' = Some d
       /\ task_masks r.2 !! tptr p = Some (Some (Z.land dmask (cpus_ptr p)))
       /\ Z.land dmask (cpus_ptr p) <> 0
       /\ trace r.2 = trace st.
Proof.
  intros HN HNO Hcpu Ha1 Ha2 Ha3 Hdoms (d0 & Hd0 & Hint0) r. subst r.
  unfold rusty_init_task. rewrite Ha1. simpl. rewrite Ha2. simpl.
  rewrite Ha3. simpl.
  set (now := scx_bpf_now kops (kern st)).
  match goal with
  | |- context [task_pick_and_set_domain kops eops cfg p (cpus_ptr p) true ?s] =>
    set (st3 := s)
  end.
  assert (task_ctxs st3 !! tptr p = Some (task_ctx_init p now)) as Hc3
    by (subst st3; simpl; by rewrite lookup_insert_eq).
  assert (has_mask (tptr p) st3) as Hm3.
  { exists 0. subst st3. simpl. by rewrite lookup_insert_eq. }
  unfold task_pick_and_set_domain.
  destruct (Z.ltb_spec 1 (nr_doms cfg)); [|lia].
  destruct (task_pick_domain_spec p (cpus_ptr p) st3 ltac:(lia) HNO (Hcpu _))
    as (Hno & Hhit & _ & _ & Hlb4).
  destruct (task_pick_domain_frame p (cpus_ptr p) st3) as (Hc4 & Hm4 & _).
  destruct (task_pick_domain_fields (fun t => (target_dom t, domc t)) p
              (cpus_ptr p) st3 ltac:(done) ltac:(done)) as [Hf4 Ht4].
  destruct (task_pick_domain_globals p (cpus_ptr p) st3) as (Hd4 & _).
  destruct (task_pick_domain kops eops cfg p (cpus_ptr p) st3) as [d st4].
  simpl in *.
  assert (d <> NO_DOM_FOUND cfg) as Hd.
  { intros Heq. pose proof (proj1 Hno Heq d0 Hd0) as Hmiss.
    change (cpumask_intersects_domain (cpus_ptr p) d0 st = false) in Hmiss.
    by rewrite Hmiss in Hint0. }
  destruct (Hhit Hd) as [Hrange Hint]. clear Hno Hhit.
  unfold cpumask_intersects_domain, lb_domain_get in Hint.
  destruct (lb_domains st3 !! d) as [lbd|] eqn:Hlbd; [|done].
  destruct (lbd_cpumask lbd) as [dmask|] eqn:Hdmask; [|done].
  rewrite intersects_comm in Hint.
  destruct (proj2 Hm4 Hm3) as [m4 Hmask4].
  rewrite Hc3 in Hf4. simpl in Hf4.
  destruct (task_ctxs st4 !! tptr p) as [taskc4|] eqn:Htaskc4; [|done].
  injection Hf4 as Htd4 Hdomc4.
  destruct (task_set_domain_success p d true st4 taskc4 m4 lbd dmask)
    as (Hok & _ & Hctx & Hmask & Hne & _ & _ & _ & _ & _ & _ & Htr);
    try done.
  { rewrite Htd4, Hd4. apply Hdoms. lia. }
  { rewrite Hd4. by apply Hdoms. }
  { by rewrite Hlb4. }
  destruct (task_set_domain_kept p d true st4) as [Hp _].
  destruct (task_set_domain kops eops cfg p d true st4) as [[ok p5] st5].
  simpl in *. subst ok. split; [done|].
  eexists _, d, lbd, dmask.
  split; [done|]. split; [done|]. split; [done|]. split; [exact Hctx|].
  split_and!; try done.
  rewrite Htr. by apply Ht4.
Qed.


(** ** rusty_runnable, rusty_quiescent: the runnable flag *)

(** X19.  The runnable flag follows the hooks.  After [rusty_runnable] an
    admitted task is flagged runnable, [is_kworker] says whether it is a
    workqueue worker, and the load of its domain is adjusted for a task that
    became runnable; in vtime mode its [sum_runtime] restarts at zero, also
    when the task is its own waker.  After [rusty_quiescent] a task with a
    domain is flagged not runnable and the load is adjusted accordingly; a task
    without a domain is left exactly as it was.  The assignment to a domain
    and the weight are never touched. *)
Theorem runnable_flag_follows p flags (st : state) taskc :
  task_ctxs st !! tptr p = Some taskc ->
  let now := scx_bpf_now kops (kern st) in
  (let st' := rusty_runnable kops eops cfg p flags st in
   exists taskc',
     task_ctxs st' !! tptr p = Some taskc'
     /\ runnable taskc' = true
     /\ is_kworker taskc' = flag_set (p_flags p) PF_WQ_WORKER
     /\ (fifo_sched cfg = false -> sum_runtime taskc' = 0)
     /\ target_dom taskc' = target_dom taskc /\ domc taskc' = domc taskc
     /\ weight taskc' = weight taskc
     /\ acct st' = dom_dcycle_adj eops (domc taskc) (weight taskc) now true (acct st)
     /\ trace st' = trace st)
  /\ (let st' := rusty_quiescent kops eops cfg p flags st in
      match domc taskc with
      | None => st' = st
      | Some d =>
        exists taskc',
          task_ctxs st' !! tptr p = Some taskc'
          /\ runnable taskc' = false
          /\ target_dom taskc' = target_dom taskc /\ domc taskc' = domc taskc
          /\ weight taskc' = weight taskc
          /\ acct st' = dom_dcycle_adj eops (Some d) (weight taskc) now false (acct st)
          /\ trace st' = trace st
      end).
Proof.
  intros Htaskc now. split.
  - unfold rusty_runnable, lookup_task_ctx, try_lookup_task_ctx.
    rewrite Htaskc. fold now.
    set (t1 := task_load_adj eops _ now true).
    destruct (fifo_sched cfg).
    { exists t1. simpl. rewrite lookup_insert_eq. by split_and!. }
    set (st2 := taskc_update p (set_sum_runtime 0) _).
    assert (task_ctxs st2 !! tptr p = Some (set_sum_runtime 0 t1)) as H2.
    { subst st2. rewrite taskc_update_lookup. simpl. by rewrite lookup_insert_eq. }
    set (waker := bpf_get_current_task_btf kops (kern st2)).
    destruct (task_ctxs st2 !! tptr waker) as [waker_ctx|] eqn:Hw.
    + destruct (decide (tptr waker = tptr p)) as [Heq|Hne].
      * eexists. split.
        { rewrite <- Heq in H2 |- *. rewrite taskc_update_lookup, H2.
          reflexivity. }
        simpl. by split_and!.
      * eexists. split.
        { unfold taskc_update. simpl. rewrite lookup_alter_ne by done.
          exact H2. }
        simpl. by split_and!.
    + exists (set_sum_runtime 0 t1). by split_and!.
  - unfold rusty_quiescent, lookup_task_ctx, try_lookup_task_ctx.
    rewrite Htaskc. fold now.
    destruct (domc taskc) as [d|] eqn:Hdomc; [|done].
    set (t1 := task_load_adj eops taskc now false).
    destruct (fifo_sched cfg).
    + exists t1. simpl. rewrite lookup_insert_eq. by split_and!.
    + eexists. rewrite taskc_update_lookup. simpl. rewrite lookup_insert_eq.
      simpl. by split_and!.
Qed.


(** ** rusty_select_cpu: the statistics *)

Lemma direct_counted_after d (st1 st2 st3 : state) :
  stats st2 = stats st1 -> direct_counted d st2 st3 -> direct_counted d st1 st3.
Proof.
  intros Hs. unfold direct_counted, counted_once. rewrite Hs.
  by destruct d.
Qed.

Lemma direct_counted_add idx (st1 st2 : state) :
  stats st2 = stats st1 -> direct_counted true st1 (stat_add idx 1 st2).
Proof.
  intros Hs. exists idx. intros i. simpl. by rewrite Hs.
Qed.

Lemma test_and_clear_cpu_idle_stats cpu (st : state) :
  stats (test_and_clear_cpu_idle kops cpu st).2 = stats st.
Proof.
  unfold test_and_clear_cpu_idle.
  by destruct (scx_bpf_test_and_clear_cpu_idle kops cpu (kern st)).
Qed.

Lemma pick_idle_cpu_stats mask flags (st : state) :
  stats (pick_idle_cpu kops mask flags st).2 = stats st.
Proof.
  unfold pick_idle_cpu.
  by destruct (scx_bpf_pick_idle_cpu kops mask flags (kern st)).
Qed.

Lemma or_else_counted (st : state) a b :
  direct_counted (is_direct a.1) st a.2 ->
  (forall st1 : state, direct_counted (is_direct (b st1).1) st1 (b st1).2) ->
  direct_counted (is_direct (or_else a b).1) st (or_else a b).2.
Proof.
  intros Ha Hb. destruct a as [[c| |] st1]; simpl in *; try done.
  eapply direct_counted_after; [exact Ha|apply Hb].
Qed.

Lemma select_cpu_prev_counted prev_cpu prev_domestic (st : state) :
  let r := select_cpu_prev kops prev_cpu prev_domestic st in
  direct_counted (is_direct r.1) st r.2.
Proof.
  unfold select_cpu_prev.
  assert (forall stat,
            let r := (let '(was_idle, st0) := test_and_clear_cpu_idle kops prev_cpu st in
                      if was_idle then (Direct prev_cpu, stat_add stat 1 st0)
                      else (Next, st0)) in
            direct_counted (is_direct r.1) st r.2) as Hclaim.
  { intros stat.
    pose proof (test_and_clear_cpu_idle_stats prev_cpu st) as Hs.
    destruct (test_and_clear_cpu_idle kops prev_cpu st) as [[] st0]; simpl in *;
      [by apply direct_counted_add|done]. }
  destruct prev_domestic.
  - destruct (bpf_cpumask_test_cpu prev_cpu
                (scx_bpf_get_idle_smtmask kops (kern st)));
      [apply Hclaim|done].
  - destruct (direct_greedy_cpumask st) as [dgm|]; [|done].
    destruct (bpf_cpumask_test_cpu prev_cpu dgm); simpl; [|done].
    destruct (bpf_cpumask_test_cpu prev_cpu
                (scx_bpf_get_idle_smtmask kops (kern st)));
      [apply Hclaim|done].
Qed.

Lemma select_cpu_domestic_counted p_cpumask prev_cpu prev_domestic
    has_idle_cores (st : state) :
  let r := select_cpu_domestic kops p_cpumask prev_cpu prev_domestic
             has_idle_cores st in
  direct_counted (is_direct r.1) st r.2.
Proof.
  unfold select_cpu_domestic.
  assert (exists core (st1 : state),
            (if has_idle_cores
             then pick_idle_cpu kops p_cpumask SCX_PICK_IDLE_CORE st
             else (-1, st)) = (core, st1)
            /\ stats st1 = stats st) as (core & st1 & -> & H1).
  { destruct has_idle_cores; [|by exists (-1), st].
    pose proof (pick_idle_cpu_stats p_cpumask SCX_PICK_IDLE_CORE st) as H.
    destruct (pick_idle_cpu kops p_cpumask SCX_PICK_IDLE_CORE st) as [c s].
    by exists c, s. }
  destruct (has_idle_cores && (0 <=? core)); simpl.
  { by apply direct_counted_add. }
  assert (exists was_idle (st2 : state),
            (if prev_domestic then test_and_clear_cpu_idle kops prev_cpu st1
             else (false, st1)) = (was_idle, st2)
            /\ stats st2 = stats st) as (was_idle & st2 & -> & H2).
  { destruct prev_domestic; [|by exists false, st1].
    pose proof (test_and_clear_cpu_idle_stats prev_cpu st1) as H.
    destruct (test_and_clear_cpu_idle kops prev_cpu st1) as [w s].
    exists w, s. split; [done|]. simpl in H. congruence. }
  destruct was_idle; simpl.
  { by apply direct_counted_add. }
  pose proof (pick_idle_cpu_stats p_cpumask 0 st2) as H3.
  destruct (pick_idle_cpu kops p_cpumask 0 st2) as [cpu st3]. simpl in *.
  destruct (0 <=? cpu); simpl.
  - apply direct_counted_add. congruence.
  - congruence.
Qed.

Lemma greedy_pick_counted mask flags stat (st : state) :
  let r := greedy_pick kops mask flags stat st in
  direct_counted (is_direct r.1) st r.2.
Proof.
  unfold greedy_pick. destruct mask as [m|]; [|done].
  pose proof (pick_idle_cpu_stats m flags st) as H.
  destruct (pick_idle_cpu kops m flags st) as [cpu st1]. simpl in *.
  destruct (0 <=? cpu); simpl; [by apply direct_counted_add|done].
Qed.

Lemma select_cpu_greedy_counted taskc prev_cpu has_idle_cores (st : state) :
  let r := select_cpu_greedy kops cfg taskc prev_cpu has_idle_cores st in
  direct_counted (is_direct r.1) st r.2.
Proof.
  unfold select_cpu_greedy.
  destruct (direct_greedy_cpumask st) as [dgm|]; [|done].
  destruct (all_cpus taskc && negb (bpf_cpumask_empty dgm)); [|done].
  assert (exists found domc (st1 : state),
            (if is_offline_cpu cfg prev_cpu then (true, None, st)
             else
               let '(domc, st) := lookup_dom_ctx kops (cpu_to_dom_id cfg prev_cpu) st in
               (if domc is Some _ then true else false, domc, st))
            = (found, domc, st1)
            /\ stats st1 = stats st) as (found & domc & st1 & -> & H1).
  { destruct (is_offline_cpu cfg prev_cpu); [by eexists _, _, _|].
    unfold lookup_dom_ctx. destruct (try_lookup_dom_ctx _ st); by eexists _, _, _. }
  destruct found; [|exact H1].
  change (negb true) with false. cbv beta iota.
  destruct (lb_domain_get (domc_id_read domc st1) st1) as [lbd|]; [|exact H1].
  match goal with
  | |- context [if negb (direct_greedy_numa cfg) && ?b then ?x else ?y] =>
    assert (exists tmp (st2 : state),
              (if negb (direct_greedy_numa cfg) && b then x else y) = (tmp, st2)
              /\ stats st2 = stats st) as (tmp & st2 & -> & H2)
  end.
  { destruct (negb (direct_greedy_numa cfg) && _);
      [|by eexists _, _].
    destruct (lbd_node_cpumask lbd) as [node_mask|]; [|by eexists _, _].
    unfold scx_percpu_bpfmask.
    destruct (percpu_bpfmask st1 !! _) as [[m|]|]; by eexists _, _. }
  destruct tmp as [tmp|]; [|exact H2].
  eapply direct_counted_after; [exact H2|].
  apply or_else_counted.
  - destruct has_idle_cores; [|done].
    apply or_else_counted; [apply greedy_pick_counted|].
    intros st3. apply greedy_pick_counted.
  - intros st3. apply or_else_counted; [apply greedy_pick_counted|].
    intros st4. apply greedy_pick_counted.
Qed.

Lemma try_sync_wakeup_counted p taskc prev_cpu (st : state) :
  let r := try_sync_wakeup kops cfg p taskc prev_cpu st in
  direct_counted (0 <=? r.1) st r.2.
Proof.
  unfold try_sync_wakeup, lookup_pcpu_ctx.
  destruct ((0 <=? _) && (_ <? MAX_CPUS cfg)) eqn:Hcpu; simpl; [|done].
  destruct (lb_domain_get _ st) as [lbd|]; [|done].
  destruct (lbd_cpumask lbd) as [d_cpumask|]; [|done].
  assert (exists prev_idle (st1 : state),
            (if bpf_cpumask_test_cpu prev_cpu d_cpumask
             then test_and_clear_cpu_idle kops prev_cpu st else (false, st))
            = (prev_idle, st1)
            /\ stats st1 = stats st
            /\ (prev_idle = true -> 0 <= prev_cpu))
    as (prev_idle & st1 & -> & H1 & Hpos).
  { destruct (bpf_cpumask_test_cpu prev_cpu d_cpumask) eqn:Hbit.
    - pose proof (test_and_clear_cpu_idle_stats prev_cpu st) as H.
      destruct (test_and_clear_cpu_idle kops prev_cpu st) as [w s].
      exists w, s. split_and!; try done. intros _.
      destruct (Z.leb_spec 0 prev_cpu); [done|].
      unfold bpf_cpumask_test_cpu in Hbit.
      by rewrite Z.testbit_neg_r in Hbit by lia.
    - by exists false, st. }
  destruct prev_idle; simpl.
  { destruct (Z.leb_spec 0 prev_cpu); [|by specialize (Hpos eq_refl); lia].
    by apply direct_counted_add. }
  destruct (_ && _ && _ && _); [|done].
  unfold dsq_nr_queued. simpl.
  apply andb_true_iff in Hcpu as [Hcpu _].
  destruct (_ =? 0); simpl; [|done].
  rewrite Hcpu. by apply direct_counted_add.
Qed.

Lemma lookup_task_ctx_mask_stats p (st : state) :
  stats (lookup_task_ctx_mask kops p st).2 = stats st.
Proof.
  unfold lookup_task_ctx_mask, lookup_task_ctx, try_lookup_task_ctx,
    lookup_task_bpfmask.
  destruct (task_ctxs st !! tptr p); simpl;
    by destruct (task_masks st !! tptr p) as [[|]|].
Qed.

(** X20.  The statistics of [rusty_select_cpu] count the direct dispatches:
    a selection either ends in a direct dispatch, and then exactly one
    statistic is incremented by one and the task is flagged for local
    dispatch, or it does not, and then no statistic and no task context
    changes. *)
Theorem rusty_select_cpu_counts p prev_cpu wake_flags (st : state) :
  let r := rusty_select_cpu kops cfg p prev_cpu wake_flags st in
  ((exists idx, counted_once idx st r.2)
   /\ forall taskc', task_ctxs r.2 !! tptr p = Some taskc' ->
                     dispatch_local taskc' = true)
  \/ (stats r.2 = stats st /\ task_ctxs r.2 = task_ctxs st).
Proof.
  intros r. subst r. unfold rusty_select_cpu.
  destruct (refresh_tune_params_frame st) as (Hc & Hm & Hs & _ & Ht).
  set (st0 := refresh_tune_params cfg st) in *.
  pose proof (lookup_task_ctx_mask_stats p st0) as Hs1.
  destruct (lookup_task_ctx_mask_spec p st0) as (st1 & Hlk & (Hc1 & _) & _).
  rewrite Hlk in *. simpl in Hs1.
  rewrite Hs in Hs1. rewrite Hc in Hc1. clear Hlk.
  assert (forall cpu (st2 : state),
            (exists idx, counted_once idx st st2) ->
            (exists idx, counted_once idx st (select_cpu_direct p cpu st2).2)
            /\ forall taskc',
                 task_ctxs (select_cpu_direct p cpu st2).2 !! tptr p = Some taskc' ->
                 dispatch_local taskc' = true) as Hdirect.
  { intros cpu st2 Hcount. split; [done|]. intros taskc'.
    unfold select_cpu_direct. simpl. rewrite lookup_alter_eq.
    destruct (task_ctxs st2 !! tptr p); simpl; [|done]. by intros [= <-]. }
  destruct (task_ctxs st0 !! tptr p) as [taskc|]; [|by right].
  destruct (mjoin (task_masks st0 !! tptr p)) as [p_cpumask|]; [|by right].
  destruct (nr_cpus_allowed p =? 1).
  { left. apply Hdirect.
    destruct (_ && _); eexists; intros i; simpl; by rewrite Hs1. }
  assert (exists sync (st2 : state),
            (if flag_set wake_flags SCX_WAKE_SYNC
             then try_sync_wakeup kops cfg p taskc prev_cpu st1 else (-1, st1))
            = (sync, st2)
            /\ task_ctxs st2 = task_ctxs st
            /\ direct_counted
                 (flag_set wake_flags SCX_WAKE_SYNC && (0 <=? sync)) st st2)
    as (sync & st2 & -> & Hc2 & H2).
  { destruct (flag_set wake_flags SCX_WAKE_SYNC).
    - pose proof (try_sync_wakeup_counted p taskc prev_cpu st1) as Hcnt.
      pose proof (try_sync_wakeup_step p taskc prev_cpu st1) as Hstep.
      destruct (try_sync_wakeup kops cfg p taskc prev_cpu st1) as [s st2].
      exists s, st2. simpl in *. split_and!; [done| |].
      + destruct Hstep as [(? & _)|(? & _)]; congruence.
      + by eapply direct_counted_after.
    - by exists (-1), st1. }
  destruct (flag_set wake_flags SCX_WAKE_SYNC && (0 <=? sync)).
  { left. by apply Hdirect. }
  simpl in H2.
  set (has_idle_cores := negb _).
  set (prev_domestic := bpf_cpumask_test_cpu prev_cpu p_cpumask).
  match goal with
  | |- context [or_else ?a ?b] =>
    assert (search_step (pick_cpu (or_else a b).1) st2 (or_else a b).2) as H3;
    [|assert (direct_counted (is_direct (or_else a b).1) st2 (or_else a b).2)
        as H3';
      [|destruct (or_else a b) as [pk st3]]]
  end.
  { apply or_else_step; [apply select_cpu_prev_step|].
    intros st3. apply or_else_step; [apply select_cpu_domestic_step|].
    intros st4. apply select_cpu_greedy_step. }
  { apply or_else_counted; [apply select_cpu_prev_counted|].
    intros st3. apply or_else_counted; [apply select_cpu_domestic_counted|].
    intros st4. apply select_cpu_greedy_counted. }
  simpl in H3, H3'. destruct H3 as (Hc3 & _).
  pose proof (direct_counted_after _ _ _ _ H2 H3') as H23.
  destruct pk as [cpu| |]; simpl in H23.
  - left. by apply Hdirect.
  - right. simpl. split; [done|congruence].
  - right. unfold select_cpu_queue. destruct prev_domestic;
      [simpl; split; [done|congruence]|].
    unfold any_distribute.
    destruct (bpf_cpumask_any_distribute kops p_cpumask (kern st3)) as [cpu k].
    simpl. split; [done|congruence].
Qed.

End RustyFacts.

(** * Per-CPU initialisation and task exit *)

Section RustyLifecycleFacts.

Context {K V A : Type}.
Variable kops : kernel_ops K.
Variable eops : engine_ops K V A.
Variable cfg : config.
Variable task_masks_delete_elem : task_struct -> K -> Z * K.

Local Abbreviation state := (sched K V A).

(** The scan stops with 0 at the first domain of [doms] that holds [cpu];
    every domain before it has a mask without [cpu]. *)
Lemma initialize_cpu_scan_found cpu doms : forall (st st' : state),
  initialize_cpu_scan kops cpu doms st = (0, st') ->
  exists pre d post,
    doms = pre ++ d :: post
    /\ dom_cpu_bit cpu d st = Some true
    /\ (forall i, i ∈ pre -> dom_cpu_bit cpu i st = Some false)
    /\ st' = pcpu_set_dom_id cpu d st.
Proof.
  induction doms as [|i doms IH]; intros st st' Hrun; simpl in Hrun.
  - by inversion Hrun.
  - unfold lb_domain_get in Hrun.
    destruct (lb_domains st !! i) as [lbd|] eqn:Hlbd; [|by inversion Hrun].
    destruct (lbd_cpumask lbd) as [mask|] eqn:Hmask; [|by inversion Hrun].
    destruct (bpf_cpumask_test_cpu cpu mask) eqn:Hbit.
    + inversion Hrun; subst. exists [], i, doms. split_and!; try done.
      * unfold dom_cpu_bit. rewrite Hlbd. simpl. by rewrite Hmask, <- Hbit.
      * intros j Hj. by apply elem_of_nil in Hj.
    + destruct (IH _ _ Hrun) as (pre & d & post & -> & Hd & Hpre & ->).
      exists (i :: pre), d, post. split_and!; try done.
      intros j Hj. apply elem_of_cons in Hj as [->|Hj]; [|by apply Hpre].
      unfold dom_cpu_bit. rewrite Hlbd. simpl. by rewrite Hmask, <- Hbit.
Qed.

(** The scan returns 0 or [- ENOENT]; with [- ENOENT] only an error may have
    been raised. *)
Lemma initialize_cpu_scan_result cpu doms : forall (st : state),
  let r := initialize_cpu_scan kops cpu doms st in
  r.1 = 0 \/ (r.1 = - ENOENT /\ (r.2 = st \/ r.2 = error kops st)).
Proof.
  induction doms as [|i doms IH]; intros st; simpl; [by right; eauto|].
  destruct (lb_domain_get i st) as [lbd|]; [|by right; eauto].
  destruct (lbd_cpumask lbd) as [mask|]; [|by right; eauto].
  destruct (bpf_cpumask_test_cpu cpu mask); [by left|apply IH].
Qed.

(** When every domain of [doms] has a mask and one of them holds [cpu], the
    scan returns 0. *)
Lemma initialize_cpu_scan_complete cpu doms : forall (st : state),
  (forall i, i ∈ doms -> is_Some (dom_cpu_bit cpu i st)) ->
  (exists d, d ∈ doms /\ dom_cpu_bit cpu d st = Some true) ->
  (initialize_cpu_scan kops cpu doms st).1 = 0.
Proof.
  induction doms as [|i doms IH]; intros st Hall (d & Hd & Hbit); simpl.
  - by apply elem_of_nil in Hd.
  - destruct (Hall i) as [b Hb]; [apply elem_of_cons; by left|].
    unfold dom_cpu_bit in Hb. unfold lb_domain_get.
    destruct (lb_domains st !! i) as [lbd|] eqn:Hlbd; [|done]. simpl in Hb.
    destruct (lbd_cpumask lbd) as [mask|] eqn:Hmask; [|done]. simpl in Hb.
    destruct (bpf_cpumask_test_cpu cpu mask) eqn:Hcpu; [done|].
    apply IH.
    + intros j Hj. apply Hall. apply elem_of_cons. by right.
    + apply elem_of_cons in Hd as [->|Hd]; [|by exists d].
      unfold dom_cpu_bit in Hbit. rewrite Hlbd in Hbit. simpl in Hbit.
      rewrite Hmask in Hbit. simpl in Hbit. congruence.
Qed.

(** X6.  [initialize_cpu], for a number of domains within the loop bound:
    the result is 0 or [- ENOENT].  With 0 the CPU's context holds the lowest
    domain whose mask holds the CPU, every lower domain having a mask without
    it, and the round-robin cursor starts at the CPU's own id.  When the CPU id
    is valid, every domain has a mask and one of them holds the CPU, the result
    is 0.  The scheduling data and the contexts of the other CPUs are left
    alone. *)
Theorem initialize_cpu_first_domain (cpu : Z) (st : state) :
  0 <= nr_doms cfg <= BPF_MAX_LOOPS ->
  let r := initialize_cpu kops cfg cpu st in
  (r.1 = 0 \/ r.1 = - ENOENT)
  /\ (r.1 = 0 ->
      exists d, 0 <= d < nr_doms cfg
        /\ dom_cpu_bit cpu d st = Some true
        /\ (forall i, 0 <= i < d -> dom_cpu_bit cpu i st = Some false)
        /\ pcpu_ctx r.2 !! cpu = Some {| dom_rr_cur := u32 cpu; dom_id := d |}
        /\ trace r.2 = trace st)
  /\ (0 <= cpu < MAX_CPUS cfg ->
      (forall i, 0 <= i < nr_doms cfg -> is_Some (dom_cpu_bit cpu i st)) ->
      (exists d, 0 <= d < nr_doms cfg /\ dom_cpu_bit cpu d st = Some true) ->
      r.1 = 0)
  /\ same_sched st r.2
  /\ (forall c, c <> cpu -> pcpu_ctx r.2 !! c = pcpu_ctx st !! c).
Proof.
  intros Hnr r. subst r. unfold initialize_cpu, lookup_pcpu_ctx.
  assert (bpf_iter_num 0 (s32 (nr_doms cfg)) = seqZ 0 (nr_doms cfg)) as ->.
  { unfold BPF_MAX_LOOPS in Hnr.
    assert (s32 (nr_doms cfg) = nr_doms cfg) as ->.
    { unfold s32. rewrite Z.mod_small by lia. lia. }
    unfold bpf_iter_num, BPF_MAX_LOOPS.
    destruct (Z.leb_spec 0 (nr_doms cfg)); [|lia].
    destruct (Z.leb_spec (nr_doms cfg - 0) (8 * 1024 * 1024)); [|lia].
    simpl. by rewrite Z.sub_0_r. }
  destruct ((0 <=? cpu) && (cpu <? MAX_CPUS cfg)) eqn:Hcpu; simpl.
  2:{ split_and!; try done; [by right|].
      intros Hc. exfalso.
      apply andb_false_iff in Hcpu as [Hcpu|Hcpu]; lia. }
  set (st1 := pcpu_set_dom_rr_cur cpu (u32 cpu) st).
  assert (forall d, dom_cpu_bit cpu d st1 = dom_cpu_bit cpu d st) as Hbits by done.
  pose proof (initialize_cpu_scan_result cpu (seqZ 0 (nr_doms cfg)) st1) as Hres.
  destruct (initialize_cpu_scan kops cpu (seqZ 0 (nr_doms cfg)) st1)
    as [ret st2] eqn:Hrun.
  simpl in Hres |- *.
  assert (ret = 0 ->
          exists d, 0 <= d < nr_doms cfg
            /\ dom_cpu_bit cpu d st = Some true
            /\ (forall i, 0 <= i < d -> dom_cpu_bit cpu i st = Some false)
            /\ st2 = pcpu_set_dom_id cpu d st1) as Hfound.
  { intros ->.
    destruct (initialize_cpu_scan_found _ _ _ _ Hrun)
      as (pre & d & post & Hsplit & Hd & Hpre & ->).
    assert (length pre = Z.to_nat d /\ 0 <= d < nr_doms cfg) as [Hlen Hrange].
    { assert (seqZ 0 (nr_doms cfg) !! length pre = Some d) as Hlook.
      { rewrite Hsplit. by apply list_lookup_middle. }
      apply lookup_seqZ in Hlook. lia. }
    exists d. split; [lia|]. split; [by rewrite <- Hbits|]. split; [|done].
    intros i Hi. rewrite <- Hbits. apply Hpre.
    assert (seqZ 0 (nr_doms cfg) !! Z.to_nat i = Some i) as Hlook.
    { apply lookup_seqZ. lia. }
    rewrite Hsplit, lookup_app_l in Hlook by lia.
    by apply list_elem_of_lookup_2 in Hlook. }
  split_and!.
  - destruct Hres as [?|[? _]]; eauto.
  - intros Hret. destruct (Hfound Hret) as (d & Hd & Hbit & Hlow & ->).
    exists d. split_and!; try done; try lia.
    unfold pcpu_set_dom_id, pcpu_ctx_read, st1, pcpu_set_dom_rr_cur. simpl.
    by rewrite !lookup_insert_eq.
  - intros _ Hall (d & Hd & Hbit).
    pose proof (initialize_cpu_scan_complete cpu (seqZ 0 (nr_doms cfg)) st1) as Hc.
    rewrite Hrun in Hc. apply Hc.
    + intros i Hi. apply elem_of_seqZ in Hi. rewrite Hbits. apply Hall. lia.
    + exists d. split; [apply elem_of_seqZ; lia|by rewrite Hbits].
  - destruct Hres as [Hret|[_ [->| ->]]]; [|done|done].
    by destruct (Hfound Hret) as (d & _ & _ & _ & ->).
  - intros c Hc.
    destruct Hres as [Hret|[_ [->| ->]]].
    + destruct (Hfound Hret) as (d & _ & _ & _ & ->). simpl.
      by rewrite !lookup_insert_ne.
    + simpl. by rewrite lookup_insert_ne.
    + simpl. by rewrite lookup_insert_ne.
Qed.

(** What [rusty_init_task] does to the task stores: the entries of the other
    tasks stay; with result 0 the task has a context and a cpumask; with an
    error the task has no context, unless it had one and the allocation itself
    failed, and nothing was recorded or accounted. *)
Lemma rusty_init_task_stores p (st : state) :
  let r := rusty_init_task kops eops cfg p st in
  tptr r.1.2 = tptr p
  /\ (forall q, q <> tptr p ->
        task_ctxs r.2 !! q = task_ctxs st !! q
        /\ task_masks r.2 !! q = task_masks st !! q)
  /\ (r.1.1 = 0 -> has_ctx (tptr p) r.2 /\ has_mask (tptr p) r.2)
  /\ (r.1.1 <> 0 ->
      (~ has_ctx (tptr p) st -> ~ has_ctx (tptr p) r.2)
      /\ trace r.2 = trace st /\ pcpu_ctx r.2 = pcpu_ctx st
      /\ dom_ctxs r.2 = dom_ctxs st /\ vt r.2 = vt st /\ acct r.2 = acct st
      /\ stats r.2 = stats st).
Proof.
  unfold rusty_init_task.
  destruct (sdt_task_alloc kops p (kern st)) as [allocated k1]. simpl.
  destruct allocated; simpl.
  2:{ split_and!; try done. }
  destruct (task_masks_update_elem kops p k1) as [ret1 k2]. simpl.
  destruct (Z.eqb_spec ret1 0) as [->|Hret1]; simpl.
  2:{ split_and!; try done.
      - intros q Hq. by rewrite lookup_delete_ne, lookup_insert_ne.
      - intros _. split_and!; try done. intros _. unfold has_ctx. simpl.
        rewrite lookup_delete_eq. by intros []. }
  destruct (create_save_cpumask kops k2) as [ret2 k3]. simpl.
  destruct (Z.eqb_spec ret2 0) as [->|Hret2]; simpl.
  2:{ split_and!; try done.
      - intros q Hq. by rewrite !lookup_delete_ne, !lookup_insert_ne.
      - intros _. split_and!; try done. intros _. unfold has_ctx. simpl.
        rewrite lookup_delete_eq. by intros []. }
  match goal with
  | |- context [task_pick_and_set_domain kops eops cfg p ?m true ?st1] =>
    destruct (task_pick_and_set_domain_frame kops eops cfg p m true st1)
      as (Hp & Hc & Hm & Ho);
    destruct (task_pick_and_set_domain kops eops cfg p m true st1) as [p' st']
  end.
  simpl in *. split_and!; try done.
  - intros q Hq. destruct (Ho q Hq) as [-> ->]. simpl.
    by rewrite !lookup_insert_ne.
  - intros _. split.
    + apply Hc. unfold has_ctx. simpl. by rewrite lookup_insert_eq.
    + apply Hm. unfold has_mask. simpl. rewrite lookup_insert_eq. by eexists.
Qed.

(** X7.  [rusty_init_task] ends with 0 exactly when the context, the mask
    entry and the mask were all allocated; the task then has a context and a
    working cpumask.  With an error nothing of a task that had no context is
    left behind, no kernel call is recorded and nothing is accounted.  The
    entries of the other tasks are never touched. *)
Theorem rusty_init_task_result p (st : state) :
  let r := rusty_init_task kops eops cfg p st in
  let '(allocated, k1) := sdt_task_alloc kops p (kern st) in
  let '(ret1, k2) := task_masks_update_elem kops p k1 in
  let '(ret2, _) := create_save_cpumask kops k2 in
  (r.1.1 = 0 <-> allocated = true /\ ret1 = 0 /\ ret2 = 0)
  /\ (r.1.1 = 0 -> has_ctx (tptr p) r.2 /\ has_mask (tptr p) r.2)
  /\ (r.1.1 <> 0 ->
      (~ has_ctx (tptr p) st -> ~ has_ctx (tptr p) r.2)
      /\ trace r.2 = trace st /\ acct r.2 = acct st /\ vt r.2 = vt st)
  /\ (forall q, q <> tptr p ->
        task_ctxs r.2 !! q = task_ctxs st !! q
        /\ task_masks r.2 !! q = task_masks st !! q).
Proof.
  intros r.
  destruct (rusty_init_task_stores p st) as (_ & Ho & Hok & Herr).
  fold r in Ho, Hok, Herr.
  assert (let '(allocated, k1) := sdt_task_alloc kops p (kern st) in
          let '(ret1, k2) := task_masks_update_elem kops p k1 in
          let '(ret2, _) := create_save_cpumask kops k2 in
          r.1.1 = 0 <-> allocated = true /\ ret1 = 0 /\ ret2 = 0) as Hiff.
  { subst r. unfold rusty_init_task.
    destruct (sdt_task_alloc kops p (kern st)) as [allocated k1]. simpl.
    destruct (task_masks_update_elem kops p k1) as [ret1 k2] eqn:H1.
    destruct (create_save_cpumask kops k2) as [ret2 k3] eqn:H2.
    destruct allocated; simpl; [|split; [done|by intros []]].
    rewrite ?H1. simpl.
    destruct (Z.eqb_spec ret1 0) as [->|Hret1]; simpl;
      [|split; [done|by intros (_ & ? & _)]].
    rewrite ?H2. simpl.
    destruct (Z.eqb_spec ret2 0) as [->|Hret2]; simpl;
      [|split; [done|by intros (_ & _ & ?)]].
    by destruct (task_pick_and_set_domain _ _ _ _ _ _ _). }
  destruct (sdt_task_alloc kops p (kern st)) as [allocated k1].
  destruct (task_masks_update_elem kops p k1) as [ret1 k2].
  destruct (create_save_cpumask kops k2) as [ret2 k3].
  split_and!; try done.
  intros Hne. destruct (Herr Hne) as (? & ? & _ & _ & ? & ? & _). done.
Qed.

(** X8.  Admission followed by exit: the context store is the original one
    without the task, whatever the outcome of the admission.  When the kernel
    deletes the mask entry, the same holds of the mask store and nothing is
    counted; when it refuses, the entry is left behind and the failure is
    counted once. *)
Theorem rusty_init_exit_round_trip p (st : state) :
  let r := rusty_init_task kops eops cfg p st in
  let st' := rusty_exit_task task_masks_delete_elem r.1.2 r.2 in
  task_ctxs st' = delete (tptr p) (task_ctxs st)
  /\ trace st' = trace r.2
  /\ if (task_masks_delete_elem r.1.2 (kern r.2)).1 =? 0
     then task_masks st' = delete (tptr p) (task_masks st)
          /\ stats st' = stats r.2
     else task_masks st' = task_masks r.2
          /\ stats st' RUSTY_STAT_TASK_GET_ERR
             = u64 (stats r.2 RUSTY_STAT_TASK_GET_ERR + 1).
Proof.
  intros r st'.
  destruct (rusty_init_task_stores p st) as (Hp & Ho & _).
  fold r in Hp, Ho. subst st'. unfold rusty_exit_task.
  destruct r as [[ret p'] st1]. simpl in *.
  assert (delete (tptr p') (task_ctxs st1) = delete (tptr p) (task_ctxs st))
    as Hctx.
  { rewrite Hp. apply map_eq. intros q.
    destruct (decide (q = tptr p)) as [->|Hq].
    - by rewrite !lookup_delete_eq.
    - rewrite !lookup_delete_ne by done. by apply Ho. }
  destruct (task_masks_delete_elem p' (kern st1)) as [ret' k]. simpl.
  destruct (Z.eqb_spec ret' 0) as [->|Hret]; simpl.
  - split_and!; try done.
    rewrite Hp. apply map_eq. intros q.
    destruct (decide (q = tptr p)) as [->|Hq].
    + by rewrite !lookup_delete_eq.
    + rewrite !lookup_delete_ne by done. by apply Ho.
  - split_and!; done.
Qed.

End RustyLifecycleFacts.

(** * Concrete runs on the reference platform *)

Module Runs.

Import Ref.

(** C1 on the reference platform: task 7 is in domain 0, its affinity is
    CPUs 0-1, and domain 1 (CPUs 2-3) is requested. *)
Lemma task_set_domain_disjoint_witness :
  let '(ok, p', st') :=
    task_set_domain kops eops2 (config2 2 false 2) (task7 3 2) 1 false
      (state2 (taskc0 0 0 false) 3 kernel0) in
  ok = false /\ p' = task7 3 2
  /\ task_ctxs st' = task_ctxs (state2 (taskc0 0 0 false) 3 kernel0)
  /\ task_masks st' = task_masks (state2 (taskc0 0 0 false) 3 kernel0)
  /\ vt st' = tt /\ acct st' = tt.
Proof.
  pose proof (task_set_domain_disjoint kops eops2 (config2 2 false 2)
                (task7 3 2) 1 false (state2 (taskc0 0 0 false) 3 kernel0)) as H.
  destruct (task_set_domain kops eops2 (config2 2 false 2) (task7 3 2) 1 false
              (state2 (taskc0 0 0 false) 3 kernel0)) as [[ok p'] st'].
  destruct H as (Hok & Hrest).
  - simpl. lia.
  - vm_compute. reflexivity.
  - split; [|exact Hrest]. apply Hok.
    intros taskc Htaskc. vm_compute in Htaskc. injection Htaskc as <-.
    simpl. lia.
Defined.

(** C1 as stated fails when the balancer has written the requested domain
    into [target_dom] while the task is still in another one.  Task 7 is in
    domain 0 ([domc] names domain 0), its affinity is CPUs 0-1, [target_dom]
    is 1, and domain 1 (CPUs 2-3) is requested: a real domain, not the one
    the task is in, with no CPU in the affinity.  The call returns true; the
    state is as it was. *)
Lemma task_set_domain_disjoint_true :
  let st := state2 (taskc0 0 1 false) 3 kernel0 in
  let cfg := config2 2 false 2 in
  1 <> NO_DOM_FOUND cfg
  /\ domc <$> task_ctxs st !! 7 = Some (Some 0)
  /\ cpumask_intersects_domain (cpus_ptr (task7 3 2)) 1 st = false
  /\ task_set_domain kops eops2 cfg (task7 3 2) 1 false st = (true, task7 3 2, st).
Proof.
  split; [simpl; lia|]. split; [vm_compute; reflexivity|].
  split; vm_compute; reflexivity.
Qed.

(** C10 on the reference platform: task 7 is in domain 1 (CPUs 2-3), its
    affinity has shrunk to CPUs 0-1, and domain 1 is requested again. *)
Lemma task_set_domain_same_target_witness :
  (task_set_domain kops eops2 (config2 2 false 2) (task7 3 2) 1 false
     (state2 (taskc0 1 1 false) 12 kernel0)).1.1 = true
  /\ task_set_domain kops eops2 (config2 2 false 2) (task7 3 2) 1 false
       (state2 (taskc0 1 1 false) 12 kernel0)
     = (true, task7 3 2, state2 (taskc0 1 1 false) 12 kernel0).
Proof.
  destruct (task_set_domain_same_target kops eops2 (config2 2 false 2)
              (task7 3 2) 1 false (state2 (taskc0 1 1 false) 12 kernel0)
              (taskc0 1 1 false) 12 (domain 12) 12) as [Hret Hsame].
  - vm_compute. reflexivity.
  - vm_compute. reflexivity.
  - reflexivity.
  - simpl. lia.
  - eexists. vm_compute. reflexivity.
  - vm_compute. reflexivity.
  - reflexivity.
  - split; [exact Hret|]. apply Hsame. vm_compute. reflexivity.
Defined.

(** C9 on the reference platform: with the cached generation 0, a tuning
    input of generation 0 is ignored and one of generation 1 is taken. *)
Lemma refresh_tune_params_generation_witness :
  refresh_tune_params (config2 2 false 2)
    (with_tune_input 0 5000 (boot [3; 12] kernel0))
  = with_tune_input 0 5000 (boot [3; 12] kernel0)
  /\ slice_ns (refresh_tune_params (config2 2 false 2)
                 (with_tune_input 1 5000 (boot [3; 12] kernel0))) = 5000.
Proof.
  split.
  - apply (proj1 (refresh_tune_params_generation (config2 2 false 2)
                    (with_tune_input 0 5000 (boot [3; 12] kernel0)))).
    reflexivity.
  - apply (proj2 (refresh_tune_params_generation (config2 2 false 2)
                    (with_tune_input 1 5000 (boot [3; 12] kernel0)))).
    simpl. lia.
Defined.



(** C5 on the reference platform (capacity 8): the first run of task 7 in
    domain 0, and the tenth of ten successive recordings. *)
Lemma rusty_running_ring_index_witness :
  let st' := (rusty_running kops eops2 (config2 2 false 2) (task7 15 4)
                (state2 (taskc0 0 0 false) 3 kernel0)).2 in
  let d := {| domc_id := 0; active_tasks := empty_ring |} in
  0 <= active_tasks_idx (config2 2 false 2) 0 < 8
  /\ trace st' = []
  /\ (exists d', dom_ctxs st' !! 0 = Some d'
                 /\ write_idx (active_tasks d') = 1
                 /\ tasks (active_tasks d') = [7; 0; 0; 0; 0; 0; 0; 0])
  /\ tasks (active_tasks
              (fold_left
                 (fun d u => active_tasks_record (config2 2 false 2) u d)
                 ten_tasks d))
       !! Z.to_nat (active_tasks_idx (config2 2 false 2) (0 + Z.of_nat 9))
     = Some 10.
Proof.
  destruct (rusty_running_ring_index kops eops2 (config2 2 false 2) (task7 15 4)
              (state2 (taskc0 0 0 false) 3 kernel0) (taskc0 0 0 false) 0
              {| domc_id := 0; active_tasks := empty_ring |})
    as (_ & Hidx & _ & Htrace & (d' & Hd' & _ & Hcur & Htasks) & _ & Hwrap).
  - simpl. lia.
  - vm_compute. reflexivity.
  - reflexivity.
  - vm_compute. reflexivity.
  - vm_compute. discriminate.
  - split; [exact Hidx|]. split; [exact Htrace|]. split.
    + exists d'. split; [exact Hd'|]. split; [exact Hcur|exact Htasks].
    + apply (Hwrap ten_tasks 9%nat 10).
      * reflexivity.
      * simpl. lia.
      * simpl. lia.
      * reflexivity.
      * simpl. lia.
Defined.

(** The scenario of the specification, replayed: after the ten run-starts
    the ring holds the eight most recent tasks (the ninth and tenth writes
    wrapped to the slots 0 and 1), the cursor is at 10, and no error was
    raised. *)
Example ring_after_ten_runs :
  active_tasks <$> dom_ctxs ten_runs !! 0
  = Some {| gen := 0; write_idx := 10; tasks := [9; 10; 3; 4; 5; 6; 7; 8] |}
  /\ trace ten_runs = [].
Proof. split; vm_compute; reflexivity. Qed.

(** The generation is compared by its low 32 bits: a task that carries
    generation 0 is not recorded in a ring whose generation is [2 ^ 32], while
    it is recorded in a ring of generation 1. *)
Example rusty_running_generation_low_bits :
  let st g :=
    set_dom_ctxs
      (<[0 := {| domc_id := 0;
                 active_tasks := {| gen := g; write_idx := 0;
                                    tasks := replicate 8 0 |} |}]>
         (dom_ctxs (boot [3; 12] kernel0)))
      (state2 (set_dom_active_tasks_gen 0 (taskc0 0 0 false)) 3 kernel0) in
  let run g := rusty_running kops eops2 (config2 2 false 2) (task7 15 4) (st g) in
  dom_ctxs (run (2 ^ 32)).2 = dom_ctxs (st (2 ^ 32))
  /\ write_idx <$> (active_tasks <$> dom_ctxs (run (2 ^ 32)).2 !! 0) = Some 0
  /\ write_idx <$> (active_tasks <$> dom_ctxs (run 1).2 !! 0) = Some 1.
Proof. split_and!; vm_compute; reflexivity. Qed.

(** C6 on the reference platform: task 7 pinned to CPU 2. *)
Lemma rusty_select_cpu_pinned_witness :
  let r := rusty_select_cpu kops (config2 2 false 2) (task7 4 1) 2 0
             (state2 (taskc0 1 1 false) 4 kernel0) in
  r.1 = 2
  /\ task_ctxs r.2 !! 7 = Some (taskc0 1 1 true)
  /\ trace r.2 = []
  /\ stats r.2 RUSTY_STAT_PINNED = 1.
Proof.
  destruct (rusty_select_cpu_pinned kops (config2 2 false 2) (task7 4 1) 2 0
              (state2 (taskc0 1 1 false) 4 kernel0) (taskc0 1 1 false) 4)
    as (Hcpu & Hctx & Htrace & _ & Hstats).
  - vm_compute. reflexivity.
  - vm_compute. reflexivity.
  - reflexivity.
  - split; [exact Hcpu|]. split; [exact Hctx|]. split; [exact Htrace|].
    rewrite (Hstats RUSTY_STAT_PINNED). vm_compute. reflexivity.
Defined.



(** C3 as stated fails.  With the cross-node threshold 2, a dispatch on CPU 0
    (domain 0, node 0) probes domain 1 (node 1) and steals from it when one
    task is queued there, below the threshold; with three tasks queued, above
    the threshold, it skips the domain.  After the attempt on the local queue
    the trace is that of the cross-node scan (no other domain is on node 0):
    it does not skip the domains below the threshold, it skips the others. *)
Lemma cross_node_scan_probes_below_threshold :
  trace (rusty_dispatch kops eops2 (config2 2 false 2) 0
           (boot [3; 12] (kernel_q [42])))
  = [ev_dsq_move_to_local 0 false; ev_dsq_nr_queued 1 1;
     ev_dsq_move_to_local 1 true]
  /\ trace (rusty_dispatch kops eops2 (config2 2 false 2) 0
              (boot [3; 12] (kernel_q [42; 43; 44])))
     = [ev_dsq_move_to_local 0 false; ev_dsq_nr_queued 1 3]
  /\ scan_gated (skip_below (config2 2 false 2))
       (drop 1 (trace (rusty_dispatch kops eops2 (config2 2 false 2) 0
                         (boot [3; 12] (kernel_q [42]))))) = false
  /\ scan_gated (skip_below (config2 2 false 2))
       (drop 1 (trace (rusty_dispatch kops eops2 (config2 2 false 2) 0
                         (boot [3; 12] (kernel_q [42; 43; 44]))))) = false.
Proof. repeat split; vm_compute; reflexivity. Qed.

(** C8, amended, on the reference platform in FIFO mode: task 7 of domain 0
    is enqueued on the queue of domain 0. *)
Lemma fifo_mode_bypasses_vtime_witness :
  (exists evs dsq taskc',
     trace (rusty_enqueue kops eops2 (config2 2 true 2) (task7 15 4) 0
              (state2 (taskc0 0 0 false) 3 kernel0)).2 = [] ++ evs
     /\ inserts evs = [ev_dsq_insert 7 dsq 20000 0]
     /\ task_ctxs (rusty_enqueue kops eops2 (config2 2 true 2) (task7 15 4) 0
                     (state2 (taskc0 0 0 false) 3 kernel0)).2 !! 7 = Some taskc'
     /\ dsq = target_dom taskc')
  /\ rusty_stopping kops eops2 (config2 2 true 2) (task7 15 4) true
       (state2 (taskc0 0 0 false) 3 kernel0)
     = (task7 15 4, state2 (taskc0 0 0 false) 3 kernel0).
Proof.
  destruct (fifo_mode_bypasses_vtime kops eops2 (config2 2 true 2) eq_refl)
    as (Henq & _ & _ & _ & Hstop & _).
  split; [|apply Hstop].
  destruct (Henq (task7 15 4) 0 (state2 (taskc0 0 0 false) 3 kernel0)
              (taskc0 0 0 false) 3 0)
    as (evs & dsq & taskc' & Htrace & Hins & Hctx & Hdsq).
  - vm_compute. reflexivity.
  - vm_compute. reflexivity.
  - reflexivity.
  - exists evs, dsq, taskc'. split; [exact Htrace|]. split; [exact Hins|].
    split; [exact Hctx|]. exact Hdsq.
Defined.

(** C8 as stated fails for a task flagged for local dispatch: in FIFO mode
    its enqueue inserts it into the local queue of the CPU ([SCX_DSQ_LOCAL]),
    not into the queue of its domain (0). *)
Lemma fifo_enqueue_local_dispatch :
  let r := rusty_enqueue kops eops2 (config2 2 true 2) (task7 15 4) 0
             (state2 (taskc0 0 0 true) 3 kernel0) in
  inserts (trace r.2) = [ev_dsq_insert 7 SCX_DSQ_LOCAL 20000 0]
  /\ target_dom <$> task_ctxs r.2 !! 7 = Some 0
  /\ ~ exists taskc',
         task_ctxs r.2 !! 7 = Some taskc'
         /\ inserts (trace r.2) = [ev_dsq_insert 7 (target_dom taskc') 20000 0].
Proof.
  split; [vm_compute; reflexivity|]. split; [vm_compute; reflexivity|].
  intros (taskc' & Htaskc & Hins). vm_compute in Htaskc.
  injection Htaskc as <-. vm_compute in Hins. discriminate.
Qed.

(** C2 at the failing input.  Task 7 runs in domain 0 (CPUs 0-1) and may run
    on all four CPUs; the balancer has written [target_dom = 1].  The enqueue
    calls [task_set_domain] with the id of the domain the task is in: the
    load-balance counter is bumped, a CPU of domain 0 is kicked and the task
    is queued, but [target_dom] is back to 0 and the task is still in domain
    0, with the mask of domain 0: it was not moved to domain 1. *)
Lemma rusty_enqueue_ignores_target_dom :
  let r := rusty_enqueue kops eops2 (config2 2 false 2) (task7 15 4) 0
             (state2 (taskc0 0 1 false) 3 kernel0) in
  stats r.2 RUSTY_STAT_LOAD_BALANCE = 1
  /\ trace r.2 = [ev_kick_cpu 0 0; ev_place_task_dl 7 0]
  /\ target_dom <$> task_ctxs r.2 !! 7 = Some 0
  /\ domc <$> task_ctxs r.2 !! 7 = Some (Some 0)
  /\ task_masks r.2 !! 7 = Some (Some 3).
Proof. repeat split; vm_compute; reflexivity. Qed.

End Runs.

(** * Further runs on the reference platform *)

Module MoreRuns.

Import Ref.

(** X2 on the reference platform: the tuning input of generation 1 names the
    CPUs 0 and 2 for direct-greedy and the CPUs 1 and 3 for kick-greedy. *)
Lemma refresh_tune_params_masks_witness :
  let st := with_tune_input 1 5000 (boot [3; 12] kernel0) in
  let st' := refresh_tune_params (config2 2 false 2) st in
  (exists m', kick_greedy_cpumask st' = Some m'
              /\ Z.testbit m' 1 = true /\ Z.testbit m' 2 = false)
  /\ (exists m', direct_greedy_cpumask st' = Some m'
                 /\ Z.testbit m' 2 = true /\ Z.testbit m' 1 = false).
Proof.
  destruct (refresh_tune_params_masks (config2 2 false 2)
              (with_tune_input 1 5000 (boot [3; 12] kernel0))) as [Hk Hd].
  - simpl. lia.
  - simpl. unfold BPF_MAX_LOOPS. lia.
  - intros c Hc _. simpl in Hc.
    assert (c = 0 \/ c = 1 \/ c = 2 \/ c = 3) as [->|[->|[->| ->]]] by lia;
      vm_compute; eauto.
  - split.
    + destruct (Hk 0 eq_refl) as (m' & Hm' & Hbits). exists m'.
      split; [exact Hm'|]. split.
      * rewrite (Hbits 1) by lia. reflexivity.
      * rewrite (Hbits 2) by lia. reflexivity.
    + destruct (Hd 0 eq_refl) as (m' & Hm' & Hbits). exists m'.
      split; [exact Hm'|]. split.
      * rewrite (Hbits 2) by lia. reflexivity.
      * rewrite (Hbits 1) by lia. reflexivity.
Defined.

(** X3 on the reference platform: task 7, allowed on all CPUs and in domain 0,
    is moved to domain 1 (CPUs 2-3). *)
Lemma task_set_domain_migrates_witness :
  let r := task_set_domain kops eops2 (config2 2 false 2) (task7 15 4) 1 false
             (state2 (taskc0 0 0 false) 3 kernel0) in
  r.1.1 = true
  /\ task_masks r.2 !! 7 = Some (Some 12)
  /\ trace r.2 = [].
Proof.
  destruct (task_set_domain_migrates kops eops2 (config2 2 false 2) (task7 15 4)
              1 false (state2 (taskc0 0 0 false) 3 kernel0) (taskc0 0 0 false) 3
              (domain 12) 12)
    as (Hok & _ & _ & Hmask & _ & _ & _ & _ & _ & _ & _ & Htrace).
  - vm_compute. reflexivity.
  - vm_compute. reflexivity.
  - eexists. vm_compute. reflexivity.
  - simpl. lia.
  - eexists. vm_compute. reflexivity.
  - vm_compute. reflexivity.
  - reflexivity.
  - vm_compute. reflexivity.
  - split; [exact Hok|]. split; [exact Hmask|exact Htrace].
Defined.

(** X4 on the reference platform: the teardown of task 7, which is not
    queued. *)
Lemma task_set_domain_no_dom_witness :
  let r := task_set_domain kops eops2 (config2 2 false 2) (task7 15 4) 65 false
             (state2 (taskc0 0 0 false) 3 kernel0) in
  r.1.1 = true
  /\ task_masks r.2 !! 7 = Some (Some 0)
  /\ task_ctxs r.2 = task_ctxs (state2 (taskc0 0 0 false) 3 kernel0).
Proof.
  destruct (task_set_domain_no_dom kops eops2 (config2 2 false 2) (task7 15 4)
              false (state2 (taskc0 0 0 false) 3 kernel0) (taskc0 0 0 false) 3)
    as (Hok & _ & _ & Hmask & Hctx).
  - vm_compute. reflexivity.
  - vm_compute. reflexivity.
  - eexists. vm_compute. reflexivity.
  - split; [exact Hok|]. split; [exact Hmask|exact Hctx].
Defined.

(** X6 on the reference platform: CPU 2 belongs to domain 1. *)
Lemma initialize_cpu_first_domain_witness :
  let r := initialize_cpu kops (config2 2 false 2) 2 (boot [3; 12] kernel0) in
  r.1 = 0
  /\ exists d, 0 <= d < 2
       /\ pcpu_ctx r.2 !! 2 = Some {| dom_rr_cur := u32 2; dom_id := d |}
       /\ dom_cpu_bit 2 d (boot [3; 12] kernel0) = Some true.
Proof.
  destruct (initialize_cpu_first_domain kops (config2 2 false 2) 2
              (boot [3; 12] kernel0)) as (_ & Hfound & Hcomplete & _).
  - simpl. unfold BPF_MAX_LOOPS. lia.
  - assert ((initialize_cpu kops (config2 2 false 2) 2 (boot [3; 12] kernel0)).1
            = 0) as Hret.
    { apply Hcomplete.
      - simpl. lia.
      - intros i Hi. simpl in Hi.
        assert (i = 0 \/ i = 1) as [->| ->] by lia; vm_compute; eauto.
      - exists 1. split; [simpl; lia|]. vm_compute. reflexivity. }
    split; [exact Hret|].
    destruct (Hfound Hret) as (d & Hd & Hbit & _ & Hpcpu & _).
    exists d. split; [exact Hd|]. split; [exact Hpcpu|exact Hbit].
Defined.

(** X9 on the reference platform: for the affinity CPUs 2-3 the domain picked
    is domain 1. *)
Lemma task_pick_domain_result_witness :
  let r := task_pick_domain kops eops2 (config2 2 false 2) (task7 12 2) 12
             (state2 (taskc0 0 0 false) 3 kernel0) in
  r.1 = 1
  /\ cpumask_intersects_domain 12 r.1 (state2 (taskc0 0 0 false) 3 kernel0) = true.
Proof.
  destruct (task_pick_domain_result kops eops2 (config2 2 false 2) (task7 12 2) 12
              (state2 (taskc0 0 0 false) 3 kernel0)) as (_ & Hhit & _).
  - simpl. unfold BPF_MAX_LOOPS. lia.
  - simpl. lia.
  - simpl. pose proof (Z.mod_pos_bound 0 4). lia.
  - assert ((task_pick_domain kops eops2 (config2 2 false 2) (task7 12 2) 12
               (state2 (taskc0 0 0 false) 3 kernel0)).1 = 1) as Hret
      by (vm_compute; reflexivity).
    split; [exact Hret|]. apply Hhit. rewrite Hret. simpl. lia.
Defined.

(** X10 on the reference platform: task 7 is bound to node 1, the node of
    domain 1. *)
Lemma preferred_dom_mask_bits_witness :
  exists taskc',
    task_ctxs (task_set_preferred_mempolicy_dom_mask kops eops2 config_mempolicy
                 (task7_bound 1) (state2 (taskc0 0 0 false) 3 kernel0)) !! 7
    = Some taskc'
    /\ Z.testbit (preferred_dom_mask taskc') 1 = true
    /\ Z.testbit (preferred_dom_mask taskc') 0 = false.
Proof.
  destruct (preferred_dom_mask_bits kops eops2 config_mempolicy (task7_bound 1)
              (state2 (taskc0 0 0 false) 3 kernel0) (taskc0 0 0 false) 3)
    as (taskc' & Hc & Hbits).
  - simpl. lia.
  - simpl. unfold BPF_MAX_LOOPS. lia.
  - vm_compute. reflexivity.
  - vm_compute. reflexivity.
  - exists taskc'. split; [exact Hc|]. split.
    + rewrite (Hbits 1) by lia. reflexivity.
    + rewrite (Hbits 0) by lia. reflexivity.
Defined.

(** The path of the node mask on the reference platform: task 7 has no home
    node and its policy names node 1 in its node mask (bit 1); domain 1, the
    domain of node 1, is preferred. *)
Example preferred_dom_mask_node_mask :
  preferred_dom_mask
    <$> task_ctxs
          (task_set_preferred_mempolicy_dom_mask kops eops2 config_mempolicy
             {| tptr := 7; p_pid := 7; p_flags := 0; cpus_ptr := 15;
                nr_cpus_allowed := 4; scx_flags := 0; scx_dsq_vtime := 0;
                p_mempolicy := Some {| mp_mode := MPOL_PREFERRED_MANY;
                                       mp_home_node := -1;
                                       mp_nodes := Some 2 |} |}
             (state2 (taskc0 0 0 false) 3 kernel0)) !! 7
  = Some 2.
Proof. vm_compute. reflexivity. Qed.

(** X12 on the reference platform: an enqueue of task 7 in vtime mode. *)
Lemma rusty_enqueue_once_witness :
  let r := rusty_enqueue kops eops2 (config2 2 false 2) (task7 15 4) 0
             (state2 (taskc0 0 0 false) 3 kernel0) in
  exists evs e taskc',
    trace r.2 = [] ++ evs
    /\ inserts evs = [e]
    /\ (e = ev_place_task_dl 7 0 /\ fifo_sched (config2 2 false 2) = false
        \/ exists dsq, e = ev_dsq_insert 7 dsq 20000 0)
    /\ task_ctxs r.2 !! 7 = Some taskc'
    /\ dispatch_local taskc' = false.
Proof.
  apply (rusty_enqueue_once kops eops2 (config2 2 false 2) (task7 15 4) 0
           (state2 (taskc0 0 0 false) 3 kernel0) (taskc0 0 0 false) 3 0).
  - vm_compute. reflexivity.
  - vm_compute. reflexivity.
  - reflexivity.
Defined.

(** X13 on the reference platform: task 7 starts to run twice. *)
Lemma rusty_running_once_per_generation_witness :
  let r1 := rusty_running kops eops2 (config2 2 false 2) (task7 15 4)
              (state2 (taskc0 0 0 false) 3 kernel0) in
  let r2 := rusty_running kops eops2 (config2 2 false 2) r1.1 r1.2 in
  dom_ctxs r2.2 = dom_ctxs r1.2 /\ trace r2.2 = trace r1.2.
Proof.
  destruct (rusty_running_once_per_generation kops eops2 (config2 2 false 2)
              (task7 15 4) (state2 (taskc0 0 0 false) 3 kernel0)
              (taskc0 0 0 false) 0
              {| domc_id := 0; active_tasks := empty_ring |})
    as (_ & Hdom & Htrace & _).
  - simpl. lia.
  - vm_compute. reflexivity.
  - reflexivity.
  - vm_compute. reflexivity.
  - split; [exact Hdom|exact Htrace].
Defined.

(** X16 on the reference platform: the affinity of task 7 becomes CPUs 1-2,
    which is not the whole machine (CPUs 0-3). *)
Lemma rusty_set_cpumask_all_cpus_witness :
  let r := rusty_set_cpumask kops eops2 (config2 2 false 2) (task7 6 2) 6
             (state2 (taskc0 0 0 false) 3 kernel0) in
  exists taskc',
    task_ctxs r.2 !! 7 = Some taskc' /\ all_cpus taskc' = false.
Proof.
  destruct (rusty_set_cpumask_all_cpus kops eops2 (config2 2 false 2) (task7 6 2)
              6 (state2 (taskc0 0 0 false) 3 kernel0) 15)
    as (_ & _ & taskc' & Hc & Hall).
  - eexists. vm_compute. reflexivity.
  - reflexivity.
  - exists taskc'. split; [exact Hc|].
    destruct (all_cpus taskc'); [|reflexivity].
    pose proof (proj1 Hall eq_refl 0 ltac:(lia) eq_refl) as Hbit.
    vm_compute in Hbit. discriminate Hbit.
Defined.

(** X17 on the reference platform: task 7, allowed on CPUs 2-3, is admitted
    into domain 1. *)
Lemma rusty_init_task_places_witness :
  let r := rusty_init_task kops eops2 (config2 2 false 2) (task7 12 2)
             (boot [3; 12] kernel0) in
  r.1.1 = 0
  /\ exists taskc' d lbd dmask,
       0 <= d < 2
       /\ lb_domains (boot [3; 12] kernel0) !! d = Some lbd
       /\ lbd_cpumask lbd = Some dmask
       /\ task_ctxs r.2 !! 7 = Some taskc'
       /\ target_dom taskc' = d /\ domc taskc' = Some d
       /\ task_masks r.2 !! 7 = Some (Some (Z.land dmask 12))
       /\ Z.land dmask 12 <> 0
       /\ trace r.2 = [].
Proof.
  apply (rusty_init_task_places kops eops2 (config2 2 false 2) (task7 12 2)
           (boot [3; 12] kernel0) kernel0 kernel0 kernel0).
  - simpl. unfold BPF_MAX_LOOPS. lia.
  - simpl. lia.
  - intros k. simpl. pose proof (Z.mod_pos_bound (k_cpu k) 4). lia.
  - reflexivity.
  - reflexivity.
  - reflexivity.
  - intros d Hd. simpl in Hd.
    assert (d = 0 \/ d = 1) as [->| ->] by lia; vm_compute; eauto.
  - exists 1. split; [simpl; lia|]. vm_compute. reflexivity.
Defined.

(** X18 on the reference platform: task 7 was never admitted. *)
Lemma rusty_enqueue_dropped_witness :
  let r := rusty_enqueue kops eops2 (config2 2 false 2) (task7 15 4) 0
             (boot [3; 12] kernel0) in
  r.1 = task7 15 4
  /\ exists evs, trace r.2 = [] ++ evs /\ inserts evs = []
                 /\ last evs = Some ev_error.
Proof.
  destruct (rusty_enqueue_dropped kops eops2 (config2 2 false 2) (task7 15 4) 0
              (boot [3; 12] kernel0)) as (Hp & _ & evs & Htrace & Hins & _ & Herr).
  - left. vm_compute. reflexivity.
  - split; [exact Hp|]. exists evs. split; [exact Htrace|].
    split; [exact Hins|]. apply Herr. left. vm_compute. reflexivity.
Defined.


(** X19 on the reference platform: task 7 becomes runnable, then quiescent. *)
Lemma runnable_flag_follows_witness :
  (exists taskc',
     task_ctxs (rusty_runnable kops eops2 (config2 2 false 2) (task7 15 4) 0
                  (state2 (taskc0 0 0 false) 3 kernel0)) !! 7 = Some taskc'
     /\ runnable taskc' = true)
  /\ (exists taskc',
        task_ctxs (rusty_quiescent kops eops2 (config2 2 false 2) (task7 15 4) 0
                     (state2 (taskc0 0 0 false) 3 kernel0)) !! 7 = Some taskc'
        /\ runnable taskc' = false).
Proof.
  destruct (runnable_flag_follows kops eops2 (config2 2 false 2) (task7 15 4) 0
              (state2 (taskc0 0 0 false) 3 kernel0) (taskc0 0 0 false))
    as [(t1 & Hc1 & Hr1 & _) (t2 & Hc2 & Hr2 & _)].
  - vm_compute. reflexivity.
  - split; [exists t1|exists t2]; split; assumption.
Defined.


End MoreRuns.
